(** * Kodijong cart widget: cart store, option formatter and order composer

    A shallow embedding of the cart logic of [script.js]: the [CartManager]
    singleton (cart store with its read cache, cart-count badge, notification
    queue, option formatter, WhatsApp order composer) and the page controller's
    [updateCartDisplay] with its remove-item click handler.

    Modelling conventions.
    - A JavaScript string is the byte string of its UTF-8 encoding.  All the
      string builtins the script uses ([trim], [replace], [split],
      [startsWith], [encodeURIComponent], the regular expressions) act on
      ASCII characters or on whole white-space code points, so they are
      written byte-wise; the white-space class is the ECMAScript one.
    - A JavaScript number is [NaN], an infinity or an exact rational.  The
      rounding of binary64 arithmetic, overflow and the negative zero are not
      modelled: sums and products are exact.
    - Values read from a cart entry are JSON scalars ([JsVal]); a missing
      property reads as [JUndefined].  A cart entry is an object and the
      elements of its [extras] and [drinks] arrays are objects.
    - Everything the environment decides (the clock, a storage access that
      throws, the random source, the locale's rendering of the order time,
      the outcome of [window.open]) is an explicit argument of the operation
      that consults it. *)

From Stdlib Require Import ZArith QArith Qround Qabs String Ascii List Bool Lia.
From Stdlib Require Import DecimalString.
From Stdlib Require Qcanon DecimalFacts DecimalPos DecimalN.
From stdpp Require Import list strings.

(** ** Strings *)

Module Str.

Definition nl : string := String (ascii_of_nat 10) "".
Definition dq : string := String (ascii_of_nat 34) "".

Fixpoint drop (n : nat) (s : string) : string :=
  match n, s with
  | S k, String _ r => drop k r
  | _, _ => s
  end.

Fixpoint take (n : nat) (s : string) : string :=
  match n, s with
  | S k, String a r => String a (take k r)
  | _, _ => ""
  end.

Fixpoint filter (keep : ascii -> bool) (s : string) : string :=
  match s with
  | "" => ""
  | String a r => if keep a then String a (filter keep r) else filter keep r
  end.

Fixpoint all (p : ascii -> bool) (s : string) : bool :=
  match s with
  | "" => true
  | String a r => p a && all p r
  end.

Definition isEmpty (s : string) : bool :=
  match s with "" => true | _ => false end.

Fixpoint join (sep : string) (l : list string) : string :=
  match l with
  | [] => ""
  | [x] => x
  | x :: r => x +:+ sep +:+ join sep r
  end.

Fixpoint repeat (a : ascii) (n : nat) : string :=
  match n with O => "" | S k => String a (repeat a k) end.

(** [s.startsWith(p)] *)
Definition startsWith (p s : string) : bool := String.prefix p s.

(** Number of bytes of the white-space code point that starts [s], [0] when
    [s] does not start with one.  The class is WhiteSpace and LineTerminator
    of ECMAScript: TAB LF VT FF CR SP, U+00A0, U+1680, U+2000..U+200A,
    U+2028, U+2029, U+202F, U+205F, U+3000, U+FEFF. *)
Definition whiteSpaceLen (s : string) : nat :=
  match s with
  | String a r =>
    let c := N_of_ascii a in
    if ((9 <=? c) && (c <=? 13) || (c =? 32))%N then 1
    else match r with
    | String b r' =>
      let d := N_of_ascii b in
      if ((c =? 194) && (d =? 160))%N then 2
      else match r' with
      | String e _ =>
        let f := N_of_ascii e in
        if ((c =? 225) && (d =? 154) && (f =? 128)
            || (c =? 226) && (d =? 128)
               && ((128 <=? f) && (f <=? 138) || (f =? 168) || (f =? 169) || (f =? 175))
            || (c =? 226) && (d =? 129) && (f =? 159)
            || (c =? 227) && (d =? 128) && (f =? 128)
            || (c =? 239) && (d =? 187) && (f =? 191))%N
        then 3 else 0
      | "" => 0
      end
    | "" => 0
    end
  | "" => 0
  end.

(** [s.replace(/\s/g, '')]; [skip] counts the bytes still to drop of the
    white-space code point being removed. *)
Fixpoint removeWhiteSpaceFrom (skip : nat) (s : string) : string :=
  match s with
  | "" => ""
  | String a r =>
    match skip with
    | S k => removeWhiteSpaceFrom k r
    | O =>
      match whiteSpaceLen s with
      | O => String a (removeWhiteSpaceFrom 0 r)
      | S k => removeWhiteSpaceFrom k r
      end
    end
  end.

Definition removeWhiteSpace (s : string) : string := removeWhiteSpaceFrom 0 s.

Fixpoint trimStartFrom (skip : nat) (s : string) : string :=
  match s with
  | "" => ""
  | String _ r =>
    match skip with
    | S k => trimStartFrom k r
    | O =>
      match whiteSpaceLen s with
      | O => s
      | S k => trimStartFrom k r
      end
    end
  end.

Definition trimStart (s : string) : string := trimStartFrom 0 s.

Fixpoint trimEnd (s : string) : string :=
  match s with
  | "" => ""
  | String a r => if isEmpty (removeWhiteSpace s) then "" else String a (trimEnd r)
  end.

(** [s.trim()] *)
Definition trim (s : string) : string := trimEnd (trimStart s).

(** [s.replace(pat, '')] for a string pattern: the first occurrence goes. *)
Fixpoint removeFirst (pat s : string) : string :=
  if startsWith pat s then drop (String.length pat) s
  else match s with
       | "" => ""
       | String a r => String a (removeFirst pat r)
       end.

(** [s.split(sep)] for a non-empty separator; [cur] is the piece being
    read and [skip] the bytes of a matched separator still to pass. *)
Fixpoint splitFrom (sep cur : string) (skip : nat) (s : string) : list string :=
  match s with
  | "" => [cur]
  | String a r =>
    match skip with
    | S k => splitFrom sep cur k r
    | O =>
      if startsWith sep s
      then cur :: splitFrom sep "" (String.length sep - 1) r
      else splitFrom sep (cur +:+ String a "") 0 r
    end
  end.

Definition split (sep s : string) : list string := splitFrom sep "" 0 s.

Definition isDigit (a : ascii) : bool :=
  let c := N_of_ascii a in ((48 <=? c) && (c <=? 57))%N.

Definition digitValue (a : ascii) : Z := Z.of_N (N_of_ascii a) - 48.

(** Value of a hexadecimal digit, if [a] is one. *)
Definition hexValue (a : ascii) : option Z :=
  let c := N_of_ascii a in
  if ((48 <=? c) && (c <=? 57))%N then Some (Z.of_N c - 48)%Z
  else if ((65 <=? c) && (c <=? 70))%N then Some (Z.of_N c - 55)%Z
  else if ((97 <=? c) && (c <=? 102))%N then Some (Z.of_N c - 87)%Z
  else None.

Definition hexDigit (n : N) : ascii :=
  ascii_of_N (if (n <? 10)%N then 48 + n else 55 + n)%N.

(** Characters [encodeURIComponent] leaves alone: letters, digits and
    [- _ . ! ~ * ' ( )]. *)
Definition uriUnreserved (a : ascii) : bool :=
  let c := N_of_ascii a in
  ((48 <=? c) && (c <=? 57) || (65 <=? c) && (c <=? 90) || (97 <=? c) && (c <=? 122)
   || (c =? 45) || (c =? 95) || (c =? 46) || (c =? 33) || (c =? 126)
   || (c =? 42) || (c =? 39) || (c =? 40) || (c =? 41))%N.

Fixpoint encodeURIComponent (s : string) : string :=
  match s with
  | "" => ""
  | String a r =>
    if uriUnreserved a then String a (encodeURIComponent r)
    else let c := N_of_ascii a in
         String "%" (String (hexDigit (c / 16)) (String (hexDigit (c mod 16))
                    (encodeURIComponent r)))
  end.

(** Decimal digits of a natural number. *)
Definition ofN (n : N) : string := NilEmpty.string_of_uint (N.to_uint n).

End Str.

(** ** Numbers *)

Module Num.

Inductive t : Type :=
| NaN
| Inf (negative : bool)
| Fin (q : Q).

Definition ofZ (z : Z) : t := Fin (inject_Z z).

Definition isNegative (q : Q) : bool := negb (Qle_bool 0 q).

(** [a * b] *)
Definition mul (a b : t) : t :=
  match a, b with
  | NaN, _ | _, NaN => NaN
  | Inf s, Inf s' => Inf (xorb s s')
  | Inf s, Fin q | Fin q, Inf s =>
    if Qeq_bool q 0 then NaN else Inf (xorb s (isNegative q))
  | Fin p, Fin q => Fin (p * q)
  end.

(** [a + b] *)
Definition add (a b : t) : t :=
  match a, b with
  | NaN, _ | _, NaN => NaN
  | Inf s, Inf s' => if Bool.eqb s s' then Inf s else NaN
  | Inf s, Fin _ | Fin _, Inf s => Inf s
  | Fin p, Fin q => Fin (p + q)
  end.

(** The value is falsy: [NaN] or zero. *)
Definition falsy (x : t) : bool :=
  match x with
  | NaN => true
  | Inf _ => false
  | Fin q => Qeq_bool q 0
  end.

Definition digitCount (n : Z) : Z :=
  Z.of_nat (String.length (Str.ofN (Z.to_N n))).

(** For positive [a] and [b], the [n] with [10^(n-1) <= a/b < 10^n]. *)
Definition decimalExponent (a b : Z) : Z :=
  let e := (digitCount a - digitCount b)%Z in
  let reaches := if (0 <=? e)%Z then (b * 10 ^ e <=? a)%Z
                 else (b <=? a * 10 ^ (- e))%Z in
  if reaches then (e + 1)%Z else e.

Fixpoint stripZeros (fuel : nat) (s : Z) : Z :=
  match fuel with
  | O => s
  | S k => if ((s mod 10 =? 0) && (10 <=? s))%Z then stripZeros k (s / 10)%Z else s
  end.

(** Number::toString for a positive rational [a/b]: the significant
    digits (at most 17, trailing zeros dropped) laid out by the four
    cases of the standard. *)
Definition positiveToString (a b : Z) : string :=
  let n := decimalExponent a b in
  let s17 := if (n <=? 17)%Z then (a * 10 ^ (17 - n) / b)%Z
             else (a / (b * 10 ^ (n - 17)))%Z in
  let ds := Str.ofN (Z.to_N (stripZeros 17 s17)) in
  let k := Z.of_nat (String.length ds) in
  if ((k <=? n) && (n <=? 21))%Z then
    ds +:+ Str.repeat "0" (Z.to_nat (n - k))
  else if ((0 <? n) && (n <=? 21))%Z then
    Str.take (Z.to_nat n) ds +:+ "." +:+ Str.drop (Z.to_nat n) ds
  else if ((-6 <? n) && (n <=? 0))%Z then
    "0." +:+ Str.repeat "0" (Z.to_nat (- n)) +:+ ds
  else
    let e := (n - 1)%Z in
    let es := (if (e <? 0)%Z then "-" else "+") +:+ Str.ofN (Z.to_N (Z.abs e)) in
    if (k =? 1)%Z then ds +:+ "e" +:+ es
    else Str.take 1 ds +:+ "." +:+ Str.drop 1 ds +:+ "e" +:+ es.

(** [String(x)] for a number *)
Definition toString (x : t) : string :=
  match x with
  | NaN => "NaN"
  | Inf s => if s then "-Infinity" else "Infinity"
  | Fin q =>
    let r := Qred q in
    if Qeq_bool r 0 then "0"
    else (if isNegative r then "-" else "")
           +:+ positiveToString (Z.abs (Qnum r)) (Z.pos (Qden r))
  end.

(** [x.toFixed(2)]: the nearest hundredth, the larger one on a tie of the
    absolute value; a value of at least [10^21] is printed by [toString]. *)
Definition toFixed2 (x : t) : string :=
  match x with
  | NaN => "NaN"
  | Inf s => if s then "-Infinity" else "Infinity"
  | Fin q =>
    let r := Qred q in
    if Qle_bool (inject_Z (10 ^ 21)) (Qabs r) then toString (Fin r)
    else
      let n := Qfloor (Qabs r * inject_Z 100 + (1 # 2)) in
      (if isNegative r then "-" else "")
        +:+ Str.ofN (Z.to_N (n / 100)) +:+ "."
        +:+ Str.ofN (Z.to_N (n mod 100 / 10)) +:+ Str.ofN (Z.to_N (n mod 10))
  end.

(** Integer part of a rational, towards zero. *)
Definition truncate (q : Q) : Z := Z.quot (Qnum q) (Z.pos (Qden q)).

(** [parseInt(x)] for a number [x]: the digits that start [String(x)].  In
    the plain-notation range, [10^-6 <= |x| < 10^21] and zero, that is the
    integer part; in exponent notation it is the leading digit. *)
Definition parseInt (x : t) : option Z :=
  match x with
  | NaN | Inf _ => None
  | Fin q =>
    let r := Qred q in
    if Qeq_bool r 0 then Some 0%Z
    else if Qle_bool (1 # 1000000) (Qabs r)
            && negb (Qle_bool (inject_Z (10 ^ 21)) (Qabs r))
    then Some (truncate r)
    else
      let a := Z.abs (Qnum r) in
      let b := Z.pos (Qden r) in
      let n := decimalExponent a b in
      let d := if (n <=? 1)%Z then (a * 10 ^ (1 - n) / b)%Z
               else (a / (b * 10 ^ (n - 1)))%Z in
      Some (if isNegative r then (- d)%Z else d)
  end.

(** Reads the decimal digits that start [s]: their value on top of [acc],
    how many there were, and the rest of the string. *)
Fixpoint readDigits (acc : Z) (n : nat) (s : string) : Z * nat * string :=
  match s with
  | "" => (acc, n, s)
  | String a r =>
    if Str.isDigit a then readDigits (acc * 10 + Str.digitValue a)%Z (S n) r
    else (acc, n, s)
  end.

(** Reads the digits in base [radix] that start [s]; [None] when there is
    none. *)
Fixpoint readRadix (radix : Z) (acc : option Z) (s : string) : option Z :=
  match s with
  | "" => acc
  | String a r =>
    match Str.hexValue a with
    | Some v =>
      if (v <? radix)%Z
      then readRadix radix (Some (default 0%Z acc * radix + v)%Z) r
      else acc
    | None => acc
    end
  end.

(** An optional sign at the start of [s]. *)
Definition readSign (s : string) : bool * string :=
  match s with
  | String "-" r => (true, r)
  | String "+" r => (false, r)
  | _ => (false, s)
  end.

(** [parseInt(s)] ([radix10 = false]: the radix is chosen from the
    string, a [0x] prefix selecting 16) and [parseInt(s, 10)]. *)
Definition parseIntString (radix10 : bool) (s : string) : option Z :=
  let '(neg, r) := readSign (Str.trimStart s) in
  let hex := negb radix10 && (Str.startsWith "0x" r || Str.startsWith "0X" r) in
  let v := if hex then readRadix 16 None (Str.drop 2 r) else readRadix 10 None r in
  option_map (fun z => if neg then (- z)%Z else z) v.

(** [parseFloat(s)] *)
Definition parseFloatString (s : string) : t :=
  let '(neg, r) := readSign (Str.trimStart s) in
  if Str.startsWith "Infinity" r then Inf neg
  else
    let '(ip, ni, r1) := readDigits 0 0 r in
    let '(fp, nf, r2) := match r1 with
                         | String "." r' => readDigits 0 0 r'
                         | _ => (0%Z, O, r1)
                         end in
    match ni + nf with
    | O => NaN
    | _ =>
      let e := match r2 with
               | String c r' =>
                 if (Ascii.eqb c "e" || Ascii.eqb c "E")%bool then
                   let '(eneg, r'') := readSign r' in
                   let '(ev, ne, _) := readDigits 0 0 r'' in
                   match ne with
                   | O => 0%Z
                   | _ => if eneg then (- ev)%Z else ev
                   end
                 else 0%Z
               | "" => 0%Z
               end in
      let m := (ip * 10 ^ Z.of_nat nf + fp)%Z in
      Fin (Qred (inject_Z (if neg then - m else m)
                 * Qpower (inject_Z 10) (e - Z.of_nat nf)))
    end.

End Num.

(** ** Scalar values *)

Inductive JsVal : Type :=
| JUndefined
| JNull
| JBool (b : bool)
| JNum (n : Num.t)
| JStr (s : string).

(** The value is truthy (the left operand of [||] and [&&], the condition
    of [if] and [?:]). *)
Definition truthy (v : JsVal) : bool :=
  match v with
  | JUndefined | JNull => false
  | JBool b => b
  | JNum n => negb (Num.falsy n)
  | JStr s => negb (Str.isEmpty s)
  end.

(** [String(v)] *)
Definition toString (v : JsVal) : string :=
  match v with
  | JUndefined => "undefined"
  | JNull => "null"
  | JBool b => if b then "true" else "false"
  | JNum n => Num.toString n
  | JStr s => s
  end.

(** [parseInt(v)]; [None] is [NaN]. *)
Definition parseInt (v : JsVal) : option Z :=
  match v with
  | JNum n => Num.parseInt n
  | _ => Num.parseIntString false (toString v)
  end.

(** [parseFloat(v)] *)
Definition parseFloat (v : JsVal) : Num.t :=
  match v with
  | JNum n => n
  | _ => Num.parseFloatString (toString v)
  end.

(** [parseInt(v) || d] *)
Definition parseIntOr (d : Z) (v : JsVal) : Z :=
  match parseInt v with
  | Some z => if (z =? 0)%Z then d else z
  | None => d
  end.

(** [parseFloat(v) || 0] *)
Definition parseFloatOr0 (v : JsVal) : Num.t :=
  let x := parseFloat v in
  if Num.falsy x then Num.ofZ 0 else x.

(** [String(v || '')] *)
Definition stringOrEmpty (v : JsVal) : string :=
  if truthy v then toString v else "".

(** [.replace(/[*_~`]/g, '')]: the characters of WhatsApp's markup. *)
Definition isMarkup (a : ascii) : bool :=
  (Ascii.eqb a "*" || Ascii.eqb a "_" || Ascii.eqb a "~" || Ascii.eqb a "`")%bool.

Definition stripMarkup (s : string) : string :=
  Str.filter (fun a => negb (isMarkup a)) s.

(** [.replace(/[<>]/g, '')] *)
Definition isAngle (a : ascii) : bool := (Ascii.eqb a "<" || Ascii.eqb a ">")%bool.

Definition stripAngles (s : string) : string :=
  Str.filter (fun a => negb (isAngle a)) s.

(** The attribute escape of the item template: every double quote becomes
    the entity [&quot;]. *)
Fixpoint escapeQuotes (s : string) : string :=
  match s with
  | "" => ""
  | String a r =>
    if Ascii.eqb a (ascii_of_nat 34) then "&quot;" +:+ escapeQuotes r
    else String a (escapeQuotes r)
  end.

(** ** Cart entries *)

(** An element of [extras] or [drinks]: [{name, price, quantity}]. *)
Module Addon.
Record t : Type := make {
  name : JsVal;
  price : JsVal;
  quantity : JsVal
}.
End Addon.

(** A cart entry.  [extras] and [drinks] are [Some l] when the property
    holds an array, of elements [l], and [None] when it is missing or holds
    anything else: the script tests [Array.isArray] before it looks inside. *)
Module Item.
Record t : Type := make {
  id : JsVal;
  productId : JsVal;
  name : JsVal;
  basePrice : JsVal;
  quantity : JsVal;
  options : JsVal;
  image : JsVal;
  timestamp : JsVal;
  extras : option (list Addon.t);
  drinks : option (list Addon.t);
  baseProductPrice : JsVal
}.
End Item.

(** A cart is an array of entries. *)
Abbreviation Cart := (list Item.t).

(** What [JSON.parse(JSON.stringify(v))] makes of a scalar: [NaN] and the
    infinities become [null]; a property holding [undefined] is left out,
    so it still reads as [undefined]. *)
Definition jsonScalar (v : JsVal) : JsVal :=
  match v with
  | JNum Num.NaN | JNum (Num.Inf _) => JNull
  | _ => v
  end.

Definition jsonAddon (a : Addon.t) : Addon.t :=
  Addon.make (jsonScalar (Addon.name a)) (jsonScalar (Addon.price a))
             (jsonScalar (Addon.quantity a)).

Definition jsonItem (it : Item.t) : Item.t :=
  Item.make (jsonScalar (Item.id it)) (jsonScalar (Item.productId it))
            (jsonScalar (Item.name it)) (jsonScalar (Item.basePrice it))
            (jsonScalar (Item.quantity it)) (jsonScalar (Item.options it))
            (jsonScalar (Item.image it)) (jsonScalar (Item.timestamp it))
            (option_map (map jsonAddon) (Item.extras it))
            (option_map (map jsonAddon) (Item.drinks it))
            (jsonScalar (Item.baseProductPrice it)).

(** ** Literal text of the templates *)

(** The pictographs and the rule of the script's templates, byte for byte
    as the source file has them. *)
Module Glyph.

Definition greens : string := "ü•¨".
Definition sauces : string := "üç∂".
Definition package : string := "üì¶".
Definition plus : string := "‚ûï".
Definition drink : string := "ü•§".
Definition person : string := "üë§".
Definition phone : string := "üìû".
Definition money : string := "üí∞".
Definition clock : string := "‚è∞".
Definition memo : string := "üìù".
Definition pin : string := "üìç".
Definition check : string := "‚úÖ".
Definition dash : string := "‚îÄ".
(** Twenty dashes: the divider between entries and above the footer. *)
Definition rule : string := Str.join "" (replicate 20 dash).

End Glyph.

(** ** State *)

(** The text under the key [kodijongCart] of [localStorage], by what
    [getCart] can make of it. *)
Inductive StoredText : Type :=
| TextEmpty                  (* the empty string: falsy, never parsed *)
| TextInvalid                (* [JSON.parse] throws on it *)
| TextArray (cart : Cart)    (* parses to an array *)
| TextOther.                 (* parses to a value that is not an array *)

Record Store : Type := {
  kodijongCart : option StoredText;   (* [None]: [getItem] returns [null] *)
  _cartCache : option Cart;           (* [None]: [null] *)
  _cartCacheTime : Z
}.

Definition _CACHE_DURATION : Z := 1000.

Inductive NotificationType : Type := Success | Error | Info.

Record Notification : Type := {
  message : string;
  type : NotificationType
}.

Record Notifier : Type := {
  _notificationQueue : list Notification;
  _notificationShowing : bool;
  notificationNode : option Notification   (* the [.notification] element *)
}.

(** The two variables closed over by [updateCartCount]. *)
Record Debounce : Type := {
  updateTimeout : bool;    (* a timer is set *)
  pendingUpdate : bool
}.

(** An element showing the number of items in the cart. *)
Record CountElement : Type := {
  textContent : string;
  badge : bool;           (* has the class [badge] *)
  display : string        (* [style.display] *)
}.

(** A child of the order list, by the holes of its template. *)
Inductive Li : Type :=
| EmptyCartLi
| CartItemLi (src alt label price optionsHtml : string) (dataIndex : nat).

Record Dom : Type := {
  customer_name : option string;          (* [None]: no such element *)
  customer_phone : option string;
  special_instructions : option string;
  cartElements : list CountElement;
  orderList : option (list Li);
  totalPriceElement : option string;
  orderListListeners : nat     (* click listeners added to the order list *)
}.

Inductive Timer : Type :=
| NotificationExit      (* 3000 ms: start the exit animation *)
| NotificationRemove    (* 300 ms: remove the element, show the next *)
| CartCountFlush.       (* 50 ms: the debounced count update *)

Record World : Type := {
  store : Store;
  notifier : Notifier;
  debounce : Debounce;
  dom : Dom;
  console : list string;         (* [console.error] *)
  opened : list string;          (* windows opened by [window.open] *)
  timers : list (Z * Timer)      (* [setTimeout] calls, latest last *)
}.

Definition withStore (f : Store -> Store) (w : World) : World :=
  {| store := f (store w); notifier := notifier w; debounce := debounce w;
     dom := dom w; console := console w; opened := opened w; timers := timers w |}.

Definition withNotifier (f : Notifier -> Notifier) (w : World) : World :=
  {| store := store w; notifier := f (notifier w); debounce := debounce w;
     dom := dom w; console := console w; opened := opened w; timers := timers w |}.

Definition withDebounce (f : Debounce -> Debounce) (w : World) : World :=
  {| store := store w; notifier := notifier w; debounce := f (debounce w);
     dom := dom w; console := console w; opened := opened w; timers := timers w |}.

Definition withDom (f : Dom -> Dom) (w : World) : World :=
  {| store := store w; notifier := notifier w; debounce := debounce w;
     dom := f (dom w); console := console w; opened := opened w; timers := timers w |}.

Definition consoleError (line : string) (w : World) : World :=
  {| store := store w; notifier := notifier w; debounce := debounce w;
     dom := dom w; console := console w ++ [line]; opened := opened w;
     timers := timers w |}.

Definition windowOpened (url : string) (w : World) : World :=
  {| store := store w; notifier := notifier w; debounce := debounce w;
     dom := dom w; console := console w; opened := opened w ++ [url];
     timers := timers w |}.

Definition setTimeout (t : Timer) (ms : Z) (w : World) : World :=
  {| store := store w; notifier := notifier w; debounce := debounce w;
     dom := dom w; console := console w; opened := opened w;
     timers := timers w ++ [(ms, t)] |}.

(** One access to the storage: what [Date.now()] returns around it and
    whether the storage call throws. *)
Record Access : Type := {
  now : Z;
  throws : bool
}.

(** ** CartManager: the cart store *)

(** The array [getCart] returns: the cache object itself, or the fresh empty
    array of the [catch] branch. *)
Inductive CartRef : Type := TheCache | FreshEmpty.

Definition deref (r : CartRef) (w : World) : Cart :=
  match r with
  | TheCache => default [] (_cartCache (store w))
  | FreshEmpty => []
  end.

Definition cacheValid (t : Z) (s : Store) : bool :=
  match _cartCache s with
  | Some _ => (t - _cartCacheTime s <? _CACHE_DURATION)%Z
  | None => false
  end.

Definition setCache (c : Cart) (t : Z) (s : Store) : Store :=
  {| kodijongCart := kodijongCart s; _cartCache := Some c; _cartCacheTime := t |}.

Definition getCart (e : Access) (w : World) : CartRef * World :=
  if cacheValid (now e) (store w) then (TheCache, w)
  else if throws e then (FreshEmpty, consoleError "Error reading cart:" w)
  else match kodijongCart (store w) with
       | Some TextInvalid => (FreshEmpty, consoleError "Error reading cart:" w)
       | Some (TextArray cart) => (TheCache, withStore (setCache cart (now e)) w)
       | Some TextOther | Some TextEmpty | None =>
         (TheCache, withStore (setCache [] (now e)) w)
       end.

(** The argument of [saveCart]. *)
Inductive SaveArg : Type :=
| AnArray (cart : Cart)
| NotAnArray (v : JsVal).

Definition saveCart (arg : SaveArg) (e : Access) (w : World) : bool * World :=
  match arg with
  | NotAnArray _ => (false, consoleError "Attempted to save non-array cart" w)
  | AnArray cart =>
    if throws e then (false, consoleError "Error saving cart:" w)
    else (true,
          withStore (fun _ => {| kodijongCart := Some (TextArray (map jsonItem cart));
                                 _cartCache := Some cart;
                                 _cartCacheTime := now e |}) w)
  end.

(** ** CartManager: the cart count *)

Definition updateCartCount (w : World) : World :=
  if updateTimeout (debounce w)
  then withDebounce (fun d => {| updateTimeout := true; pendingUpdate := true |}) w
  else setTimeout CartCountFlush 50
         (withDebounce (fun d => {| updateTimeout := true;
                                    pendingUpdate := pendingUpdate d |}) w).

(** The sum the badge shows: [parseInt(item.quantity) || 0] per entry,
    counted when positive. *)
Definition totalItems (cart : Cart) : Z :=
  fold_left (fun sum item =>
               let quantity := parseIntOr 0 (Item.quantity item) in
               (sum + (if (0 <? quantity)%Z then quantity else 0))%Z)
            cart 0%Z.

Definition refreshCount (total : Z) (el : CountElement) : CountElement :=
  let currentCount := default 0%Z (Num.parseIntString false (textContent el)) in
  if (currentCount =? total)%Z then el
  else {| textContent := Num.toString (Num.ofZ total);
          badge := badge el;
          display := if badge el
                     then (if (0 <? total)%Z then "flex" else "none")
                     else display el |}.

Definition _updateCartCountImmediate (e : Access) (w : World) : World :=
  let '(cart, w1) := getCart e w in
  let total := totalItems (deref cart w1) in
  withDom (fun d => {| customer_name := customer_name d;
                       customer_phone := customer_phone d;
                       special_instructions := special_instructions d;
                       cartElements := map (refreshCount total) (cartElements d);
                       orderList := orderList d;
                       totalPriceElement := totalPriceElement d;
                       orderListListeners := orderListListeners d |}) w1.

(** The callback of the timer set by [updateCartCount]. *)
Definition cartCountFlush (e : Access) (w : World) : World :=
  let w1 := withDebounce (fun d => {| updateTimeout := false;
                                      pendingUpdate := pendingUpdate d |}) w in
  if pendingUpdate (debounce w1)
  then _updateCartCountImmediate e
         (withDebounce (fun d => {| updateTimeout := updateTimeout d;
                                    pendingUpdate := false |}) w1)
  else w1.

(** ** CartManager: the order number *)

(** The source of randomness the page offers. *)
Inductive Random : Type :=
| Crypto (word : Z)        (* [crypto.getRandomValues], a 32-bit word *)
| MathRandom (x : Q).      (* [Math.random()] *)

Definition generateOrderNumber (r : Random) : Z :=
  match r with
  | Crypto word => (Z.rem word 9000 + 1000)%Z
  | MathRandom x => (Qfloor (x * inject_Z 9000) + 1000)%Z
  end.

(** ** CartManager: notifications *)

Definition _showNextNotification (w : World) : World :=
  match _notificationQueue (notifier w) with
  | [] =>
    withNotifier (fun n => {| _notificationQueue := [];
                              _notificationShowing := false;
                              notificationNode := notificationNode n |}) w
  | n :: rest =>
    setTimeout NotificationExit 3000
      (withNotifier (fun _ => {| _notificationQueue := rest;
                                 _notificationShowing := true;
                                 notificationNode :=
                                   Some {| message := stripAngles (message n);
                                           type := type n |} |}) w)
  end.

Definition showNotification (msg : string) (ty : NotificationType) (w : World) : World :=
  let w1 := withNotifier
              (fun n => {| _notificationQueue :=
                             _notificationQueue n ++ [{| message := msg; type := ty |}];
                           _notificationShowing := _notificationShowing n;
                           notificationNode := notificationNode n |}) w in
  if _notificationShowing (notifier w1) then w1 else _showNextNotification w1.

(** The callbacks of the two timers of a notification. *)
Definition notificationExit (w : World) : World :=
  setTimeout NotificationRemove 300 w.

Definition notificationRemove (w : World) : World :=
  _showNextNotification
    (withNotifier (fun n => {| _notificationQueue := _notificationQueue n;
                               _notificationShowing := _notificationShowing n;
                               notificationNode := None |}) w).

(** ** CartManager: options for display *)

Definition div (class body : string) : string :=
  "<div class=" +:+ Str.dq +:+ class +:+ Str.dq +:+ ">" +:+ body +:+ "</div>".

(** The body of the loop over the pieces of [item.options]: the fragments
    it pushes. *)
Definition displayOption (opt : string) : list string :=
  if Str.startsWith "Greens:" opt then
    let greens := Str.trim (Str.removeFirst "Greens:" opt) in
    [div "cart-option-item"
         (Glyph.greens +:+ " " +:+ (if Str.isEmpty greens then "Not specified" else greens))]
  else if Str.startsWith "Sauces:" opt then
    let sauces := Str.trim (Str.removeFirst "Sauces:" opt) in
    [div "cart-option-item"
         (Glyph.sauces +:+ " " +:+ (if Str.isEmpty sauces then "Not specified" else sauces))]
  else [].

(** The body of the loop over [item.extras] or [item.drinks]: [has] tells
    whether a line was written, [html] is the markup so far, which starts
    with the header. *)
Definition displayAddonStep (header icon : string) (acc : bool * string)
           (addon : Addon.t) : bool * string :=
  let '(has, html) := acc in
  let quantity := parseIntOr 0 (Addon.quantity addon) in
  if (0 <? quantity)%Z then
    let html := if has then html else div "cart-option-item" header in
    let safeName := stripAngles (stringOrEmpty (Addon.name addon)) in
    (true, html +:+ div "cart-sub-option"
                    (icon +:+ " " +:+ safeName +:+ " x"
                          +:+ Num.toString (Num.ofZ quantity)))
  else (has, html).

Definition displayAddons (header icon : string) (l : list Addon.t) : bool * string :=
  fold_left (displayAddonStep header icon) l (false, "").

Definition addonFragments (header icon : string) (field : option (list Addon.t))
  : list string :=
  match field with
  | Some l => let '(has, html) := displayAddons header icon l in
              if has then [html] else []
  | None => []
  end.

Definition optionFragments (item : Item.t) : list string :=
  match Item.options item with
  | JStr s => if Str.isEmpty s then [] else flat_map displayOption (Str.split " | " s)
  | _ => []
  end.

Definition formatOptionsForDisplay (item : Item.t) : string :=
  Str.join ""
    (optionFragments item
       ++ addonFragments (Glyph.package +:+ " Extras:") Glyph.plus (Item.extras item)
       ++ addonFragments (Glyph.drink +:+ " Drinks:") Glyph.drink (Item.drinks item)).

(** ** CartManager: the order message *)

(** The body of the loop over the pieces of [item.options] in
    [sendWhatsAppOrder]: the text it appends to the message. *)
Definition textOption (opt : string) : string :=
  if Str.startsWith "Greens:" opt then
    let greens := Str.trim (Str.removeFirst "Greens:" opt) in
    Str.nl +:+ Glyph.greens +:+ " *Greens:* "
      +:+ (if String.eqb greens "with greens" then "with greens" else "no greens")
  else if Str.startsWith "Sauces:" opt then
    let sauces := Str.trim (Str.removeFirst "Sauces:" opt) in
    if String.eqb sauces "all sauces" then
      Str.nl +:+ Glyph.sauces +:+ " *Sauces:* all sauces"
    else if String.eqb sauces "no sauces" then
      Str.nl +:+ Glyph.sauces +:+ " *Sauces:* no sauces"
    else Str.nl +:+ Glyph.sauces +:+ " *Sauces:* " +:+ stripMarkup sauces
  else "".

(** The body of the loops that fill [extrasList] and [drinksList] in
    [sendWhatsAppOrder]. *)
Definition textAddonStep (entries : list string) (addon : Addon.t) : list string :=
  let quantity := parseIntOr 0 (Addon.quantity addon) in
  if (0 <? quantity)%Z then
    let safeName := stripMarkup (stringOrEmpty (Addon.name addon)) in
    entries ++ [safeName +:+ " x" +:+ Num.toString (Num.ofZ quantity)]
  else entries.

Definition textAddons (l : list Addon.t) : list string :=
  fold_left textAddonStep l [].

Definition textAddonLine (label : string) (field : option (list Addon.t)) : string :=
  match field with
  | Some l =>
    match textAddons l with
    | [] => ""
    | entries => Str.nl +:+ label +:+ Str.join ", " entries
    end
  | None => ""
  end.

(** The plain-text decoding of an entry's options, extras and drinks: the
    part of the loop of [sendWhatsAppOrder] under the comments Options,
    Extras and Drinks. *)
Definition formatOptionsText (item : Item.t) : string :=
  (match Item.options item with
   | JStr s => if Str.isEmpty s then ""
               else Str.join "" (map textOption (Str.split " | " s))
   | _ => ""
   end)
    +:+ textAddonLine (Glyph.plus +:+ " *Extras:* ") (Item.extras item)
    +:+ textAddonLine (Glyph.drink +:+ " *Drinks:* ") (Item.drinks item).

(** The loop over the cart of [sendWhatsAppOrder]: [i] is the index of the
    first of [items]. *)
Fixpoint orderSummary (i : nat) (items : Cart) (message : string) (cartTotal : Num.t)
  : string * Num.t :=
  match items with
  | [] => (message, cartTotal)
  | item :: rest =>
    let basePrice := parseFloatOr0 (Item.basePrice item) in
    let quantity := parseIntOr 1 (Item.quantity item) in
    let itemTotal := Num.mul basePrice (Num.ofZ quantity) in
    let cartTotal := Num.add cartTotal itemTotal in
    let safeName := stripMarkup (stringOrEmpty (Item.name item)) in
    let message := message +:+ Str.nl +:+ Str.ofN (N.of_nat (i + 1)) +:+ ". *"
                     +:+ safeName +:+ "* x" +:+ Num.toString (Num.ofZ quantity) in
    let message := message +:+ Str.nl +:+ Glyph.money +:+ " *Price:* R"
                     +:+ Num.toFixed2 itemTotal in
    let message := message +:+ formatOptionsText item in
    let message := match rest with
                   | [] => message
                   | _ => message +:+ Str.nl +:+ Glyph.rule
                   end in
    orderSummary (S i) rest message cartTotal
  end.

(** The line of the grand total. *)
Definition totalAmountLine (cartTotal : Num.t) : string :=
  Str.nl +:+ Str.nl +:+ Glyph.money +:+ " *TOTAL AMOUNT:* R"
    +:+ Num.toFixed2 cartTotal +:+ Str.nl.

Definition messageHeader (orderNumber : Z) (name displayPhone : string) : string :=
  "*KODIJONG WEBSITE ORDER*" +:+ Str.nl +:+ Str.nl
    +:+ "*ORDER NO:* " +:+ Num.toString (Num.ofZ orderNumber) +:+ Str.nl +:+ Str.nl
    +:+ "*CUSTOMER DETAILS:*" +:+ Str.nl
    +:+ Glyph.person +:+ " *Name:* " +:+ stripMarkup name +:+ Str.nl
    +:+ Glyph.phone +:+ " *Phone:* " +:+ displayPhone +:+ Str.nl +:+ Str.nl
    +:+ "*ORDER SUMMARY:*" +:+ Str.nl.

Definition messageFooter (orderTime instructions : string) : string :=
  Str.nl +:+ Glyph.clock +:+ " *Order Time:* " +:+ orderTime +:+ Str.nl
    +:+ (if Str.isEmpty instructions then ""
         else Str.nl +:+ Glyph.memo +:+ " *Special Instructions:*" +:+ Str.nl
                +:+ stripMarkup instructions +:+ Str.nl)
    +:+ Str.nl +:+ Glyph.rule +:+ Str.nl
    +:+ "*KODIJONG THE FOOD HUB*" +:+ Str.nl
    +:+ Glyph.pin +:+ " 232 Far East Bank, Sandton, 2014" +:+ Str.nl
    +:+ Glyph.clock +:+ " Open: Mon-Sat 9AM-10PM" +:+ Str.nl
    +:+ Glyph.phone +:+ " +27 83 967 9365" +:+ Str.nl +:+ Str.nl
    +:+ Glyph.check +:+ " *We will contact you shortly to confirm your order!*".

Definition buildMessage (orderNumber : Z) (name displayPhone : string) (cart : Cart)
           (orderTime instructions : string) : string :=
  let '(message, cartTotal) :=
    orderSummary 0 cart (messageHeader orderNumber name displayPhone) (Num.ofZ 0) in
  message +:+ totalAmountLine cartTotal +:+ messageFooter orderTime instructions.

Definition businessPhone : string := "27839679365".

Definition whatsappUrl (message : string) : string :=
  "https://wa.me/" +:+ businessPhone +:+ "?text=" +:+ Str.encodeURIComponent message.

(** ** Regular expressions *)

(** The constructs of the script's phone pattern, with a matcher that
    returns what is left of the input after every way to match a prefix. *)
Module Regex.

Inductive t : Type :=
| Class (p : ascii -> bool)      (* a character class *)
| Lit (s : string)               (* literal characters *)
| Alt (r1 r2 : t)                (* [r1|r2] *)
| Seq (r1 r2 : t)
| Times (n : nat) (r : t).       (* [r{n}] *)

Fixpoint iter (n : nat) (step : string -> list string) (s : string) : list string :=
  match n with
  | O => [s]
  | S k => flat_map (iter k step) (step s)
  end.

Fixpoint rests (r : t) (s : string) : list string :=
  match r with
  | Class p =>
    match s with
    | String a s' => if p a then [s'] else []
    | "" => []
    end
  | Lit l => if Str.startsWith l s then [Str.drop (String.length l) s] else []
  | Alt r1 r2 => rests r1 s ++ rests r2 s
  | Seq r1 r2 => flat_map (rests r2) (rests r1 s)
  | Times n r' => iter n (rests r') s
  end.

(** [/^r$/.test(s)] *)
Definition test (r : t) (s : string) : bool := existsb Str.isEmpty (rests r s).

End Regex.

(** ** CartManager: sending the order *)

Definition isDigit1to9 (a : ascii) : bool :=
  let c := N_of_ascii a in ((49 <=? c) && (c <=? 57))%N.

(** [/^(\+27|0)[1-9]\d{8}$/] *)
Definition phoneRegex : Regex.t :=
  Regex.Seq (Regex.Alt (Regex.Lit "+27") (Regex.Lit "0"))
            (Regex.Seq (Regex.Class isDigit1to9)
                       (Regex.Times 8 (Regex.Class Str.isDigit))).

(** [s.replace(/^p/, rep)] for literal [p] *)
Definition replacePrefix (p rep s : string) : string :=
  if Str.startsWith p s then rep +:+ Str.drop (String.length p) s else s.

(** [input?.value.trim() || ''] *)
Definition fieldValue (input : option string) : string :=
  match input with
  | Some value => Str.trim value
  | None => ""
  end.

Definition cleanPhone (phone : string) : string := Str.removeWhiteSpace phone.

Definition displayPhoneOf (cleanedPhone : string) : string :=
  replacePrefix "27" "0" (replacePrefix "+27" "0" cleanedPhone).

(** The outcome of [window.open]. *)
Inductive Popup : Type :=
| WindowOpened      (* a window object *)
| PopupBlocked      (* [null] *)
| OpenThrows.

(** What the environment decides during one call of [sendWhatsAppOrder]. *)
Record SendEnv : Type := {
  cartRead : Access;       (* the [getCart] at the start *)
  random : Random;
  orderTime : string;      (* [now.toLocaleString('en-ZA', ...)] *)
  popup : Popup;
  cartWrite : Access;      (* [saveCart([])] *)
  countRead : Access       (* the [getCart] of [_updateCartCountImmediate] *)
}.

(** [if (input) input.value = ''] for the three fields. *)
Definition clearInputs (d : Dom) : Dom :=
  {| customer_name := option_map (fun _ => "") (customer_name d);
     customer_phone := option_map (fun _ => "") (customer_phone d);
     special_instructions := option_map (fun _ => "") (special_instructions d);
     cartElements := cartElements d;
     orderList := orderList d;
     totalPriceElement := totalPriceElement d;
     orderListListeners := orderListListeners d |}.

Definition sendWhatsAppOrder (e : SendEnv) (w : World) : bool * World :=
  let '(cartRef, w) := getCart (cartRead e) w in
  let cart := deref cartRef w in
  match cart with
  | [] => (false, showNotification "Your cart is empty!" Error w)
  | _ :: _ =>
    let name := fieldValue (customer_name (dom w)) in
    let phone := fieldValue (customer_phone (dom w)) in
    let instructions := fieldValue (special_instructions (dom w)) in
    if Str.isEmpty name || Str.isEmpty phone then
      (false, showNotification "Please enter your name and phone number" Error w)
    else
      let cleanedPhone := cleanPhone phone in
      if negb (Regex.test phoneRegex cleanedPhone) then
        (false,
         showNotification "Please enter a valid South African phone number" Error w)
      else
        let orderNumber := generateOrderNumber (random e) in
        let displayPhone := displayPhoneOf cleanedPhone in
        let message :=
          buildMessage orderNumber name displayPhone cart (orderTime e) instructions in
        match popup e with
        | PopupBlocked =>
          (false, showNotification "Please allow pop-ups to send the order" Error w)
        | OpenThrows =>
          (false, showNotification "Could not open WhatsApp" Error w)
        | WindowOpened =>
          let w := windowOpened (whatsappUrl message) w in
          let '(_, w) := saveCart (AnArray []) (cartWrite e) w in
          let w := _updateCartCountImmediate (countRead e) w in
          let w := withDom clearInputs w in
          (true, showNotification "Order sent successfully! Check WhatsApp." Success w)
        end
  end.

(** ** The page: the cart display *)

Definition placeholderImage : string := "ORDERING/placeholder.jpg".

(** [item.image && typeof item.image === 'string' ? item.image : placeholder] *)
Definition productImageOf (item : Item.t) : string :=
  match Item.image item with
  | JStr s => if Str.isEmpty s then placeholderImage else s
  | _ => placeholderImage
  end.

(** The loop of [updateCartDisplay]: the list items and the total. *)
Fixpoint renderItems (i : nat) (items : Cart) (lis : list Li) (total : Num.t)
  : list Li * Num.t :=
  match items with
  | [] => (lis, total)
  | item :: rest =>
    let basePrice := parseFloatOr0 (Item.basePrice item) in
    let quantity := parseIntOr 1 (Item.quantity item) in
    let itemTotal := Num.mul basePrice (Num.ofZ quantity) in
    let total := Num.add total itemTotal in
    let optionsDisplay := formatOptionsForDisplay item in
    let li :=
      CartItemLi (escapeQuotes (productImageOf item))
                 (escapeQuotes (stringOrEmpty (Item.name item)))
                 (stripAngles (stringOrEmpty (Item.name item)) +:+ " x"
                    +:+ Num.toString (Num.ofZ quantity))
                 ("R" +:+ Num.toFixed2 itemTotal)
                 (if Str.isEmpty optionsDisplay then ""
                  else div "cart-item-options" optionsDisplay)
                 i in
    renderItems (S i) rest (lis ++ [li]) total
  end.

(** [updateCartDisplay]: renders the cart into the order list, writes the
    total, and adds one more click listener to the order list. *)
Definition updateCartDisplay (e : Access) (w : World) : World :=
  let '(cartRef, w) := getCart e w in
  let cart := deref cartRef w in
  match orderList (dom w) with
  | None => w
  | Some _ =>
    let '(lis, total) :=
      match cart with
      | [] => ([EmptyCartLi], Num.ofZ 0)
      | _ => renderItems 0 cart [] (Num.ofZ 0)
      end in
    withDom (fun d => {| customer_name := customer_name d;
                         customer_phone := customer_phone d;
                         special_instructions := special_instructions d;
                         cartElements := cartElements d;
                         orderList := Some lis;
                         totalPriceElement :=
                           option_map (fun _ => "R" +:+ Num.toFixed2 total)
                                      (totalPriceElement d);
                         orderListListeners := S (orderListListeners d) |}) w
  end.

(** The target of a click inside the order list. *)
Record Target : Type := {
  isRemoveItem : bool;            (* has the class [remove-item] *)
  dataIndex : option string       (* [dataset.index] *)
}.

(** What the environment decides during one run of the click listener. *)
Record ClickEnv : Type := {
  clickRead : Access;        (* [getCart] *)
  clickWrite : Access;       (* [saveCart] *)
  redrawRead : Access        (* the [getCart] of [updateCartDisplay] *)
}.

(** [cart.splice(index, 1)] on the array [getCart] returned: when that is
    the cache object, the cache loses the entry too. *)
Definition splice (r : CartRef) (index : nat) (w : World) : World :=
  match r with
  | TheCache =>
    withStore (fun s => {| kodijongCart := kodijongCart s;
                           _cartCache := option_map (delete index) (_cartCache s);
                           _cartCacheTime := _cartCacheTime s |}) w
  | FreshEmpty => w
  end.

(** The click listener [updateCartDisplay] adds to the order list. *)
Definition removeItemListener (target : Target) (e : ClickEnv) (w : World) : World :=
  if isRemoveItem target then
    match Num.parseIntString true (default "undefined" (dataIndex target)) with
    | None => w
    | Some index =>
      let '(cartRef, w1) := getCart (clickRead e) w in
      if ((0 <=? index) && (index <? Z.of_nat (length (deref cartRef w1))))%Z then
        let w2 := splice cartRef (Z.to_nat index) w1 in
        let '(_, w3) := saveCart (AnArray (deref cartRef w2)) (clickWrite e) w2 in
        let w4 := updateCartDisplay (redrawRead e) w3 in
        updateCartCount w4
      else w1
    end
  else w.

(** A click on [target]: every listener added so far runs, in turn; the
    listeners added while they run are not part of this dispatch.  [envs k]
    is the environment of the [k]-th listener still to run. *)
Fixpoint runListeners (n : nat) (target : Target) (envs : nat -> ClickEnv) (w : World)
  : World :=
  match n with
  | S k => runListeners k target envs (removeItemListener target (envs k) w)
  | O => w
  end.

Definition click (target : Target) (envs : nat -> ClickEnv) (w : World) : World :=
  runListeners (orderListListeners (dom w)) target envs w.

(** ** Specification-side definitions *)

(** The language of a pattern. *)
Inductive Matches : Regex.t -> string -> Prop :=
| MatchClass (p : ascii -> bool) a :
    p a = true -> Matches (Regex.Class p) (String a "")
| MatchLit l : Matches (Regex.Lit l) l
| MatchAltL r1 r2 s : Matches r1 s -> Matches (Regex.Alt r1 r2) s
| MatchAltR r1 r2 s : Matches r2 s -> Matches (Regex.Alt r1 r2) s
| MatchSeq r1 r2 s1 s2 :
    Matches r1 s1 -> Matches r2 s2 -> Matches (Regex.Seq r1 r2) (s1 +:+ s2)
| MatchTimesO r : Matches (Regex.Times 0 r) ""
| MatchTimesS n r s1 s2 :
    Matches r s1 -> Matches (Regex.Times n r) s2 ->
    Matches (Regex.Times (S n) r) (s1 +:+ s2).

(** A South African number as the specification words it: [+27] or a
    leading [0], then a digit from 1 to 9, then eight more digits. *)
Definition SouthAfricanNumber (s : string) : Prop :=
  exists prefix d rest,
    s = prefix +:+ String d rest
    /\ (prefix = "+27" \/ prefix = "0")
    /\ isDigit1to9 d = true
    /\ String.length rest = 8
    /\ Str.all Str.isDigit rest = true.

(** The cart a call of [getCart] returns. *)
Definition readCart (e : Access) (w : World) : Cart :=
  let '(r, w') := getCart e w in deref r w'.

(** ** Sample data *)

Module Sample.

Definition num (z : Z) : JsVal := JNum (Num.ofZ z).

Definition addon (name : string) (price quantity : Z) : Addon.t :=
  Addon.make (JStr name) (num price) (num quantity).

(** An entry as the product page builds it. *)
Definition entry (name : string) (basePrice quantity : JsVal) (options : string)
           (extras drinks : list Addon.t) : Item.t :=
  Item.make (JStr "kota-1-1700000000000-abc123def") (JStr "kota-1") (JStr name)
            basePrice quantity (JStr options) (JStr "ORDERING/kota.jpg")
            (num 1700000000000) (Some extras) (Some drinks) (num 80).

Definition kota : Item.t :=
  entry "Kota" (num 85) (num 2) "Greens: with greens | Sauces: all sauces"
        [addon "Cheese" 5 1] [].

Definition chips : Item.t :=
  entry "Chips" (num 25) (num 1) "Sauces: no sauces" [] [addon "Coke" 15 1].

Definition wings : Item.t :=
  entry "Wings" (num 60) (num 3) "" [] [].

Definition idle : Notifier :=
  {| _notificationQueue := []; _notificationShowing := false; notificationNode := None |}.

Definition page (name phone : string) : Dom :=
  {| customer_name := Some name;
     customer_phone := Some phone;
     special_instructions := Some "";
     cartElements := [{| textContent := "0"; badge := true; display := "none" |}];
     orderList := Some [EmptyCartLi];
     totalPriceElement := Some "R0.00";
     orderListListeners := 1 |}.

(** A page whose storage holds [stored] under the cart key and whose
    cache is empty. *)
Definition world (stored : option StoredText) (name phone : string) : World :=
  {| store := {| kodijongCart := stored; _cartCache := None; _cartCacheTime := 0 |};
     notifier := idle;
     debounce := {| updateTimeout := false; pendingUpdate := false |};
     dom := page name phone;
     console := [];
     opened := [];
     timers := [] |}.

Definition at_ (t : Z) : Access := {| now := t; throws := false |}.
Definition failing (t : Z) : Access := {| now := t; throws := true |}.

Definition sending (p : Popup) (write : Access) : SendEnv :=
  {| cartRead := at_ 5000;
     random := Crypto 123456;
     orderTime := "02 Nov 2026, 12:00";
     popup := p;
     cartWrite := write;
     countRead := at_ 5002 |}.

Definition clicking (write : Access) : ClickEnv :=
  {| clickRead := at_ 5000; clickWrite := write; redrawRead := at_ 5002 |}.

End Sample.





(** A quantity that is missing, zero, or not a number to [parseInt]. *)
Definition MalformedQuantity (v : JsVal) : Prop :=
  v = JUndefined
  \/ (exists q : Q, v = JNum (Num.Fin q) /\ (q == 0)%Q)
  \/ parseInt v = None.


(** ** The decoding of an entry's options, as the specification words it *)

(** A recognized piece of the [options] string, with its value: what
    follows the prefix, trimmed. *)
Inductive Segment : Type :=
| Greens (value : string)
| Sauces (value : string).

Definition decodeOption (opt : string) : list Segment :=
  if Str.startsWith "Greens:" opt then
    [Greens (Str.trim (Str.removeFirst "Greens:" opt))]
  else if Str.startsWith "Sauces:" opt then
    [Sauces (Str.trim (Str.removeFirst "Sauces:" opt))]
  else [].

(** The extras or drinks with a quantity above zero: name and quantity. *)
Definition decodeAddonList (l : list Addon.t) : list (string * Z) :=
  flat_map (fun addon =>
              let quantity := parseIntOr 0 (Addon.quantity addon) in
              if (0 <? quantity)%Z then [(stringOrEmpty (Addon.name addon), quantity)]
              else [])
           l.

Definition decodeAddons (field : option (list Addon.t)) : list (string * Z) :=
  match field with
  | Some l => decodeAddonList l
  | None => []
  end.

Record Decoded : Type := {
  segments : list Segment;
  extrasListed : list (string * Z);
  drinksListed : list (string * Z)
}.

(** Split [options] on [" | "], match each piece's prefix; keep the extras
    and drinks with a quantity above zero. *)
Definition decode (item : Item.t) : Decoded :=
  {| segments := match Item.options item with
                 | JStr s => if Str.isEmpty s then []
                             else flat_map decodeOption (Str.split " | " s)
                 | _ => []
                 end;
     extrasListed := decodeAddons (Item.extras item);
     drinksListed := decodeAddons (Item.drinks item) |}.

(** The value the cart display shows for a segment. *)
Definition displayValue (seg : Segment) : string :=
  match seg with
  | Greens v | Sauces v => if Str.isEmpty v then "Not specified" else v
  end.

(** The value the order message shows for a segment. *)
Definition textValue (seg : Segment) : string :=
  match seg with
  | Greens v => if String.eqb v "with greens" then "with greens" else "no greens"
  | Sauces v => stripMarkup v
  end.

Definition htmlSegment (seg : Segment) : string :=
  match seg with
  | Greens _ => div "cart-option-item" (Glyph.greens +:+ " " +:+ displayValue seg)
  | Sauces _ => div "cart-option-item" (Glyph.sauces +:+ " " +:+ displayValue seg)
  end.

Definition htmlAddon (icon : string) (a : string * Z) : string :=
  div "cart-sub-option"
      (icon +:+ " " +:+ stripAngles (fst a) +:+ " x" +:+ Num.toString (Num.ofZ (snd a))).

Definition htmlAddonBlock (header icon : string) (l : list (string * Z)) : list string :=
  match l with
  | [] => []
  | _ => [div "cart-option-item" header +:+ Str.join "" (map (htmlAddon icon) l)]
  end.

(** The display format of a decoding. *)
Definition renderHtml (d : Decoded) : string :=
  Str.join ""
    (map htmlSegment (segments d)
       ++ htmlAddonBlock (Glyph.package +:+ " Extras:") Glyph.plus (extrasListed d)
       ++ htmlAddonBlock (Glyph.drink +:+ " Drinks:") Glyph.drink (drinksListed d)).

Definition textSegment (seg : Segment) : string :=
  match seg with
  | Greens _ => Str.nl +:+ Glyph.greens +:+ " *Greens:* " +:+ textValue seg
  | Sauces _ => Str.nl +:+ Glyph.sauces +:+ " *Sauces:* " +:+ textValue seg
  end.

Definition textAddon (a : string * Z) : string :=
  stripMarkup (fst a) +:+ " x" +:+ Num.toString (Num.ofZ (snd a)).

Definition textAddonBlock (label : string) (l : list (string * Z)) : string :=
  match l with
  | [] => ""
  | _ => Str.nl +:+ label +:+ Str.join ", " (map textAddon l)
  end.

(** The message format of a decoding. *)
Definition renderText (d : Decoded) : string :=
  Str.join "" (map textSegment (segments d))
    +:+ textAddonBlock (Glyph.plus +:+ " *Extras:* ") (extrasListed d)
    +:+ textAddonBlock (Glyph.drink +:+ " *Drinks:* ") (drinksListed d).

(** * Further definitions *)

(** ** The notification loop *)

(** What the screen shows for a notification: its text without angle
    brackets. *)
Definition shownAs (n : Notification) : Notification :=
  {| message := stripAngles (message n); type := type n |}.

(** [showNotification] for each of [ns], in turn. *)
Definition showAll (ns : list Notification) (w : World) : World :=
  fold_left (fun w n => showNotification (message n) (type n) w) ns w.

(** The two timers of the notification on screen fire, one after the
    other. *)
Definition notificationTimers (w : World) : World :=
  notificationRemove (notificationExit w).

(** What is on screen after each of the next [k] firings. *)
Fixpoint screens (k : nat) (w : World) : list (option Notification) :=
  match k with
  | O => []
  | S k' =>
    let w' := notificationTimers w in
    notificationNode (notifier w') :: screens k' w'
  end.

(** Nothing on display and nothing waiting. *)
Definition QueueIdle (w : World) : Prop :=
  _notificationShowing (notifier w) = false /\ _notificationQueue (notifier w) = [].

(** The text on screen holds no angle bracket. *)
Definition NodeClean (w : World) : Prop :=
  match notificationNode (notifier w) with
  | Some n => Str.all (fun a => negb (isAngle a)) (message n) = true
  | None => True
  end.

(** ** Characters *)

(** What may stand in the query of a URL: an unreserved character or the
    percent sign of an escape. *)
Definition urlSafe (a : ascii) : bool :=
  Str.uriUnreserved a || Ascii.eqb a "%".

Definition isQuote (a : ascii) : bool := Ascii.eqb a (ascii_of_nat 34).

(** The attributes of a list item hold no double quote. *)
Definition AttributesQuoted (li : Li) : Prop :=
  match li with
  | EmptyCartLi => True
  | CartItemLi src alt _ _ _ _ =>
    Str.all (fun a => negb (isQuote a)) src = true
    /\ Str.all (fun a => negb (isQuote a)) alt = true
  end.

(** A name with double quotes in it. *)
Definition quotedName : string := "Big " +:+ Str.dq +:+ "Boss" +:+ Str.dq.

(** ** Counting *)





(** The debounce state with no timer set and no update pending. *)
Definition DebounceIdle (w : World) : Prop :=
  updateTimeout (debounce w) = false /\ pendingUpdate (debounce w) = false.

(** ** Reading back *)

(** A scalar that JSON carries as it is. *)
Definition jsonSafeScalar (v : JsVal) : bool :=
  match v with
  | JNum Num.NaN | JNum (Num.Inf _) => false
  | _ => true
  end.

Definition jsonSafeAddon (a : Addon.t) : bool :=
  jsonSafeScalar (Addon.name a) && jsonSafeScalar (Addon.price a)
  && jsonSafeScalar (Addon.quantity a).

Definition jsonSafeAddons (field : option (list Addon.t)) : bool :=
  match field with
  | Some l => forallb jsonSafeAddon l
  | None => true
  end.

(** An entry without [NaN] and without infinities. *)
Definition jsonSafeItem (it : Item.t) : bool :=
  jsonSafeScalar (Item.id it) && jsonSafeScalar (Item.productId it)
  && jsonSafeScalar (Item.name it) && jsonSafeScalar (Item.basePrice it)
  && jsonSafeScalar (Item.quantity it) && jsonSafeScalar (Item.options it)
  && jsonSafeScalar (Item.image it) && jsonSafeScalar (Item.timestamp it)
  && jsonSafeAddons (Item.extras it) && jsonSafeAddons (Item.drinks it)
  && jsonSafeScalar (Item.baseProductPrice it).

(** The storage holds another text under the cart key, written by another
    tab. *)
Definition storageRewritten (text : option StoredText) (w : World) : World :=
  withStore (fun s => {| kodijongCart := text;
                         _cartCache := _cartCache s;
                         _cartCacheTime := _cartCacheTime s |}) w.

(** ** Decimal digits *)

(** The value of the digits [d] read after digits of value [acc]. *)
Fixpoint uintValue (acc : Z) (d : Decimal.uint) : Z :=
  match d with
  | Decimal.Nil => acc
  | Decimal.D0 d' => uintValue (10 * acc) d'
  | Decimal.D1 d' => uintValue (10 * acc + 1) d'
  | Decimal.D2 d' => uintValue (10 * acc + 2) d'
  | Decimal.D3 d' => uintValue (10 * acc + 3) d'
  | Decimal.D4 d' => uintValue (10 * acc + 4) d'
  | Decimal.D5 d' => uintValue (10 * acc + 5) d'
  | Decimal.D6 d' => uintValue (10 * acc + 6) d'
  | Decimal.D7 d' => uintValue (10 * acc + 7) d'
  | Decimal.D8 d' => uintValue (10 * acc + 8) d'
  | Decimal.D9 d' => uintValue (10 * acc + 9) d'
  end.

(** ** The remove buttons *)



(** ** Entries without options *)

(** The decoding found no piece, no extra and no drink. *)
Definition NothingDecoded (d : Decoded) : Prop :=
  segments d = [] /\ extrasListed d = [] /\ drinksListed d = [].

(** ** Searching a string *)

(** [s.includes(pat)] *)
Fixpoint includes (pat s : string) : bool :=
  Str.startsWith pat s
  || match s with
     | "" => false
     | String _ r => includes pat r
     end.

(** * The product page *)

Module ProductPage.

(** ** The products *)

Module Product.
Record t : Type := make {
  name : string;
  description : string;
  price : Z;
  image : string
}.
End Product.

(** The table [products], in the order of the script. *)
Definition products : list (string * Product.t) :=
  [
  ("big-boss",
   Product.make "BIG BOSS"
     "FRESH BREAD, GREENS, POLONY, SPECIAL, EGG, CHEESE, VIENNA, RUSSIAN SAUSAGE, GRILLED BACON, MOUTH WATERING BEEF PATTY, TANTALIZING SAUCES AND CHIPS."
     85 "ORDERING/ORDERING 19.jpg");
  ("mac-gee",
   Product.make "MAC GEE"
     "BURGER BUNS TOASTED, FRESH LETTUCE, SLICE OF ORGANIC TOMATOES, SEASONAL CUCUMBER OR PICKLED CUCUMBER, MOUTH WATERING BEEF PATTY X2, EGG, CHEESE X2, GRILLED BACON X2, SIDE CHIPS AND ONION RINGS.(EXCLUDING THE DRINK)"
     70 "ORDERING/ORDERING 15.jpg");
  ("zuumba",
   Product.make "ZUUMBA"
     "FRESH BREAD, GREENS, POLONY, SPECIAL, EGG, CHEESE, CRISPY FRIED CHICKEN FILLET, TANTALIZING SAUCES AND CHIPS."
     62 "ORDERING/ORDERING 20.jpg");
  ("goliath",
   Product.make "GOLIATH"
     "3 SLICES OF TOASTED BREAD, GREENS, EGG, CHEESE, RUSSIAN SAUSAGE, VIENNA AND TANTALIZING SAUCES.(EXCLUDING THE DRINK)"
     46 "ORDERING/ORDERING 22.jpg");
  ("mac-buza",
   Product.make "MAC BUZA"
     "BURGER BUNS TOASTED, FRESH LETTUCE, SLICE OF ORGANIC TOMATOES, SEASONAL CUCUMBER OR PICKLED CUCUMBER, MOUTH WATERING BEEF PATTY, EGG, CHEESE AND SIDE CHIPS.(EXCLUDING THE DRINK)"
     43 "ORDERING/ORDERING 18.jpg");
  ("jericho",
   Product.make "JERICHO"
     "SLICES OF TOASTED BREAD, GREENS, EGG, CHEESE, RUSSIAN SAUSAGE, GRILLED BACON AND TANTALIZING SAUCES."
     50 "ORDERING/ORDERING 16.jpg");
  ("nix-mapha",
   Product.make "NIX MAPHA"
     "FRESH BREAD, GREENS, POLONY, SECRET SAUCE AND CHIPS.(EXCLUDING THE DRINK)"
     17 "ORDERING/ORDERING 8.jpg");
  ("kwela-kwela",
   Product.make "KWELA KWELA"
     "FRESH BREAD, GREENS, POLONY, CHEESE, SECRET SAUCE AND CHIPS.(EXCLUDING THE LAYS)"
     22 "ORDERING/ORDERING 2.jpg");
  ("skaftin",
   Product.make "SKAFTIN"
     "FRESH BREAD, GREENS, EGG, POLONY, SECRET SAUCE AND CHIPS."
     25 "ORDERING/ORDERING 10.jpg");
  ("sporo",
   Product.make "SPORO"
     "FRESH BREAD, GREENS, POLONY, VIENNA, SECRET SAUCE AND CHIPS.(EXCLUDING THE DRINK)"
     27 "ORDERING/ORDERING 1.jpg");
  ("tjovitjo",
   Product.make "TJOVITJO"
     "FRESH BREAD, GREENS, POLONY, SPECIAL, EGG, CHEESE, TANTALIZING SAUCES AND CHIPS."
     30 "ORDERING/ORDERING 6.jpg");
  ("nomthandazo",
   Product.make "NOMTHANDAZO"
     "FRESH BREAD, GREENS, POLONY, SPECIAL, EGG, CHEESE, VIENNA, TANTALIZING SAUCES AND CHIPS.(EXCLUDING THE DRINK)"
     35 "ORDERING/ORDERING 24.jpg");
  ("cheeseboy",
   Product.make "CHEESEBOY"
     "FRESH BREAD, GREENS, POLONY, SPECIAL, EGG, CHEESE, GRILLED BACON, TANTALIZING SAUCES AND CHIPS."
     40 "ORDERING/ORDERING 5.jpg");
  ("da-ja-vu",
   Product.make "DA JA VU"
     "FRESH BREAD, GREENS, POLONY, SPECIAL, CHEESE, RUSSIAN SAUSAGE, TANTALIZING SAUCES AND CHIPS."
     44 "ORDERING/ORDERING 7.jpg");
  ("kings-of-gomora",
   Product.make "KINGS OF GOMORA"
     "FRESH BREAD, GREENS, POLONY, SPECIAL, EGG, CHEESE, RUSSIAN SAUSAGE, TANTALIZING SAUCES AND CHIPS.(EXCLUDING THE DRINK)"
     47 "ORDERING/ORDERING 21.jpg");
  ("papuka",
   Product.make "PAPUKA"
     "FRESH BREAD, GREENS, POLONY, SPECIAL, EGG, CHEESE, BEEF BURGER PATTY, TANTALIZING SAUCES AND CHIPS.(EXCLUDING THE DRINK)"
     50 "ORDERING/ORDERING 26.jpg");
  ("makhelwane",
   Product.make "MAKHELWANE"
     "SLICES OF TOASTED BREAD, GREENS, EGG, CHEESE AND TANTALIZING SAUCES.(EXCLUDING THE DRINK)"
     18 "ORDERING/ORDERING 3.jpg");
  ("kasablanca",
   Product.make "KASABLANCA"
     "SLICES OF TOASTED BREAD, GREENS, EGG, CHEESE, VIENNA AND TANTALIZING SAUCES.(EXCLUDING THE DRINK)"
     27 "ORDERING/ORDERING 11.jpg");
  ("spongebob",
   Product.make "SPONGEBOB"
     "SLICES OF TOASTED BREAD, GREENS, EGG, CHEESE, GRILLED BACON AND TANTALIZING SAUCES."
     30 "ORDERING/ORDERING 23.jpg");
  ("cool-guy",
   Product.make "COOL GUY"
     "SLICES OF TOASTED BREAD, GREENS, EGG, CHEESE, RUSSIAN SAUSAGE AND TANTALIZING SAUCES."
     36 "ORDERING/ORDERING 27.jpg");
  ("mac-love",
   Product.make "MAC LOVE"
     "BURGER BUNS TOASTED, FRESH LETTUCE, SLICE OF ORGANIC TOMATOES, SEASONAL CUCUMBER OR PICKLED CUCUMBER, MOUTH WATERING BEEF PATTY, EGG, CHEESE, GRILLED BACON AND SIDE CHIPS.(EXCLUDING THE DRINK)"
     48 "ORDERING/ORDERING 4.jpg");
  ("kediboni",
   Product.make "KEDIBONI"
     "BURGER BUNS TOASTED, FRESH LETTUCE, SLICE OF ORGANIC TOMATOES, SEASONAL CUCUMBER OR PICKLED CUCUMBER, CRISPY FRIED CHICKEN FILLET, EGG, CHEESE, SIDE CHIPS AND ONION RINGS.(EXCLUDING THE DRINK)"
     53 "ORDERING/ORDERING 25.jpg");
  ("ugogo",
   Product.make "UGOGO UYANG THANDA"
     "1/2 FRESH BREAD, GREENS, POLONY, SPECIAL, EGG x2, CHEESE x2, VIENNA x2, GRILLED BACON x2, RUSSIAN SAUSAGE x2, BEEF BURGER PATTY x2, TANTALIZING SAUCES AND CHIPS.(EXCLUDING THE DRINK)"
     130 "ORDERING/ORDERING 28.jpg");
  ("small-chips",
   Product.make "SMALL CHIPS"
     "Delicious golden fries served with our special sauce."
     25 "ORDERING/ORDERING 12.jpg");
  ("medium-chips",
   Product.make "MEDIUM CHIPS"
     "Delicious golden fries served with our special sauce."
     30 "ORDERING/ORDERING 12.jpg");
  ("large-chips",
   Product.make "LARGE CHIPS"
     "Delicious golden fries served with our special sauce."
     40 "ORDERING/ORDERING 12.jpg")
  ].

(** The names of the properties of [Object.prototype], which an object
    literal inherits: those of the standard and of its annex for web
    browsers. *)
Definition objectPrototypeKeys : list string :=
  ["constructor"; "hasOwnProperty"; "isPrototypeOf"; "propertyIsEnumerable";
   "toLocaleString"; "toString"; "valueOf"; "__proto__"; "__defineGetter__";
   "__defineSetter__"; "__lookupGetter__"; "__lookupSetter__"].

(** What [products[productId]] evaluates to. *)
Inductive Lookup : Type :=
| Own (product : Product.t)   (* an entry of the table *)
| Inherited                   (* a function or object of [Object.prototype] *)
| Missing.                    (* [undefined] *)

Fixpoint assoc (key : string) (table : list (string * Product.t)) : option Product.t :=
  match table with
  | [] => None
  | (k, v) :: rest => if String.eqb k key then Some v else assoc key rest
  end.

(** [products[productId]] for the value of [urlParams.get('product')]:
    [None] is [null], which reads the key [null]. *)
Definition lookupProduct (productId : option string) : Lookup :=
  let key := default "null" productId in
  match assoc key products with
  | Some product => Own product
  | None => if existsb (String.eqb key) objectPrototypeKeys then Inherited else Missing
  end.

(** ** The state of the page *)

(** An element of the arrays [extras] and [drinks] of the page:
    [{name, price, quantity}] as [updateExtra] and [updateDrink] build it.
    The name is the [data-name] of the button or input, [None] when it has
    none; the quantity is a whole number. *)
Module Extra.
Record t : Type := make {
  name : option string;
  price : Num.t;
  quantity : Z
}.
End Extra.

(** The [dataset] of the element [productContent]; [None] is a missing
    attribute. *)
Module Dataset.
Record t : Type := make {
  productId : option string;
  productName : option string;
  basePrice : option string;
  productImage : option string
}.
End Dataset.

(** The variables of the page and the elements its handlers read and
    write.  For an element, [None] says that the document has none. *)
Record Page : Type := {
  currentBasePrice : Num.t;
  currentExtrasTotal : Num.t;
  currentDrinksTotal : Num.t;
  currentQuantity : Z;
  extras : list Extra.t;
  drinks : list Extra.t;
  productContent : option Dataset.t;         (* the [dataset] of the element *)
  productNotFound : bool;                    (* its content is the notice *)
  productTitle : option string;              (* [textContent] *)
  productDesc : option string;
  productPrice : option string;
  productImage : option (string * string);   (* [src] and [alt] *)
  quantityInput : option string;             (* [value] *)
  qtyMinus : bool;                           (* the document has the button *)
  qtyPlus : bool;
  modalTotalDisplay : option string          (* [textContent] *)
}.

(** ** The total *)

Definition total (p : Page) : Num.t :=
  Num.mul (Num.add (Num.add (currentBasePrice p) (currentExtrasTotal p))
                   (currentDrinksTotal p))
          (Num.ofZ (currentQuantity p)).

Definition updateTotalDisplay (p : Page) : Page :=
  {| currentBasePrice := currentBasePrice p;
     currentExtrasTotal := currentExtrasTotal p;
     currentDrinksTotal := currentDrinksTotal p; currentQuantity := currentQuantity p;
     extras := extras p; drinks := drinks p; productContent := productContent p;
     productNotFound := productNotFound p; productTitle := productTitle p;
     productDesc := productDesc p; productPrice := productPrice p;
     productImage := productImage p; quantityInput := quantityInput p;
     qtyMinus := qtyMinus p; qtyPlus := qtyPlus p;
     modalTotalDisplay := option_map (fun _ => "R" +:+ Num.toFixed2 (total p)) (modalTotalDisplay p) |}.

(** ** The quantity controls *)

(** [setupQuantityControls] adds its three listeners when the two buttons
    and the input exist. *)
Definition quantityControls (p : Page) : bool :=
  qtyMinus p && qtyPlus p && bool_decide (quantityInput p <> None).

(** [currentQuantity = q; quantityInput.value = q] *)
Definition setQuantity (q : Z) (p : Page) : Page :=
  {| currentBasePrice := currentBasePrice p;
     currentExtrasTotal := currentExtrasTotal p;
     currentDrinksTotal := currentDrinksTotal p; currentQuantity := q;
     extras := extras p; drinks := drinks p; productContent := productContent p;
     productNotFound := productNotFound p; productTitle := productTitle p;
     productDesc := productDesc p; productPrice := productPrice p;
     productImage := productImage p;
     quantityInput := option_map (fun _ => Num.toString (Num.ofZ q)) (quantityInput p);
     qtyMinus := qtyMinus p; qtyPlus := qtyPlus p;
     modalTotalDisplay := modalTotalDisplay p |}.

(** The click listener of the button [.qty-minus]. *)
Definition qtyMinusClick (p : Page) : Page :=
  if quantityControls p then
    if (1 <? currentQuantity p)%Z
    then updateTotalDisplay (setQuantity (currentQuantity p - 1) p)
    else p
  else p.

(** The click listener of the button [.qty-plus]. *)
Definition qtyPlusClick (p : Page) : Page :=
  if quantityControls p then
    if (currentQuantity p <? 10)%Z
    then updateTotalDisplay (setQuantity (currentQuantity p + 1) p)
    else p
  else p.

(** The input holds [typed]: this is what the input event is about. *)
Definition typeQuantity (typed : string) (p : Page) : Page :=
  {| currentBasePrice := currentBasePrice p;
     currentExtrasTotal := currentExtrasTotal p;
     currentDrinksTotal := currentDrinksTotal p; currentQuantity := currentQuantity p;
     extras := extras p; drinks := drinks p; productContent := productContent p;
     productNotFound := productNotFound p; productTitle := productTitle p;
     productDesc := productDesc p; productPrice := productPrice p;
     productImage := productImage p;
     quantityInput := option_map (fun _ => typed) (quantityInput p);
     qtyMinus := qtyMinus p; qtyPlus := qtyPlus p;
     modalTotalDisplay := modalTotalDisplay p |}.

(** The input listener of the quantity input, on an input that holds
    [typed]. *)
Definition quantityInputChanged (typed : string) (p : Page) : Page :=
  let p := typeQuantity typed p in
  if quantityControls p then
    let value := match Num.parseIntString true typed with
                 | Some v => if (v <? 1)%Z then 1%Z else v
                 | None => 1%Z
                 end in
    let value := if (10 <? value)%Z then 10%Z else value in
    updateTotalDisplay (setQuantity value p)
  else p.

(** ** Extras and drinks *)

(** [parseFloat(e.target.dataset.price || 0)] *)
Definition priceOf (attr : option string) : Num.t :=
  match attr with
  | Some s => if Str.isEmpty s then Num.ofZ 0 else Num.parseFloatString s
  | None => Num.ofZ 0
  end.

(** [parseInt(input.value, 10) || 0] *)
Definition quantityOfInput (value : string) : Z :=
  default 0%Z (Num.parseIntString true value).

(** [entries.findIndex(e => e.name === name)] *)
Fixpoint findIndex (name : option string) (entries : list Extra.t) : option nat :=
  match entries with
  | [] => None
  | x :: rest =>
    if bool_decide (Extra.name x = name) then Some 0
    else option_map S (findIndex name rest)
  end.

(** The update of the array in [updateExtra] and [updateDrink]. *)
Definition updateEntries (name : option string) (price : Num.t) (quantity : Z)
           (entries : list Extra.t) : list Extra.t :=
  let index := findIndex name entries in
  match index with
  | Some i =>
    if (quantity =? 0)%Z then delete i entries
    else if (0 <? quantity)%Z
         then alter (fun x => Extra.make (Extra.name x) (Extra.price x) quantity) i entries
         else entries
  | None =>
    if (quantity =? 0)%Z then entries
    else if (0 <? quantity)%Z then entries ++ [Extra.make name price quantity]
         else entries
  end.

(** [entries.reduce((total, x) => total + (x.price * x.quantity), 0)] *)
Definition entriesTotal (entries : list Extra.t) : Num.t :=
  fold_left (fun total x =>
               Num.add total (Num.mul (Extra.price x) (Num.ofZ (Extra.quantity x))))
            entries (Num.ofZ 0).

Definition setExtras (entries : list Extra.t) (p : Page) : Page :=
  {| currentBasePrice := currentBasePrice p;
     currentExtrasTotal := entriesTotal entries;
     currentDrinksTotal := currentDrinksTotal p; currentQuantity := currentQuantity p;
     extras := entries; drinks := drinks p; productContent := productContent p;
     productNotFound := productNotFound p; productTitle := productTitle p;
     productDesc := productDesc p; productPrice := productPrice p;
     productImage := productImage p; quantityInput := quantityInput p;
     qtyMinus := qtyMinus p; qtyPlus := qtyPlus p;
     modalTotalDisplay := modalTotalDisplay p |}.

Definition setDrinks (entries : list Extra.t) (p : Page) : Page :=
  {| currentBasePrice := currentBasePrice p;
     currentExtrasTotal := currentExtrasTotal p;
     currentDrinksTotal := entriesTotal entries; currentQuantity := currentQuantity p;
     extras := extras p; drinks := entries; productContent := productContent p;
     productNotFound := productNotFound p; productTitle := productTitle p;
     productDesc := productDesc p; productPrice := productPrice p;
     productImage := productImage p; quantityInput := quantityInput p;
     qtyMinus := qtyMinus p; qtyPlus := qtyPlus p;
     modalTotalDisplay := modalTotalDisplay p |}.

Definition updateExtra (name : option string) (price : Num.t) (quantity : Z) (p : Page)
  : Page :=
  updateTotalDisplay (setExtras (updateEntries name price quantity (extras p)) p).

Definition updateDrink (name : option string) (price : Num.t) (quantity : Z) (p : Page)
  : Page :=
  updateTotalDisplay (setDrinks (updateEntries name price quantity (drinks p)) p).

(** The two lists of the page. *)
Inductive Kind : Type := OfExtras | OfDrinks.

Definition updateOf (kind : Kind) : option string -> Num.t -> Z -> Page -> Page :=
  match kind with
  | OfExtras => updateExtra
  | OfDrinks => updateDrink
  end.

(** The buttons of an extra or a drink. *)
Inductive Button : Type := MinusButton | PlusButton.

(** The click listener of the document, on a button of class
    [extra-minus], [extra-plus], [drink-minus] or [drink-plus] with the
    given [data-name] and [data-price].  [input] is the value of the
    quantity input the button belongs to, [None] when the button has no
    enclosing option or the option no such input.  The result holds the
    value of that input afterwards. *)
Definition stepClick (kind : Kind) (button : Button) (name priceAttr : option string)
           (input : option string) (p : Page) : option string * Page :=
  match input with
  | None => (None, p)
  | Some held =>
    let price := priceOf priceAttr in
    let value := quantityOfInput held in
    match button with
    | MinusButton =>
      if (0 <? value)%Z then
        (Some (Num.toString (Num.ofZ (value - 1))),
         updateOf kind name price (value - 1) p)
      else (Some held, p)
    | PlusButton =>
      if (value <? 10)%Z then
        (Some (Num.toString (Num.ofZ (value + 1))),
         updateOf kind name price (value + 1) p)
      else (Some held, p)
    end
  end.

(** The input listener of the document, on an input of class [extra-qty]
    or [drink-qty] that holds [typed]: the value it leaves in the input,
    and the page. *)
Definition addonInputChanged (kind : Kind) (name priceAttr : option string)
           (typed : string) (p : Page) : string * Page :=
  let price := priceOf priceAttr in
  let value := quantityOfInput typed in
  let value := if (value <? 0)%Z then 0%Z else value in
  let value := if (10 <? value)%Z then 10%Z else value in
  (Num.toString (Num.ofZ value), updateOf kind name price value p).

(** ** Loading the product *)

Definition notFound (p : Page) : Page :=
  {| currentBasePrice := currentBasePrice p;
     currentExtrasTotal := currentExtrasTotal p;
     currentDrinksTotal := currentDrinksTotal p; currentQuantity := currentQuantity p;
     extras := extras p; drinks := drinks p; productContent := productContent p;
     productNotFound := true; productTitle := productTitle p;
     productDesc := productDesc p; productPrice := productPrice p;
     productImage := productImage p; quantityInput := quantityInput p;
     qtyMinus := qtyMinus p; qtyPlus := qtyPlus p;
     modalTotalDisplay := modalTotalDisplay p |}.

Definition showProduct (productId : option string) (product : Product.t) (p : Page)
  : Page :=
  let price := Num.ofZ (Product.price product) in
  {| currentBasePrice := price; currentExtrasTotal := Num.ofZ 0;
     currentDrinksTotal := Num.ofZ 0; currentQuantity := 1%Z; extras := [];
     drinks := [];
     productContent := Some (Dataset.make productId (Some (Product.name product)) (Some (Num.toString price)) (Some (Product.image product)));
     productNotFound := productNotFound p;
     productTitle := option_map (fun _ => Product.name product) (productTitle p);
     productDesc := option_map (fun _ => Product.description product) (productDesc p);
     productPrice := option_map (fun _ => "R" +:+ Num.toFixed2 price) (productPrice p);
     productImage := option_map (fun _ => (Product.image product, Product.name product)) (productImage p);
     quantityInput := quantityInput p; qtyMinus := qtyMinus p; qtyPlus := qtyPlus p;
     modalTotalDisplay := modalTotalDisplay p |}.

(** [loadProduct], for the value of [urlParams.get('product')]; [None] as
    the result is the [TypeError] of reading [price] off an inherited
    property, which ends the set-up of the page. *)
Definition loadProduct (productId : option string) (p : Page) : option Page :=
  match productContent p with
  | None => Some p
  | Some _ =>
    match lookupProduct productId with
    | Missing => Some (notFound p)
    | Inherited => None
    | Own product => Some (updateTotalDisplay (showProduct productId product p))
    end
  end.

(** ** Adding to the cart *)

(** [resetProductForm], but for the radio buttons, the check boxes and the
    inputs of the extras and drinks, which are no part of [Page]. *)
Definition resetProductForm (p : Page) : Page :=
  updateTotalDisplay
    {| currentBasePrice := currentBasePrice p; currentExtrasTotal := Num.ofZ 0;
       currentDrinksTotal := Num.ofZ 0; currentQuantity := 1%Z; extras := [];
       drinks := []; productContent := productContent p;
       productNotFound := productNotFound p; productTitle := productTitle p;
       productDesc := productDesc p; productPrice := productPrice p;
       productImage := productImage p;
       quantityInput := option_map (fun _ => "1") (quantityInput p);
       qtyMinus := qtyMinus p; qtyPlus := qtyPlus p;
       modalTotalDisplay := modalTotalDisplay p |}.

(** What the document holds of the choices at the click: the value of the
    checked input named [greens], of the checked input named [sauce], and
    the values of the checked inputs named [custom-sauce], in the order of
    the document. *)
Record Selection : Type := {
  greens : option string;
  sauce : option string;
  customSauces : list string
}.

(** [options], as the listener collects it. *)
Definition collectOptions (sel : Selection) : list string :=
  (match greens sel with
   | Some g => ["Greens: " +:+ (if String.eqb g "Yes" then "with greens" else "no greens")]
   | None => []
   end)
    ++ (match sauce sel with
        | Some s =>
          if String.eqb s "Custom" then
            match customSauces sel with
            | [] => ["Sauces: no sauces"]
            | chosen => ["Sauces: " +:+ Str.join ", " chosen]
            end
          else if String.eqb s "All" then ["Sauces: all sauces"]
          else if String.eqb s "No Sauce" then ["Sauces: no sauces"]
          else ["Sauces: " +:+ s]
        | None => []
        end).

(** What the environment decides during one run of the listener. *)
Record AddEnv : Type := {
  idTime : Z;             (* [Date.now()] of the identifier *)
  idRandom : string;      (* [Math.random().toString(36).substr(2, 9)] *)
  addTime : Z;            (* [Date.now()] of the time stamp *)
  addRead : Access;       (* [getCart] *)
  addWrite : Access;      (* [saveCart] *)
  addRedraw : Access      (* the [getCart] of [updateCartDisplay] *)
}.

Definition scalarOfName (name : option string) : JsVal :=
  match name with
  | Some s => JStr s
  | None => JUndefined
  end.

Definition toAddon (x : Extra.t) : Addon.t :=
  Addon.make (scalarOfName (Extra.name x)) (JNum (Extra.price x))
             (JNum (Num.ofZ (Extra.quantity x))).

(** [entries.filter(e => e.quantity > 0)] *)
Definition chosen (entries : list Extra.t) : list Extra.t :=
  filter (fun x => (0 < Extra.quantity x)%Z) entries.

(** [cartItem] *)
Definition cartItem (productId productName productImage : string) (basePrice : Num.t)
           (sel : Selection) (e : AddEnv) (p : Page) : Item.t :=
  let uniqueId := productId +:+ "-" +:+ Num.toString (Num.ofZ (idTime e)) +:+ "-"
                    +:+ idRandom e in
  let itemBasePrice :=
    Num.add (Num.add basePrice (currentExtrasTotal p)) (currentDrinksTotal p) in
  Item.make (JStr uniqueId) (JStr productId) (JStr productName) (JNum itemBasePrice)
            (JNum (Num.ofZ (currentQuantity p)))
            (JStr (Str.join " | " (collectOptions sel)))
            (JStr productImage) (JNum (Num.ofZ (addTime e)))
            (Some (map toAddon (chosen (extras p))))
            (Some (map toAddon (chosen (drinks p))))
            (JNum basePrice).

(** [cart.push(cartItem)] on the array [getCart] returned: when that is
    the cache object, the cache gains the entry. *)
Definition push (r : CartRef) (item : Item.t) (w : World) : World :=
  match r with
  | TheCache =>
    withStore (fun s => {| kodijongCart := kodijongCart s;
                           _cartCache := option_map (fun c => c ++ [item]) (_cartCache s);
                           _cartCacheTime := _cartCacheTime s |}) w
  | FreshEmpty => w
  end.

(** The array after the push. *)
Definition pushed (r : CartRef) (item : Item.t) (w : World) : Cart :=
  match r with
  | TheCache => deref TheCache (push TheCache item w)
  | FreshEmpty => [item]
  end.

(** The text of a [dataset] entry is missing or empty. *)
Definition blank (attr : option string) : bool :=
  match attr with
  | Some s => Str.isEmpty s
  | None => true
  end.

(** What the listener reads off the dataset: the identifier, the name,
    the image and the base price of the product, [None] when it finds the
    data incomplete. *)
Definition productData (data : Dataset.t) : option (string * string * string * Num.t) :=
  let productId := Dataset.productId data in
  let productName := Dataset.productName data in
  let basePrice := priceOf (Dataset.basePrice data) in
  let productImage := if blank (Dataset.productImage data) then placeholderImage
                      else default "" (Dataset.productImage data) in
  if blank productId || blank productName
     || match basePrice with Num.NaN => true | _ => false end
  then None
  else Some (default "" productId, default "" productName, productImage, basePrice).

(** The click listener of the button [modalAddToCart]. *)
Definition addToCart (sel : Selection) (e : AddEnv) (p : Page) (w : World)
  : Page * World :=
  match productContent p with
  | None => (p, w)
  | Some data =>
    match productData data with
    | None => (p, showNotification "Product data incomplete" Error w)
    | Some (productId, productName, productImage, basePrice) =>
      let item := cartItem productId productName productImage basePrice sel e p in
      let '(cartRef, w1) := getCart (addRead e) w in
      let cart := pushed cartRef item w1 in
      let w2 := push cartRef item w1 in
      let '(saved, w3) := saveCart (AnArray cart) (addWrite e) w2 in
      if saved then
        let w4 := showNotification (productName +:+ " added to cart!") Success w3 in
        let w5 := updateCartDisplay (addRedraw e) w4 in
        let w6 := updateCartCount w5 in
        (resetProductForm p, w6)
      else (p, showNotification "Failed to add item" Error w3)
    end
  end.

(** ** The listeners of the page *)

Inductive Event : Type :=
| QtyMinusClicked
| QtyPlusClicked
| QuantityTyped (typed : string)
| StepClicked (kind : Kind) (button : Button) (name priceAttr : option string)
              (input : option string)
| AddonTyped (kind : Kind) (name priceAttr : option string) (typed : string)
| AddToCartClicked (sel : Selection) (e : AddEnv).

Definition handle (ev : Event) (pw : Page * World) : Page * World :=
  let '(p, w) := pw in
  match ev with
  | QtyMinusClicked => (qtyMinusClick p, w)
  | QtyPlusClicked => (qtyPlusClick p, w)
  | QuantityTyped typed => (quantityInputChanged typed p, w)
  | StepClicked kind button name priceAttr input =>
    (snd (stepClick kind button name priceAttr input p), w)
  | AddonTyped kind name priceAttr typed =>
    (snd (addonInputChanged kind name priceAttr typed p), w)
  | AddToCartClicked sel e => addToCart sel e p w
  end.

Definition run (evs : list Event) (pw : Page * World) : Page * World :=
  fold_left (fun pw ev => handle ev pw) evs pw.

(** ** What the page keeps *)

(** The entries have quantities above zero and names that differ. *)
Definition WellFormed (entries : list Extra.t) : Prop :=
  Forall (fun x => (0 < Extra.quantity x)%Z) entries
  /\ NoDup (map Extra.name entries).

(** The quantity is between 1 and 10, the two lists are well formed and
    the two totals are those of the lists. *)
Definition Invariant (p : Page) : Prop :=
  (1 <= currentQuantity p <= 10)%Z
  /\ WellFormed (extras p)
  /\ WellFormed (drinks p)
  /\ currentExtrasTotal p = entriesTotal (extras p)
  /\ currentDrinksTotal p = entriesTotal (drinks p).

(** The quantity input, when it has its listeners, and the total display
    show the quantity and the total of the page. *)
Definition Shown (p : Page) : Prop :=
  (quantityControls p = true ->
   quantityInput p = Some (Num.toString (Num.ofZ (currentQuantity p))))
  /\ modalTotalDisplay p
     = option_map (fun _ => "R" +:+ Num.toFixed2 (total p)) (modalTotalDisplay p).

(** The quantity the page holds for a name: that of the first entry with
    the name, zero when there is none. *)
Definition quantityOf (name : option string) (entries : list Extra.t) : Z :=
  match find (fun x => bool_decide (Extra.name x = name)) entries with
  | Some x => Extra.quantity x
  | None => 0%Z
  end.

(** The array that [updateExtra] or [updateDrink] works on. *)
Definition entriesOf (kind : Kind) (p : Page) : list Extra.t :=
  match kind with
  | OfExtras => extras p
  | OfDrinks => drinks p
  end.

(** The value that [collectOptions] writes behind [Greens:] and behind
    [Sauces:]; [None] when it writes no such piece. *)
Definition greensWritten (sel : Selection) : option string :=
  match greens sel with
  | Some g => Some (if String.eqb g "Yes" then "with greens" else "no greens")
  | None => None
  end.

Definition saucesWritten (sel : Selection) : option string :=
  match sauce sel with
  | Some s =>
    Some (if String.eqb s "Custom" then
            match customSauces sel with
            | [] => "no sauces"
            | chosen => Str.join ", " chosen
            end
          else if String.eqb s "All" then "all sauces"
          else if String.eqb s "No Sauce" then "no sauces"
          else s)
  | None => None
  end.

(** The page at [DOMContentLoaded]: the variables as the script declares
    them, every element present and empty. *)
Definition start : Page :=
  {| currentBasePrice := Num.ofZ 0; currentExtrasTotal := Num.ofZ 0;
     currentDrinksTotal := Num.ofZ 0; currentQuantity := 1; extras := []; drinks := [];
     productContent := Some (Dataset.make None None None None);
     productNotFound := false; productTitle := Some ""; productDesc := Some "";
     productPrice := Some ""; productImage := Some ("", "");
     quantityInput := Some "1"; qtyMinus := true; qtyPlus := true;
     modalTotalDisplay := Some "" |}.

(** A run of the add-to-cart listener. *)
Definition adding (write : Access) : AddEnv :=
  {| idTime := 1700000000000; idRandom := "k3j9x0q1z"; addTime := 1700000000001;
     addRead := Sample.at_ 5000; addWrite := write; addRedraw := Sample.at_ 5002 |}.

Definition choice : Selection :=
  {| greens := Some "Yes"; sauce := Some "Custom"; customSauces := ["Chilli"; "Mayo"] |}.

End ProductPage.

(** * The menu page *)

Module IndexPage.

(** ** The scroll position *)

(** The two keys of [localStorage] that [scrollPositions] uses; [None] is
    a missing key. *)
Record ScrollStore : Type := {
  kodijongScrollPosition : option string;
  kodijongScrollTimestamp : option string
}.

(** The call of [setItem] that throws during [save], if any. *)
Inductive SaveFault : Type :=
| NoFault
| PositionFault      (* the first call *)
| TimestampFault.    (* the second call *)

(** [scrollPositions.save], for [window.pageYOffset] and [Date.now()]. *)
Definition save (pageYOffset : Q) (now : Z) (fault : SaveFault) (s : ScrollStore)
           (w : World) : ScrollStore * World :=
  let position := Num.toString (Num.ofZ (Qfloor pageYOffset)) in
  match fault with
  | PositionFault => (s, consoleError "Error saving scroll:" w)
  | TimestampFault =>
    ({| kodijongScrollPosition := Some position;
        kodijongScrollTimestamp := kodijongScrollTimestamp s |},
     consoleError "Error saving scroll:" w)
  | NoFault =>
    ({| kodijongScrollPosition := Some position;
        kodijongScrollTimestamp := Some (Num.toString (Num.ofZ now)) |}, w)
  end.

(** What [restore] asks of the next animation frame. *)
Inductive Restored : Type :=
| ScrollTo (y : option Z)   (* [window.scrollTo(0, y)]; [None]: [NaN] *)
| NotRestored.

(** [scrollPositions.restore], for [Date.now()]; [throws] says that the
    storage throws. *)
Definition restore (now : Z) (throws : bool) (s : ScrollStore) (w : World)
  : Restored * ScrollStore * World :=
  if throws then (NotRestored, s, consoleError "Error restoring scroll:" w)
  else
    match kodijongScrollPosition s, kodijongScrollTimestamp s with
    | Some savedPos, Some savedTime =>
      if negb (Str.isEmpty savedPos) && negb (Str.isEmpty savedTime) then
        let fresh := match Num.parseIntString true savedTime with
                     | Some time => (now - time <? 300000)%Z
                     | None => false
                     end in
        if fresh then (ScrollTo (Num.parseIntString true savedPos), s, w)
        else (NotRestored,
              {| kodijongScrollPosition := None; kodijongScrollTimestamp := None |}, w)
      else (NotRestored, s, w)
    | _, _ => (NotRestored, s, w)
    end.

(** ** The order button *)

(** The click listener of the button [whatsapp-btn]; the classes of the
    side bar and the backdrop, which [cartControls.close] takes off, are no
    part of [World]. *)
Definition whatsappClick (e : SendEnv) (redraw : Access) (pageYOffset : Q) (now : Z)
           (fault : SaveFault) (s : ScrollStore) (w : World) : ScrollStore * World :=
  let '(result, w1) := sendWhatsAppOrder e w in
  if result then
    let w2 := updateCartDisplay redraw w1 in
    save pageYOffset now fault s w2
  else (s, w1).

(** ** Loading the page *)

(** The calls on the cart of the two [DOMContentLoaded] listeners of the
    page, in their order: [updateCartCount] and [updateCartDisplay] at the
    end of the listener of the page, [updateCartCount] in the listener of
    every page. *)
Definition cartLoaded (redraw : Access) (w : World) : World :=
  updateCartCount (updateCartDisplay redraw (updateCartCount w)).

End IndexPage.

(** * Properties *)

(** ** Strings *)

Lemma append_nil (t : string) : "" +:+ t = t.
Proof. reflexivity. Qed.

Lemma append_cons (a : ascii) (s t : string) : String a s +:+ t = String a (s +:+ t).
Proof. reflexivity. Qed.

Lemma append_empty_r (s : string) : s +:+ "" = s.
Proof.
  induction s as [|a s IH]; [reflexivity | now rewrite append_cons, IH].
Qed.

Lemma append_assoc (s1 s2 s3 : string) : (s1 +:+ s2) +:+ s3 = s1 +:+ (s2 +:+ s3).
Proof.
  induction s1 as [|a s1 IH]; [reflexivity | now rewrite !append_cons, IH].
Qed.

Lemma drop_append (l t : string) : Str.drop (String.length l) (l +:+ t) = t.
Proof.
  induction l as [|a l IH]; [now destruct t | rewrite append_cons; exact IH].
Qed.

Lemma startsWith_append (l s : string) :
  Str.startsWith l s = true <-> exists t, s = l +:+ t.
Proof.
  unfold Str.startsWith. revert s.
  induction l as [|a l IH]; intros s; simpl.
  - split; [intros _; now exists s | now destruct s].
  - destruct s as [|b s]; simpl.
    + split; [discriminate | intros [t Ht]; discriminate].
    + destruct (ascii_dec a b) as [->|Hne].
      * rewrite IH. split; intros [t Ht]; exists t.
        -- now rewrite append_cons, Ht.
        -- rewrite append_cons in Ht. congruence.
      * split; [discriminate | intros [t Ht]; rewrite append_cons in Ht; congruence].
Qed.

(** [String.append] does not unfold under [simpl]: its two equations are
    rewritten instead. *)
Ltac unfold_append :=
  repeat (rewrite append_cons in * || rewrite append_nil in * ).

(** ** The pattern matcher computes the language of the pattern *)

Section RegexCorrect.

Import Regex.

Lemma in_iter (step : string -> list string) (P : string -> Prop) :
  (forall s s', In s' (step s) <-> exists m, s = m +:+ s' /\ P m) ->
  forall n (Q : string -> Prop),
    Q = (fun m => nat_rect (fun _ => string -> Prop) (fun m => m = "")
                    (fun _ R m => exists m1 m2, m = m1 +:+ m2 /\ P m1 /\ R m2) n m) ->
    forall s s', In s' (iter n step s) <-> exists m, s = m +:+ s' /\ Q m.
Proof.
  intros Hstep n. induction n as [|n IH]; intros Q -> s s'; simpl.
  - split.
    + intros [<-|[]]. now exists "".
    + intros (m & -> & ->). now left.
  - rewrite in_flat_map. split.
    + intros (x & Hx & Hin).
      apply Hstep in Hx as (m1 & -> & Hm1).
      apply (IH _ eq_refl) in Hin as (m2 & -> & Hm2).
      exists (m1 +:+ m2). rewrite append_assoc. eauto 6.
    + intros (m & -> & m1 & m2 & -> & Hm1 & Hm2).
      exists (m2 +:+ s'). split.
      * apply Hstep. exists m1. now rewrite append_assoc.
      * apply (IH _ eq_refl). eauto.
Qed.

Lemma times_unfold (r : Regex.t) n m :
  Matches (Times n r) m <->
  nat_rect (fun _ => string -> Prop) (fun m => m = "")
           (fun _ R m => exists m1 m2, m = m1 +:+ m2 /\ Matches r m1 /\ R m2) n m.
Proof.
  revert m. induction n as [|n IH]; intros m; simpl.
  - split; [now inversion 1 | intros ->; constructor].
  - split.
    + inversion 1; subst. exists s1, s2. rewrite <- IH. auto.
    + intros (m1 & m2 & -> & H1 & H2). constructor; [assumption | now apply IH].
Qed.

Lemma rests_correct (r : Regex.t) :
  forall s s', In s' (rests r s) <-> exists m, s = m +:+ s' /\ Matches r m.
Proof.
  induction r as [p | l | r1 IH1 r2 IH2 | r1 IH1 r2 IH2 | n r IH]; intros s s'; simpl.
  - destruct s as [|a s]; simpl.
    + split; [intros [] | intros (m & Hm & HM); inversion HM; subst; discriminate].
    + destruct (p a) eqn:Hp; simpl.
      * split.
        -- intros [<-|[]]. exists (String a ""). split; [reflexivity | now constructor].
        -- intros (m & Hm & HM). inversion HM; subst. unfold_append. left. congruence.
      * split; [intros [] |].
        intros (m & Hm & HM). inversion HM; subst. unfold_append. congruence.
  - destruct (Str.startsWith l s) eqn:Hl; simpl.
    + apply startsWith_append in Hl as [t ->]. rewrite drop_append. split.
      * intros [<-|[]]. exists l. split; [reflexivity | constructor].
      * intros (m & Hm & HM). inversion HM; subst. left.
        clear HM. induction m as [|a m IHm]; unfold_append; [assumption|].
        apply IHm. congruence.
    + split; [intros [] |]. intros (m & -> & HM). inversion HM; subst.
      assert (Str.startsWith m (m +:+ s') = true) by (apply startsWith_append; eauto).
      congruence.
  - rewrite in_app_iff, IH1, IH2. split.
    + intros [(m & ? & ?)|(m & ? & ?)]; exists m; split; auto using Matches.
    + intros (m & ? & HM). inversion HM; subst; [left | right]; eauto.
  - rewrite in_flat_map. split.
    + intros (x & Hx & Hin). apply IH1 in Hx as (m1 & -> & H1).
      apply IH2 in Hin as (m2 & -> & H2).
      exists (m1 +:+ m2). rewrite append_assoc. split; [reflexivity | now constructor].
    + intros (m & -> & HM). inversion HM; subst.
      exists (s2 +:+ s'). split.
      * apply IH1. exists s1. now rewrite append_assoc.
      * apply IH2. eauto.
  - rewrite (in_iter (rests r) (Matches r) IH n _ eq_refl). split.
    + intros (m & ? & ?). exists m. now rewrite times_unfold.
    + intros (m & ? & ?). exists m. now rewrite <- times_unfold.
Qed.

Lemma test_correct (r : Regex.t) (s : string) : test r s = true <-> Matches r s.
Proof.
  unfold test. rewrite existsb_exists. split.
  - intros (x & Hin & Hx). destruct x; [|discriminate].
    apply rests_correct in Hin as (m & -> & HM). now rewrite append_empty_r.
  - intros HM. exists "". split; [|reflexivity].
    apply rests_correct. exists s. now rewrite append_empty_r.
Qed.

Lemma times_class (p : ascii -> bool) n s :
  Matches (Times n (Class p)) s <-> String.length s = n /\ Str.all p s = true.
Proof.
  revert s. induction n as [|n IH]; intros s.
  - split.
    + inversion 1. now split.
    + intros [Hl _]. destruct s; [constructor | discriminate].
  - split.
    + inversion 1 as [| | | | | |n' r' s1 s2 H1 H2]; subst.
      inversion H1; subst. apply IH in H2 as [Hl Ha]. unfold_append. simpl.
      rewrite Hl. split; [reflexivity|]. now apply andb_true_iff.
    + intros [Hl Ha]. destruct s as [|a s]; [discriminate|].
      simpl in Hl, Ha. apply andb_true_iff in Ha as [Hp Ha].
      change (String a s) with (String a "" +:+ s).
      constructor; [now constructor | apply IH; split; congruence].
Qed.

End RegexCorrect.

Lemma phoneRegex_language (s : string) :
  Matches phoneRegex s <-> SouthAfricanNumber s.
Proof.
  unfold phoneRegex, SouthAfricanNumber. split.
  - inversion 1 as [| | | |r1 r2 s1 s2 Hp Hrest| |]; subst.
    inversion Hrest as [| | | |r1' r2' s3 s4 Hd Hds| |]; subst.
    inversion Hd; subst.
    apply times_class in Hds as [Hl Ha].
    exists s1, a, s4. simpl. split; [reflexivity|].
    split; [|auto].
    inversion Hp as [| |? ? ? HL|? ? ? HR| | |]; subst;
      [inversion HL | inversion HR]; auto.
  - intros (prefix & d & rest & -> & Hp & Hd & Hl & Ha).
    constructor.
    + destruct Hp as [->| ->]; [apply MatchAltL | apply MatchAltR]; constructor.
    + change (String d rest) with (String d "" +:+ rest).
      constructor; [now constructor | now apply times_class].
Qed.


(** ** The builtins on sample inputs *)

Example toFixed2_samples :
  map Num.toFixed2
      [Num.ofZ 170; Num.Fin (51 # 2); Num.Fin (1 # 3); Num.Fin (2 # 3);
       Num.Fin (- (3 # 2)); Num.Fin 0; Num.NaN; Num.ofZ (10 ^ 21)]
  = ["170.00"; "25.50"; "0.33"; "0.67"; "-1.50"; "0.00"; "NaN"; "1e+21"].
Proof. vm_compute. reflexivity. Qed.

Example toString_samples :
  map Num.toString
      [Num.ofZ 5; Num.Fin (5 # 2); Num.Fin (1 # 1000000); Num.Fin (1 # 10000000);
       Num.ofZ (10 ^ 20); Num.ofZ (10 ^ 21); Num.Fin (- (123456789 # 1000))]
  = ["5"; "2.5"; "0.000001"; "1e-7"; "100000000000000000000"; "1e+21"; "-123456.789"].
Proof. vm_compute. reflexivity. Qed.

(** [parseInt] of a number is [parseInt] of its string. *)
Example parseInt_number_samples :
  forallb (fun x => bool_decide (Num.parseInt x = Num.parseIntString false (Num.toString x)))
          [Num.ofZ 5; Num.Fin (5 # 2); Num.Fin (- (5 # 2)); Num.Fin (1 # 2);
           Num.Fin (1 # 1000000); Num.Fin (1 # 10000000); Num.Fin (12345 # 100000000000);
           Num.ofZ (10 ^ 20); Num.ofZ (10 ^ 21); Num.ofZ (- 15 * 10 ^ 24); Num.Fin 0;
           Num.NaN; Num.Inf false]
  = true.
Proof. vm_compute. reflexivity. Qed.

Example parseInt_string_samples :
  map (Num.parseIntString false) ["12abc"; "  -7"; "0x1F"; "abc"; ""; "+3.9"; "08"]
  = [Some 12; Some (-7); Some 31; None; None; Some 3; Some 8]%Z.
Proof. vm_compute. reflexivity. Qed.

Example parseFloat_string_samples :
  map Num.parseFloatString ["25.50"; "  -7e2"; ".5"; "."; "1."; "abc"; "1e"; "Infinity"]
  = [Num.Fin (51 # 2); Num.Fin (- (700)); Num.Fin (1 # 2); Num.NaN; Num.Fin 1; Num.NaN;
     Num.Fin 1; Num.Inf false].
Proof. vm_compute. reflexivity. Qed.

Example string_samples :
  Str.trim "  082 123 4567 " = "082 123 4567"
  /\ Str.removeWhiteSpace "082 123 4567" = "0821234567"
  /\ Str.split " | " "Greens: with greens | Sauces: all sauces"
     = ["Greens: with greens"; "Sauces: all sauces"]
  /\ Str.split " | " "a |  | b" = ["a"; ""; "b"]
  /\ Str.removeFirst "Greens:" "Greens: with greens" = " with greens"
  /\ Str.encodeURIComponent "R170.00 *x* (a b)" = "R170.00%20*x*%20(a%20b)".
Proof. vm_compute. repeat split. Qed.

Example generateOrderNumber_samples :
  generateOrderNumber (Crypto 123456) = 7456%Z
  /\ generateOrderNumber (MathRandom (1 # 2)) = 5500%Z.
Proof. vm_compute. split; reflexivity. Qed.



(** ** The cart store *)

Lemma getCart_cached (e : Access) (w : World) :
  cacheValid (now e) (store w) = true -> getCart e w = (TheCache, w).
Proof. intros H. unfold getCart. now rewrite H. Qed.

Lemma getCart_persisted (e : Access) (w : World) :
  kodijongCart (store (snd (getCart e w))) = kodijongCart (store w).
Proof.
  unfold getCart.
  destruct (cacheValid (now e) (store w)); [reflexivity|].
  destruct (throws e); [reflexivity|].
  destruct (kodijongCart (store w)) as [[| |c|]|] eqn:Hs; cbn; congruence.
Qed.

(** [getCart] touches the store and the console only. *)
Lemma getCart_frame (e : Access) (w : World) :
  let w' := snd (getCart e w) in
  notifier w' = notifier w /\ debounce w' = debounce w /\ dom w' = dom w
  /\ opened w' = opened w /\ timers w' = timers w.
Proof.
  unfold getCart.
  destruct (cacheValid (now e) (store w)); [now repeat split|].
  destruct (throws e); [now repeat split|].
  destruct (kodijongCart (store w)) as [[| |c|]|]; now repeat split.
Qed.

(** C6.  After [saveCart(c)] returned [true], a [getCart()] that follows
    within the cache duration returns [c]; for a value that is not an array
    [saveCart] returns [false] and leaves the persisted cart, the cache and
    what a later [getCart()] returns as they were. *)
Theorem saveCart_read_after_write :
  (forall (c : Cart) (e e' : Access) (w : World),
      fst (saveCart (AnArray c) e w) = true ->
      (now e' - now e < _CACHE_DURATION)%Z ->
      readCart e' (snd (saveCart (AnArray c) e w)) = c)
  /\ (forall (v : JsVal) (e : Access) (w : World),
         fst (saveCart (NotAnArray v) e w) = false
         /\ store (snd (saveCart (NotAnArray v) e w)) = store w
         /\ forall e', readCart e' (snd (saveCart (NotAnArray v) e w)) = readCart e' w).
Proof.
  split.
  - intros c e e' w Hok Hsoon. unfold saveCart in *.
    destruct (throws e); [discriminate|]. cbn [snd].
    unfold readCart. rewrite getCart_cached; [reflexivity|].
    unfold cacheValid. cbn. now apply Z.ltb_lt.
  - intros v e w. cbn. repeat split. intros e'.
    unfold readCart, getCart. cbn.
    destruct (cacheValid (now e') (store w)); [reflexivity|].
    destruct (throws e'); [reflexivity|].
    destruct (kodijongCart (store w)) as [[| |c|]|]; reflexivity.
Qed.

Lemma saveCart_read_after_write_witness :
  readCart (Sample.at_ 5500)
           (snd (saveCart (AnArray [Sample.kota]) (Sample.at_ 5000)
                          (Sample.world None "" "")))
  = [Sample.kota].
Proof.
  apply (proj1 saveCart_read_after_write [Sample.kota] (Sample.at_ 5000)
               (Sample.at_ 5500) (Sample.world None "" "")).
  - reflexivity.
  - vm_compute. reflexivity.
Defined.

(** Once the cache has expired the answer comes from the storage: the cart
    as JSON carries it. *)
Lemma saveCart_then_reload (c : Cart) (e e' : Access) (w : World) :
  throws e = false -> throws e' = false ->
  (_CACHE_DURATION <= now e' - now e)%Z ->
  readCart e' (snd (saveCart (AnArray c) e w)) = map jsonItem c.
Proof.
  intros He He' Hlate. unfold saveCart. rewrite He. cbn [snd].
  unfold readCart, getCart, cacheValid. cbn.
  replace (now e' - now e <? _CACHE_DURATION)%Z with false
    by (symmetry; now apply Z.ltb_ge).
  now rewrite He'.
Qed.

(** C7, as amended.  [getCart] always returns a list.  When it goes to the
    storage (no valid cache) and the read throws or the text is not JSON, it
    returns the empty list and logs the error; when the text parses to a
    value that is not an array it returns the empty list and logs nothing. *)
Theorem getCart_malformed_is_empty (e : Access) (w : World) :
  cacheValid (now e) (store w) = false ->
  (throws e = true \/ kodijongCart (store w) = Some TextInvalid ->
   readCart e w = [] /\ console (snd (getCart e w)) = console w ++ ["Error reading cart:"])
  /\ (throws e = false -> kodijongCart (store w) = Some TextOther ->
      readCart e w = [] /\ console (snd (getCart e w)) = console w).
Proof.
  intros Hmiss. unfold readCart, getCart. rewrite Hmiss. split.
  - intros [Ht|Hs].
    + rewrite Ht. now split.
    + rewrite Hs. destruct (throws e); now split.
  - intros Ht Hs. rewrite Ht, Hs. now split.
Qed.

Lemma getCart_malformed_is_empty_witness :
  readCart (Sample.failing 5000) (Sample.world (Some (TextArray [Sample.kota])) "" "") = []
  /\ console (snd (getCart (Sample.failing 5000)
                           (Sample.world (Some (TextArray [Sample.kota])) "" "")))
     = [] ++ ["Error reading cart:"].
Proof.
  apply (proj1 (getCart_malformed_is_empty (Sample.failing 5000)
                 (Sample.world (Some (TextArray [Sample.kota])) "" "") eq_refl)).
  left. reflexivity.
Defined.

(** C7 as stated fails: the storage holds text that parses to a value that
    is not an array, [getCart] reads it (the cache is empty, the read does
    not throw) and returns the empty list, and nothing is logged. *)
Lemma getCart_nonlist_not_logged :
  let w := Sample.world (Some TextOther) "" "" in
  let e := Sample.at_ 5000 in
  cacheValid (now e) (store w) = false
  /\ kodijongCart (store w) = Some TextOther
  /\ readCart e w = []
  /\ console w = []
  /\ console (snd (getCart e w)) = [].
Proof. repeat split. Qed.

(** ** Sending the order *)

(** [showNotification] touches the notifier and the timers only. *)
Lemma showNotification_frame (msg : string) (ty : NotificationType) (w : World) :
  let w' := showNotification msg ty w in
  store w' = store w /\ debounce w' = debounce w /\ dom w' = dom w
  /\ console w' = console w /\ opened w' = opened w.
Proof.
  unfold showNotification. cbn.
  destruct (_notificationShowing (notifier w)); [now repeat split|].
  unfold _showNextNotification. cbn.
  destruct (_notificationQueue (notifier w) ++ _); now repeat split.
Qed.

(** The notifier after [showNotification] depends on the notifier before
    only. *)
Lemma showNotification_notifier (msg : string) (ty : NotificationType) (w1 w2 : World) :
  notifier w1 = notifier w2 ->
  notifier (showNotification msg ty w1) = notifier (showNotification msg ty w2).
Proof.
  intros H.
  destruct w1 as [s1 n1 b1 d1 c1 o1 t1], w2 as [s2 n2 b2 d2 c2 o2 t2].
  cbn in H. subst n2. unfold showNotification. cbn.
  destruct (_notificationShowing n1); [reflexivity|].
  unfold _showNextNotification. cbn.
  destruct (_notificationQueue n1 ++ _); reflexivity.
Qed.

(** What enqueueing does: behind the queue while a notification is on
    screen, straight to the screen when the queue is idle and empty. *)
Lemma showNotification_enqueues (msg : string) (ty : NotificationType) (w : World) :
  let n := {| message := msg; type := ty |} in
  let w' := showNotification msg ty w in
  (_notificationShowing (notifier w) = true ->
   _notificationQueue (notifier w') = _notificationQueue (notifier w) ++ [n])
  /\ (_notificationShowing (notifier w) = false ->
      _notificationQueue (notifier w) = [] ->
      notificationNode (notifier w') = Some {| message := stripAngles msg; type := ty |}
      /\ _notificationShowing (notifier w') = true).
Proof.
  destruct w as [s [q sh nd] b d c o t]. unfold showNotification. cbn. split.
  - intros ->. reflexivity.
  - intros -> ->. cbn. now split.
Qed.








(** [_updateCartCountImmediate] reads the cart and rewrites the count
    elements: the persisted cart, the input fields, the notifier and the
    opened windows are as before. *)
Lemma _updateCartCountImmediate_frame (e : Access) (w : World) :
  let w' := _updateCartCountImmediate e w in
  store w' = store (snd (getCart e w))
  /\ notifier w' = notifier w
  /\ opened w' = opened w
  /\ customer_name (dom w') = customer_name (dom w)
  /\ customer_phone (dom w') = customer_phone (dom w)
  /\ special_instructions (dom w') = special_instructions (dom w).
Proof.
  unfold _updateCartCountImmediate.
  pose proof (getCart_frame e w) as (Hn & _ & Hd & Ho & _).
  destruct (getCart e w) as [r w1]. cbn in *. rewrite Hd. now repeat split.
Qed.

(** After a write of the empty cart that did not throw, a read leaves the
    store with the empty cart, persisted and cached. *)
Lemma getCart_after_clearing (e e' : Access) (w : World) :
  throws e = false ->
  let s := store (snd (getCart e' (snd (saveCart (AnArray []) e w)))) in
  kodijongCart s = Some (TextArray []) /\ _cartCache s = Some [].
Proof.
  intros He. unfold saveCart. rewrite He. cbn [snd].
  unfold getCart.
  destruct (cacheValid _ _); [now split|].
  destruct (throws e'); now split.
Qed.

(** A phone that is not of that shape stops [sendWhatsAppOrder] at the
    phone check. *)
Lemma sendWhatsAppOrder_invalid_phone (e : SendEnv) (w : World) :
  readCart (cartRead e) w <> [] ->
  Str.isEmpty (fieldValue (customer_name (dom w))) = false ->
  Str.isEmpty (fieldValue (customer_phone (dom w))) = false ->
  ~ SouthAfricanNumber (cleanPhone (fieldValue (customer_phone (dom w)))) ->
  sendWhatsAppOrder e w
  = (false,
     showNotification "Please enter a valid South African phone number" Error
                      (snd (getCart (cartRead e) w))).
Proof.
  intros Hcart Hname Hphone Hbad. unfold sendWhatsAppOrder.
  pose proof (getCart_frame (cartRead e) w) as (_ & _ & Hd & _).
  unfold readCart in Hcart.
  destruct (getCart (cartRead e) w) as [r w1]. cbn [snd] in *.
  destruct (deref r w1) as [|item rest]; [contradiction|].
  rewrite Hd, Hname, Hphone. cbn [orb].
  destruct (Regex.test phoneRegex _) eqn:Htest; [|reflexivity].
  now apply test_correct, phoneRegex_language in Htest.
Qed.

(** The window [sendWhatsAppOrder] opens shows the message built from the
    cart it read and the trimmed inputs. *)
Lemma sendWhatsAppOrder_opens_message (e : SendEnv) (w : World) :
  fst (sendWhatsAppOrder e w) = true ->
  opened (snd (sendWhatsAppOrder e w))
  = opened w
      ++ [whatsappUrl
            (buildMessage (generateOrderNumber (random e))
                          (fieldValue (customer_name (dom w)))
                          (displayPhoneOf (cleanPhone (fieldValue (customer_phone (dom w)))))
                          (readCart (cartRead e) w)
                          (orderTime e)
                          (fieldValue (special_instructions (dom w))))].
Proof.
  unfold sendWhatsAppOrder, readCart.
  pose proof (getCart_frame (cartRead e) w) as (_ & _ & Hd & Ho & _).
  destruct (getCart (cartRead e) w) as [r w1]. cbn [snd] in *.
  destruct (deref r w1) as [|item rest]; [discriminate|].
  rewrite Hd.
  destruct (Str.isEmpty (fieldValue (customer_name (dom w))) || _); [discriminate|].
  destruct (negb (Regex.test phoneRegex _)); [discriminate|].
  destruct (popup e); [|discriminate|discriminate].
  set (url := whatsappUrl _).
  destruct (saveCart (AnArray []) (cartWrite e) (windowOpened url w1)) as [ok w3] eqn:Hsave.
  assert (Ho3 : opened w3 = opened w1 ++ [url]).
  { unfold saveCart in Hsave. destruct (throws (cartWrite e));
      injection Hsave as _ <-; reflexivity. }
  pose proof (_updateCartCountImmediate_frame (countRead e) w3) as (_ & _ & Ho4 & _).
  intros _. cbn [snd].
  destruct (showNotification_frame "Order sent successfully! Check WhatsApp." Success
              (withDom clearInputs (_updateCartCountImmediate (countRead e) w3)))
    as (_ & _ & _ & _ & Ho').
  cbn zeta in *. rewrite Ho'. cbn. now rewrite Ho4, Ho3, Ho.
Qed.




(** ** Quantities and prices *)

Lemma Qred_zero (q : Q) : q == 0 -> Qeq_bool (Qred q) 0 = true.
Proof. intros H. apply Qeq_bool_iff. now rewrite Qred_correct. Qed.

Lemma Qred_inject_Z (n : Z) : Qred (inject_Z n) = inject_Z n.
Proof. apply Qcanon.Qred_identity. cbn. apply Z.gcd_1_r. Qed.

(** [parseInt] gives a whole number in the plain-notation range back. *)
Lemma parseInt_whole (n : Z) :
  n <> 0%Z -> (Z.abs n < 10 ^ 21)%Z -> parseInt (JNum (Num.ofZ n)) = Some n.
Proof.
  intros Hn Hlt. cbn [parseInt Num.ofZ Num.parseInt]. rewrite Qred_inject_Z.
  assert (H0 : Qeq_bool (inject_Z n) 0 = false).
  { unfold Qeq_bool. cbn. apply Z.eqb_neq. lia. }
  rewrite H0.
  assert (H1 : Qle_bool (1 # 1000000) (Qabs (inject_Z n)) = true).
  { unfold Qle_bool. cbn. apply Z.leb_le. lia. }
  assert (H2 : Qle_bool (inject_Z (10 ^ 21)) (Qabs (inject_Z n)) = false).
  { unfold Qle_bool. cbn [Qabs inject_Z Qnum Qden]. apply Z.leb_gt. lia. }
  rewrite H1, H2. cbn [andb negb]. unfold Num.truncate. cbn [inject_Z Qnum Qden].
  now rewrite Z.quot_1_r.
Qed.

Lemma parseIntOr_whole (n : Z) :
  n <> 0%Z -> (Z.abs n < 10 ^ 21)%Z -> parseIntOr 1 (JNum (Num.ofZ n)) = n.
Proof.
  intros Hn Hlt. unfold parseIntOr. rewrite parseInt_whole by assumption.
  now apply Z.eqb_neq in Hn as ->.
Qed.

Lemma parseIntOr_malformed (d : Z) (v : JsVal) :
  MalformedQuantity v -> parseIntOr d v = d.
Proof.
  unfold parseIntOr. intros [-> | [(q & -> & Hq) | ->]]; [reflexivity | | reflexivity].
  cbn [parseInt Num.parseInt]. now rewrite (Qred_zero q Hq).
Qed.

(** The price of an entry with a numeric [basePrice]. *)
Lemma parseFloatOr0_number (b : Q) :
  exists b', parseFloatOr0 (JNum (Num.Fin b)) = Num.Fin b' /\ b' == b.
Proof.
  unfold parseFloatOr0. cbn. destruct (Qeq_bool b 0) eqn:Hb.
  - exists (inject_Z 0). split; [reflexivity|].
    apply Qeq_bool_iff in Hb. now rewrite Hb.
  - exists b. split; reflexivity.
Qed.

(** [toFixed] reads the value of the rational, not its representation. *)
Lemma toFixed2_Qeq (p q : Q) : p == q -> Num.toFixed2 (Num.Fin p) = Num.toFixed2 (Num.Fin q).
Proof. intros H. unfold Num.toFixed2. now rewrite (Qred_complete p q H). Qed.




(** What [updateCartDisplay] writes into the total element. *)
Lemma updateCartDisplay_total (e : Access) (w : World) :
  orderList (dom w) <> None ->
  totalPriceElement (dom w) <> None ->
  totalPriceElement (dom (updateCartDisplay e w))
  = Some ("R" +:+ Num.toFixed2
                    (match readCart e w with
                     | [] => Num.ofZ 0
                     | cart => snd (renderItems 0 cart [] (Num.ofZ 0))
                     end)).
Proof.
  intros Hlist Htotal. unfold updateCartDisplay, readCart.
  pose proof (getCart_frame e w) as (_ & _ & Hd & _).
  destruct (getCart e w) as [r w1]. cbn [snd] in Hd. rewrite Hd.
  destruct (orderList (dom w)); [|contradiction].
  destruct (totalPriceElement (dom w)) eqn:Ht; [|contradiction].
  destruct (deref r w1) as [|item rest].
  - cbn. now rewrite Hd, Ht.
  - destruct (renderItems 0 (item :: rest) [] (Num.ofZ 0)) as [lis total].
    cbn. now rewrite Hd, Ht.
Qed.




(** C10.  An entry whose quantity is missing, zero or not a number is
    priced with quantity 1 by the cart display and by the order message, a
    missing [basePrice] counting as 0, and adds nothing to the count of the
    badge: with a price it adds money to the total and no item to the
    count. *)
Theorem malformed_quantity_priced_not_counted (item : Item.t) :
  MalformedQuantity (Item.quantity item) ->
  let price := parseFloatOr0 (Item.basePrice item) in
  parseIntOr 1 (Item.quantity item) = 1%Z
  /\ (forall i lis total,
         snd (renderItems i [item] lis total) = Num.add total (Num.mul price (Num.ofZ 1)))
  /\ (forall i message cartTotal,
         snd (orderSummary i [item] message cartTotal)
         = Num.add cartTotal (Num.mul price (Num.ofZ 1)))
  /\ (Item.basePrice item = JUndefined -> price = Num.ofZ 0)
  /\ (forall b : Q, Item.basePrice item = JNum (Num.Fin b) -> ~ b == 0 ->
                    Num.mul price (Num.ofZ 1) = Num.Fin (b * inject_Z 1))
  /\ parseIntOr 0 (Item.quantity item) = 0%Z
  /\ totalItems [item] = 0%Z
  /\ (forall cart, totalItems (cart ++ [item]) = totalItems cart).
Proof.
  intros Hq. cbn zeta.
  pose proof (parseIntOr_malformed 1 _ Hq) as H1.
  pose proof (parseIntOr_malformed 0 _ Hq) as H0.
  split; [exact H1|].
  split; [intros i lis total; cbn [renderItems snd]; now rewrite H1|].
  split; [intros i message cartTotal; cbn [orderSummary snd]; now rewrite H1|].
  split; [now intros ->|].
  split.
  { intros b -> Hb. unfold parseFloatOr0. cbn.
    destruct (Qeq_bool b 0) eqn:E; [|reflexivity].
    now apply Qeq_bool_iff in E. }
  split; [exact H0|].
  split.
  - unfold totalItems. cbn. now rewrite H0.
  - intros cart. unfold totalItems. rewrite fold_left_app. cbn. rewrite H0. cbn. lia.
Qed.

Lemma malformed_quantity_priced_not_counted_witness :
  parseIntOr 1 (Item.quantity (Sample.entry "Kota" (Sample.num 85) (JStr "two") "" [] []))
  = 1%Z.
Proof.
  apply (malformed_quantity_priced_not_counted
           (Sample.entry "Kota" (Sample.num 85) (JStr "two") "" [] [])).
  right. right. reflexivity.
Defined.

(** ** Removing an entry *)

(** A read that returns entries returns the cache object. *)
Lemma getCart_nonempty_is_cache (e : Access) (w : World) (r : CartRef) (w1 : World) :
  getCart e w = (r, w1) -> deref r w1 <> [] ->
  r = TheCache /\ _cartCache (store w1) = Some (deref r w1).
Proof.
  intros _ Hne. destruct r; [|now contradiction Hne]. split; [reflexivity|].
  cbn in *. destruct (_cartCache (store w1)); [reflexivity | now contradiction Hne].
Qed.

(** [updateCartDisplay] and [updateCartCount] after a write that did not
    throw: the persisted cart stays, the cache holds the cart written or
    the cart as the storage gives it back. *)
Lemma redraw_after_save (cart : Cart) (write redraw : Access) (w : World) :
  throws write = false ->
  let w' := updateCartCount
              (updateCartDisplay redraw (snd (saveCart (AnArray cart) write w))) in
  kodijongCart (store w') = Some (TextArray (map jsonItem cart))
  /\ (_cartCache (store w') = Some cart
      \/ _cartCache (store w') = Some (map jsonItem cart)).
Proof.
  intros Hw. unfold saveCart. rewrite Hw. cbn [snd].
  set (w3 := withStore _ w).
  assert (Hstore : kodijongCart (store (snd (getCart redraw w3)))
                   = Some (TextArray (map jsonItem cart))
                   /\ (_cartCache (store (snd (getCart redraw w3))) = Some cart
                       \/ _cartCache (store (snd (getCart redraw w3)))
                          = Some (map jsonItem cart))).
  { unfold getCart. destruct (cacheValid (now redraw) (store w3)).
    - split; [reflexivity | now left].
    - destruct (throws redraw).
      + split; [reflexivity | now left].
      + cbn. split; [reflexivity | now right]. }
  assert (Hsame : store (updateCartCount (updateCartDisplay redraw w3))
                  = store (snd (getCart redraw w3))).
  { unfold updateCartDisplay. destruct (getCart redraw w3) as [r w4]. cbn [snd].
    unfold updateCartCount.
    destruct (orderList (dom w4)).
    - destruct (match deref r w4 with [] => _ | _ => _ end) as [lis total].
      cbn. destruct (updateTimeout (debounce w4)); reflexivity.
    - destruct (updateTimeout (debounce w4)); reflexivity. }
  cbn zeta. now rewrite Hsame.
Qed.

(** C9, as amended.  A run of the remove-item listener with index [k] on
    a cart of [n] entries: for [0 <= k < n] it takes the entry at [k] out,
    leaving the [n - 1] others in their order, and, unless the storage
    write throws, that cart is what the store then holds, persisted and
    cached; for [k] outside the range nothing changes but what the read
    itself does. *)
Theorem removeItemListener_removes (target : Target) (e : ClickEnv) (w : World) (k : Z) :
  isRemoveItem target = true ->
  Num.parseIntString true (default "undefined" (dataIndex target)) = Some k ->
  let cart := readCart (clickRead e) w in
  let remaining := delete (Z.to_nat k) cart in
  let w' := removeItemListener target e w in
  ((0 <= k < Z.of_nat (length cart))%Z ->
   length remaining = length cart - 1
   /\ remaining = take (Z.to_nat k) cart ++ drop (S (Z.to_nat k)) cart
   /\ (throws (clickWrite e) = false ->
       kodijongCart (store w') = Some (TextArray (map jsonItem remaining))
       /\ (_cartCache (store w') = Some remaining
           \/ _cartCache (store w') = Some (map jsonItem remaining))))
  /\ (~ (0 <= k < Z.of_nat (length cart))%Z ->
      w' = snd (getCart (clickRead e) w)
      /\ kodijongCart (store w') = kodijongCart (store w)
      /\ dom w' = dom w).
Proof.
  intros Hbutton Hindex. cbn zeta. unfold removeItemListener, readCart.
  rewrite Hbutton, Hindex.
  pose proof (getCart_frame (clickRead e) w) as (_ & _ & Hd & _).
  pose proof (getCart_persisted (clickRead e) w) as Hpers.
  destruct (getCart (clickRead e) w) as [r w1] eqn:Hg. cbn [snd] in *.
  split.
  - intros Hin.
    replace ((0 <=? k)%Z && (k <? Z.of_nat (length (deref r w1)))%Z) with true
      by (symmetry; apply andb_true_iff; split; [apply Z.leb_le | apply Z.ltb_lt]; lia).
    assert (Hne : deref r w1 <> []) by (destruct (deref r w1); [cbn in Hin; lia | discriminate]).
    destruct (getCart_nonempty_is_cache _ _ _ _ Hg Hne) as [-> Hcache].
    split.
    { rewrite length_delete; [reflexivity|].
      apply lookup_lt_is_Some. lia. }
    split; [apply delete_take_drop|].
    intros Hw.
    assert (Hspliced : deref TheCache (splice TheCache (Z.to_nat k) w1)
                       = delete (Z.to_nat k) (deref TheCache w1)).
    { cbn. now rewrite Hcache. }
    rewrite Hspliced.
    pose proof (redraw_after_save (delete (Z.to_nat k) (deref TheCache w1))
                  (clickWrite e) (redrawRead e) (splice TheCache (Z.to_nat k) w1) Hw)
      as Hredraw.
    cbn zeta in Hredraw.
    destruct (saveCart _ (clickWrite e) (splice TheCache (Z.to_nat k) w1)) as [ok w3].
    exact Hredraw.
  - intros Hout.
    replace ((0 <=? k)%Z && (k <? Z.of_nat (length (deref r w1)))%Z) with false.
    + now repeat split.
    + symmetry. apply andb_false_iff.
      destruct (Z.leb_spec 0 k); [right; apply Z.ltb_ge; lia | now left].
Qed.

Lemma removeItemListener_removes_witness :
  kodijongCart
    (store (removeItemListener {| isRemoveItem := true; dataIndex := Some "1" |}
              (Sample.clicking (Sample.at_ 5001))
              (Sample.world (Some (TextArray [Sample.kota; Sample.chips; Sample.wings]))
                            "" "")))
  = Some (TextArray (map jsonItem [Sample.kota; Sample.wings])).
Proof.
  apply (proj1 (removeItemListener_removes
                  {| isRemoveItem := true; dataIndex := Some "1" |}
                  (Sample.clicking (Sample.at_ 5001))
                  (Sample.world (Some (TextArray [Sample.kota; Sample.chips; Sample.wings]))
                                "" "")
                  1%Z eq_refl eq_refl)).
  - vm_compute. split; [discriminate | reflexivity].
  - reflexivity.
Defined.

(** C9 as stated fails when the storage write throws: the listener takes
    the entry at index 1 out of the cached array, and the persisted cart
    still has its three entries. *)
Lemma removeItemListener_not_persisted :
  let cart := [Sample.kota; Sample.chips; Sample.wings] in
  let w := Sample.world (Some (TextArray cart)) "" "" in
  let w' := removeItemListener {| isRemoveItem := true; dataIndex := Some "1" |}
                               (Sample.clicking (Sample.failing 5001)) w in
  readCart (Sample.at_ 5000) w = cart
  /\ kodijongCart (store w') = Some (TextArray cart)
  /\ _cartCache (store w') = Some [Sample.kota; Sample.wings].
Proof. vm_compute. repeat split. Qed.

(** A click runs every listener added so far.  [updateCartDisplay] adds
    one each time it renders, so after two renderings a click on the first
    remove button takes two entries out. *)
Lemma click_runs_every_listener :
  let cart := [Sample.kota; Sample.chips; Sample.wings] in
  let w0 := Sample.world (Some (TextArray cart)) "" "" in
  let w := updateCartDisplay (Sample.at_ 4000) w0 in
  orderListListeners (dom w) = 2
  /\ kodijongCart
       (store (click {| isRemoveItem := true; dataIndex := Some "0" |}
                     (fun _ => Sample.clicking (Sample.at_ 5001)) w))
     = Some (TextArray [Sample.wings]).
Proof. vm_compute. repeat split. Qed.

(** ** The two formats of an entry's options *)

Lemma join_cons (x : string) (l : list string) :
  Str.join "" (x :: l) = x +:+ Str.join "" l.
Proof. destruct l; cbn [Str.join]; [now rewrite append_empty_r | reflexivity]. Qed.

Lemma join_app (l1 l2 : list string) :
  Str.join "" (l1 ++ l2) = Str.join "" l1 +:+ Str.join "" l2.
Proof.
  induction l1 as [|x l1 IH]; [reflexivity|].
  change ((x :: l1) ++ l2) with (x :: (l1 ++ l2)).
  now rewrite !join_cons, IH, append_assoc.
Qed.

Lemma displayOption_decode (opt : string) :
  displayOption opt = map htmlSegment (decodeOption opt).
Proof.
  unfold displayOption, decodeOption.
  destruct (Str.startsWith "Greens:" opt); [reflexivity|].
  destruct (Str.startsWith "Sauces:" opt); reflexivity.
Qed.

Lemma displayOptions_decode (pieces : list string) :
  flat_map displayOption pieces = map htmlSegment (flat_map decodeOption pieces).
Proof.
  induction pieces as [|opt pieces IH]; [reflexivity|].
  cbn [flat_map]. now rewrite map_app, displayOption_decode, IH.
Qed.

Lemma textOption_decode (opt : string) :
  textOption opt = Str.join "" (map textSegment (decodeOption opt)).
Proof.
  unfold textOption, decodeOption.
  destruct (Str.startsWith "Greens:" opt); [reflexivity|].
  destruct (Str.startsWith "Sauces:" opt); [|reflexivity].
  cbn [map Str.join textSegment textValue].
  destruct (String.eqb_spec (Str.trim (Str.removeFirst "Sauces:" opt)) "all sauces")
    as [->|_]; [reflexivity|].
  destruct (String.eqb_spec (Str.trim (Str.removeFirst "Sauces:" opt)) "no sauces")
    as [->|_]; reflexivity.
Qed.

Lemma textOptions_decode (pieces : list string) :
  Str.join "" (map textOption pieces)
  = Str.join "" (map textSegment (flat_map decodeOption pieces)).
Proof.
  induction pieces as [|opt pieces IH]; [reflexivity|].
  cbn [flat_map map]. now rewrite map_app, join_app, join_cons, textOption_decode, IH.
Qed.

Lemma decodeAddonList_cons (addon : Addon.t) (l : list Addon.t) :
  decodeAddonList (addon :: l)
  = (if (0 <? parseIntOr 0 (Addon.quantity addon))%Z
     then [(stringOrEmpty (Addon.name addon), parseIntOr 0 (Addon.quantity addon))]
     else [])
      ++ decodeAddonList l.
Proof. reflexivity. Qed.

(** The loop of the display over extras or drinks, from any state. *)
Lemma displayAddons_fold (header icon : string) (l : list Addon.t) :
  forall (has : bool) (html : string),
    fold_left (displayAddonStep header icon) l (has, html)
    = match decodeAddonList l with
      | [] => (has, html)
      | d => (true, (if has then html else div "cart-option-item" header)
                      +:+ Str.join "" (map (htmlAddon icon) d))
      end.
Proof.
  induction l as [|addon l IH]; intros has html; [reflexivity|].
  cbn [fold_left]. rewrite decodeAddonList_cons. unfold displayAddonStep at 2.
  destruct (0 <? parseIntOr 0 (Addon.quantity addon))%Z.
  - rewrite IH. cbn [app map]. rewrite join_cons.
    destruct (decodeAddonList l).
    + cbn [map Str.join]. now rewrite append_empty_r.
    + now rewrite append_assoc.
  - apply IH.
Qed.

Lemma addonFragments_decode (header icon : string) (field : option (list Addon.t)) :
  addonFragments header icon field = htmlAddonBlock header icon (decodeAddons field).
Proof.
  destruct field as [l|]; [|reflexivity].
  unfold addonFragments, displayAddons, decodeAddons. rewrite displayAddons_fold.
  now destruct (decodeAddonList l).
Qed.

(** The loop of the message over extras or drinks, from any state. *)
Lemma textAddons_fold (l : list Addon.t) :
  forall entries : list string,
    fold_left textAddonStep l entries = entries ++ map textAddon (decodeAddonList l).
Proof.
  induction l as [|addon l IH]; intros entries; [cbn; now rewrite app_nil_r|].
  cbn [fold_left]. rewrite decodeAddonList_cons. unfold textAddonStep at 2.
  destruct (0 <? parseIntOr 0 (Addon.quantity addon))%Z.
  - rewrite IH. cbn [app map]. now rewrite <- app_assoc.
  - apply IH.
Qed.

Lemma textAddonLine_decode (label : string) (field : option (list Addon.t)) :
  textAddonLine label field = textAddonBlock label (decodeAddons field).
Proof.
  destruct field as [l|]; [|reflexivity].
  unfold textAddonLine, textAddons, decodeAddons. rewrite textAddons_fold.
  now destruct (decodeAddonList l).
Qed.




(** * Further properties *)

(** ** When the order goes out *)





(** ** The notification queue *)

Lemma showNotification_busy (msg : string) (ty : NotificationType) (w : World) :
  _notificationShowing (notifier w) = true ->
  notifier (showNotification msg ty w)
  = {| _notificationQueue :=
         _notificationQueue (notifier w) ++ [{| message := msg; type := ty |}];
       _notificationShowing := true;
       notificationNode := notificationNode (notifier w) |}.
Proof.
  destruct w as [s [q sh nd] b d c o t]. cbn. intros ->. reflexivity.
Qed.

Lemma showNotification_idle (msg : string) (ty : NotificationType) (w : World) :
  QueueIdle w ->
  notifier (showNotification msg ty w)
  = {| _notificationQueue := [];
       _notificationShowing := true;
       notificationNode := Some (shownAs {| message := msg; type := ty |}) |}.
Proof.
  destruct w as [s [q sh nd] b d c o t]. unfold QueueIdle. cbn.
  intros [-> ->]. reflexivity.
Qed.

Lemma showAll_busy (ns : list Notification) :
  forall w : World,
    _notificationShowing (notifier w) = true ->
    notifier (showAll ns w)
    = {| _notificationQueue := _notificationQueue (notifier w) ++ ns;
         _notificationShowing := true;
         notificationNode := notificationNode (notifier w) |}.
Proof.
  induction ns as [|[msg ty] ns IH]; intros w Hbusy.
  - cbn. rewrite app_nil_r. destruct (notifier w). cbn in *. now subst.
  - cbn [showAll fold_left message type].
    change (fold_left _ ns ?x) with (showAll ns x).
    rewrite IH; rewrite showNotification_busy by assumption; cbn; [|reflexivity].
    now rewrite <- app_assoc.
Qed.

Lemma notificationTimers_next (w : World) (n : Notification) (rest : list Notification) :
  _notificationQueue (notifier w) = n :: rest ->
  notifier (notificationTimers w)
  = {| _notificationQueue := rest;
       _notificationShowing := true;
       notificationNode := Some (shownAs n) |}.
Proof.
  destruct w as [s [q sh nd] b d c o t]. cbn. intros ->. reflexivity.
Qed.

Lemma notificationTimers_last (w : World) :
  _notificationQueue (notifier w) = [] ->
  notifier (notificationTimers w)
  = {| _notificationQueue := [];
       _notificationShowing := false;
       notificationNode := None |}.
Proof.
  destruct w as [s [q sh nd] b d c o t]. cbn. intros ->. reflexivity.
Qed.

Lemma screens_succ (k : nat) (w : World) :
  screens (S k) w
  = notificationNode (notifier (notificationTimers w)) :: screens k (notificationTimers w).
Proof. reflexivity. Qed.

Lemma screens_drain (q : list Notification) :
  forall w : World,
    _notificationQueue (notifier w) = q ->
    screens (S (length q)) w = map (fun m => Some (shownAs m)) q ++ [None]
    /\ QueueIdle (Nat.iter (S (length q)) notificationTimers w).
Proof.
  induction q as [|n q IH]; intros w Hq.
  - cbn [length map app]. rewrite screens_succ, (notificationTimers_last w Hq).
    split; [reflexivity|]. cbn [Nat.iter nat_rect]. unfold QueueIdle.
    now rewrite (notificationTimers_last w Hq).
  - pose proof (notificationTimers_next w n q Hq) as Hnext.
    destruct (IH (notificationTimers w)) as [Hs Hidle]; [now rewrite Hnext|].
    split.
    + cbn [length]. rewrite screens_succ, Hs, Hnext. reflexivity.
    + cbn [length]. rewrite Nat.iter_succ_r. exact Hidle.
Qed.

(** Notifications are shown one at a time in the order they were enqueued:
    enqueued on an idle queue, the first is on screen at once, each firing
    of the timers puts the next on screen, the firing after the last clears
    the screen and leaves the queue idle.  What is shown is the text
    without angle brackets. *)
Theorem notifications_first_in_first_out (w : World) (n : Notification)
        (rest : list Notification) :
  QueueIdle w ->
  let w1 := showAll (n :: rest) w in
  notificationNode (notifier w1) = Some (shownAs n)
  /\ screens (S (length rest)) w1 = map (fun m => Some (shownAs m)) rest ++ [None]
  /\ QueueIdle (Nat.iter (S (length rest)) notificationTimers w1).
Proof.
  intros Hidle. cbn zeta. destruct n as [msg ty].
  cbn [showAll fold_left message type].
  change (fold_left _ rest ?x) with (showAll rest x).
  pose proof (showNotification_idle msg ty w Hidle) as Hfirst.
  assert (Hall : notifier (showAll rest (showNotification msg ty w))
                 = {| _notificationQueue := rest;
                      _notificationShowing := true;
                      notificationNode := Some (shownAs {| message := msg; type := ty |}) |}).
  { rewrite showAll_busy; rewrite Hfirst; reflexivity. }
  split; [now rewrite Hall|].
  apply screens_drain. now rewrite Hall.
Qed.

Lemma notifications_first_in_first_out_witness :
  screens 2 (showAll [{| message := "Kota added to cart!"; type := Success |};
                      {| message := "Your cart is empty!"; type := Error |}]
                     (Sample.world None "" ""))
  = [Some {| message := "Your cart is empty!"; type := Error |}; None].
Proof.
  apply (notifications_first_in_first_out (Sample.world None "" "")
           {| message := "Kota added to cart!"; type := Success |}
           [{| message := "Your cart is empty!"; type := Error |}]).
  split; reflexivity.
Defined.

(** ** What the sanitizers keep out *)

Lemma all_filter (p : ascii -> bool) (s : string) : Str.all p (Str.filter p s) = true.
Proof.
  induction s as [|a s IH]; [reflexivity|]. cbn [Str.filter].
  destruct (p a) eqn:Hp; [cbn [Str.all]; now rewrite Hp | exact IH].
Qed.

Lemma all_append (p : ascii -> bool) (s t : string) :
  Str.all p (s +:+ t) = Str.all p s && Str.all p t.
Proof.
  induction s as [|a s IH]; [reflexivity|].
  rewrite append_cons. cbn [Str.all]. now rewrite IH, andb_assoc.
Qed.

(** The text on screen never holds an angle bracket: whatever is enqueued
    and whichever timer fires. *)
Theorem notification_text_has_no_angle_bracket (w : World) :
  NodeClean w ->
  (forall msg ty, NodeClean (showNotification msg ty w))
  /\ NodeClean (notificationExit w)
  /\ NodeClean (notificationRemove w).
Proof.
  destruct w as [s [q sh nd] b d c o t]. unfold NodeClean. cbn. intros Hclean.
  split; [|split].
  - intros msg ty. destruct sh; cbn; [exact Hclean|].
    destruct q; cbn; apply all_filter.
  - exact Hclean.
  - destruct q; cbn; [exact I | apply all_filter].
Qed.

Lemma notification_text_has_no_angle_bracket_witness :
  NodeClean (showNotification "<b>Kota</b> added to cart!" Success (Sample.world None "" "")).
Proof.
  apply (notification_text_has_no_angle_bracket (Sample.world None "" "")).
  exact I.
Defined.

Lemma hexDigits_urlSafe (a : ascii) :
  urlSafe (Str.hexDigit (N_of_ascii a / 16)) = true
  /\ urlSafe (Str.hexDigit (N_of_ascii a mod 16)) = true.
Proof. destruct a as [[] [] [] [] [] [] [] []]; split; reflexivity. Qed.

Lemma encodeURIComponent_urlSafe (s : string) :
  Str.all urlSafe (Str.encodeURIComponent s) = true.
Proof.
  induction s as [|a s IH]; [reflexivity|]. cbn [Str.encodeURIComponent].
  destruct (Str.uriUnreserved a) eqn:Ha.
  - cbn [Str.all]. unfold urlSafe at 1. now rewrite Ha, IH.
  - destruct (hexDigits_urlSafe a) as [Hhi Hlo].
    cbn [Str.all]. now rewrite Hhi, Hlo, IH.
Qed.

(** The link [sendWhatsAppOrder] opens is the address of the business
    followed by a query of unreserved characters and percent escapes only:
    no text of the order, whatever the customer typed, ends the [text]
    parameter or starts another one. *)
Theorem whatsappUrl_query_is_escaped (message : string) :
  exists query : string,
    whatsappUrl message = "https://wa.me/27839679365?text=" +:+ query
    /\ Str.all urlSafe query = true
    /\ Str.all (fun a => negb (Ascii.eqb a "&" || Ascii.eqb a "#" || Ascii.eqb a " "
                               || Ascii.eqb a (ascii_of_nat 10))) query = true.
Proof.
  exists (Str.encodeURIComponent message). split; [reflexivity|].
  split; [apply encodeURIComponent_urlSafe|].
  pose proof (encodeURIComponent_urlSafe message) as Hsafe.
  induction (Str.encodeURIComponent message) as [|a q IH]; [reflexivity|].
  cbn [Str.all] in *. apply andb_true_iff in Hsafe as [Ha Hq].
  rewrite (IH Hq), andb_true_r.
  destruct a as [[] [] [] [] [] [] [] []]; try reflexivity; discriminate.
Qed.

Lemma escapeQuotes_no_quote (s : string) :
  Str.all (fun a => negb (isQuote a)) (escapeQuotes s) = true.
Proof.
  induction s as [|a s IH]; [reflexivity|]. cbn [escapeQuotes].
  destruct (Ascii.eqb a (ascii_of_nat 34)) eqn:Ha.
  - rewrite all_append, IH. reflexivity.
  - cbn [Str.all]. unfold isQuote at 1. now rewrite Ha, IH.
Qed.

Lemma renderItems_attributes (items : Cart) :
  forall i lis total,
    Forall AttributesQuoted lis ->
    Forall AttributesQuoted (fst (renderItems i items lis total)).
Proof.
  induction items as [|item items IH]; intros i lis total Hlis; [exact Hlis|].
  cbn [renderItems]. apply IH. apply Forall_app. split; [exact Hlis|].
  constructor; [|constructor]. split; apply escapeQuotes_no_quote.
Qed.

(** In every list item [updateCartDisplay] renders, the image address and
    the alternative text, which go between double quotes in the markup,
    hold no double quote themselves, whatever the entry's image and name. *)
Theorem rendered_attributes_hold_no_quote (e : Access) (w : World) (lis : list Li) :
  orderList (dom w) <> None ->
  orderList (dom (updateCartDisplay e w)) = Some lis ->
  Forall AttributesQuoted lis.
Proof.
  unfold updateCartDisplay.
  pose proof (getCart_frame e w) as (_ & _ & Hd & _).
  destruct (getCart e w) as [r w1]. cbn [snd] in Hd. rewrite Hd.
  destruct (orderList (dom w)) as [old|]; [|contradiction].
  intros _ Hlis.
  destruct (deref r w1) as [|item rest].
  - cbn in Hlis. injection Hlis as <-. now repeat constructor.
  - pose proof (renderItems_attributes (item :: rest) 0 [] (Num.ofZ 0)
                  ltac:(constructor)) as H.
    destruct (renderItems 0 (item :: rest) [] (Num.ofZ 0)) as [lis' total].
    cbn in Hlis. injection Hlis as <-. exact H.
Qed.

Lemma rendered_attributes_hold_no_quote_witness :
  Forall AttributesQuoted
         [CartItemLi "ORDERING/kota.jpg" (escapeQuotes quotedName)
                     (quotedName +:+ " x2") "R170.00" "" 0].
Proof.
  apply (rendered_attributes_hold_no_quote (Sample.at_ 5000)
           (Sample.world
              (Some (TextArray [Item.make JUndefined JUndefined (JStr quotedName)
                                          (Sample.num 85) (Sample.num 2) JUndefined
                                          (JStr "ORDERING/kota.jpg") JUndefined None None
                                          JUndefined]))
              "" "")).
  - discriminate.
  - vm_compute. reflexivity.
Defined.

(** ** The phone as the order shows it *)

(** A phone that passes the check is written into the order in national
    form: a zero, a digit from 1 to 9 and eight more digits. *)
Theorem displayPhone_national_form (cleanedPhone : string) :
  SouthAfricanNumber cleanedPhone ->
  exists d rest,
    displayPhoneOf cleanedPhone = String "0" (String d rest)
    /\ isDigit1to9 d = true
    /\ String.length rest = 8
    /\ Str.all Str.isDigit rest = true
    /\ String.length (displayPhoneOf cleanedPhone) = 10.
Proof.
  intros (prefix & d & rest & -> & Hp & Hd & Hl & Ha).
  exists d, rest.
  assert (Hshow : displayPhoneOf (prefix +:+ String d rest) = String "0" (String d rest)).
  { destruct Hp as [-> | ->]; reflexivity. }
  rewrite Hshow. repeat split; try assumption. cbn. now rewrite Hl.
Qed.

Lemma displayPhone_national_form_witness :
  exists d rest,
    displayPhoneOf "+27821234567" = String "0" (String d rest)
    /\ isDigit1to9 d = true
    /\ String.length rest = 8
    /\ Str.all Str.isDigit rest = true
    /\ String.length (displayPhoneOf "+27821234567") = 10.
Proof.
  apply (displayPhone_national_form "+27821234567").
  apply phoneRegex_language, test_correct. reflexivity.
Defined.

(** ** The count of the badge *)

Lemma totalItems_from (cart : Cart) :
  forall start : Z,
    fold_left (fun sum item =>
                 let quantity := parseIntOr 0 (Item.quantity item) in
                 (sum + (if (0 <? quantity)%Z then quantity else 0))%Z)
              cart start
    = (start + totalItems cart)%Z.
Proof.
  unfold totalItems. induction cart as [|item cart IH]; intros start; cbn [fold_left].
  - lia.
  - rewrite IH, (IH (0 + _)%Z). lia.
Qed.

Lemma totalItems_cons (item : Item.t) (cart : Cart) :
  totalItems (item :: cart)
  = ((if (0 <? parseIntOr 0 (Item.quantity item))%Z
      then parseIntOr 0 (Item.quantity item) else 0) + totalItems cart)%Z.
Proof. unfold totalItems at 1. cbn [fold_left]. now rewrite totalItems_from. Qed.

Lemma totalItems_nonneg (cart : Cart) : (0 <= totalItems cart)%Z.
Proof.
  induction cart as [|item cart IH]; [reflexivity|].
  rewrite totalItems_cons.
  destruct (Z.ltb_spec 0 (parseIntOr 0 (Item.quantity item))); lia.
Qed.




(** ** The debounced count *)

Lemma updateCartCount_again (w : World) :
  updateTimeout (debounce w) = true ->
  updateCartCount w
  = withDebounce (fun _ => {| updateTimeout := true; pendingUpdate := true |}) w.
Proof. intros H. unfold updateCartCount. now rewrite H. Qed.




(** ** Reading the cart again *)

(** A read from the storage can be repeated for the cache duration: once
    [getCart] has taken the cart from the storage, every [getCart] less
    than 1000 ms later returns the same cart, also when the storage text
    has been rewritten in between or the storage has started to throw. *)
Theorem getCart_repeatable_within_cache_duration
        (e e' : Access) (w : World) (text : option StoredText) :
  cacheValid (now e) (store w) = false ->
  throws e = false ->
  kodijongCart (store w) <> Some TextInvalid ->
  (now e' - now e < _CACHE_DURATION)%Z ->
  readCart e' (storageRewritten text (snd (getCart e w))) = readCart e w.
Proof.
  intros Hmiss Hthrows Hvalid Hsoon. unfold readCart at 2. unfold getCart.
  rewrite Hmiss, Hthrows.
  assert (Hhit : forall c, readCart e' (storageRewritten text
                                          (withStore (setCache c (now e)) w)) = c).
  { intros c. unfold readCart. rewrite getCart_cached; [reflexivity|].
    unfold cacheValid. cbn. now apply Z.ltb_lt. }
  destruct (kodijongCart (store w)) as [[| |cart|]|];
    [ | contradiction | | | ]; cbn [snd]; rewrite Hhit; reflexivity.
Qed.

Lemma getCart_repeatable_within_cache_duration_witness :
  readCart (Sample.failing 5999)
           (storageRewritten (Some (TextArray []))
              (snd (getCart (Sample.at_ 5000)
                            (Sample.world (Some (TextArray [Sample.kota])) "" ""))))
  = readCart (Sample.at_ 5000) (Sample.world (Some (TextArray [Sample.kota])) "" "").
Proof.
  apply (getCart_repeatable_within_cache_duration (Sample.at_ 5000) (Sample.failing 5999)
           (Sample.world (Some (TextArray [Sample.kota])) "" "") (Some (TextArray []))).
  - reflexivity.
  - reflexivity.
  - discriminate.
  - vm_compute. reflexivity.
Defined.

Lemma jsonScalar_safe (v : JsVal) : jsonSafeScalar v = true -> jsonScalar v = v.
Proof. destruct v as [| | |[| |]|]; (discriminate || reflexivity). Qed.

Lemma jsonScalar_is_safe (v : JsVal) : jsonSafeScalar (jsonScalar v) = true.
Proof. destruct v as [| | |[| |]|]; reflexivity. Qed.

Lemma jsonAddon_safe (a : Addon.t) : jsonSafeAddon a = true -> jsonAddon a = a.
Proof.
  destruct a as [n p q]. unfold jsonSafeAddon, jsonAddon. cbn.
  intros H. apply andb_true_iff in H as [H Hq]. apply andb_true_iff in H as [Hn Hp].
  now rewrite !jsonScalar_safe.
Qed.

Lemma jsonAddons_safe (field : option (list Addon.t)) :
  jsonSafeAddons field = true -> option_map (map jsonAddon) field = field.
Proof.
  destruct field as [l|]; [|reflexivity]. cbn. intros H. f_equal.
  induction l as [|a l IH]; [reflexivity|].
  cbn in H. apply andb_true_iff in H as [Ha Hl].
  cbn. now rewrite jsonAddon_safe, IH.
Qed.

Lemma jsonAddons_is_safe (field : option (list Addon.t)) :
  jsonSafeAddons (option_map (map jsonAddon) field) = true.
Proof.
  destruct field as [l|]; [|reflexivity]. cbn.
  induction l as [|a l IH]; [reflexivity|].
  cbn. rewrite IH. unfold jsonSafeAddon. cbn. now rewrite !jsonScalar_is_safe.
Qed.

Lemma jsonItem_safe (it : Item.t) : jsonSafeItem it = true -> jsonItem it = it.
Proof.
  destruct it as [i p n b q o im t ex dr bp]. unfold jsonSafeItem, jsonItem. cbn.
  intros H. repeat (apply andb_true_iff in H as [H ?]).
  now rewrite !jsonScalar_safe, !jsonAddons_safe.
Qed.

Lemma jsonItem_is_safe (it : Item.t) : jsonSafeItem (jsonItem it) = true.
Proof.
  unfold jsonSafeItem, jsonItem. cbn.
  now rewrite !jsonScalar_is_safe, !jsonAddons_is_safe.
Qed.

Lemma jsonItems_safe (cart : Cart) :
  forallb jsonSafeItem cart = true -> map jsonItem cart = cart.
Proof.
  induction cart as [|it cart IH]; [reflexivity|]. cbn.
  intros H. apply andb_true_iff in H as [Hit Hcart].
  now rewrite jsonItem_safe, IH.
Qed.

Lemma jsonItems_are_safe (cart : Cart) : forallb jsonSafeItem (map jsonItem cart) = true.
Proof.
  induction cart as [|it cart IH]; [reflexivity|]. cbn. now rewrite jsonItem_is_safe, IH.
Qed.

(** Saving and reloading once the cache has expired: the cart read back
    is the saved cart when no entry holds [NaN] or an infinity, and in
    every case what is read back is read back unchanged after being saved
    again. *)
Theorem saveCart_reload_round_trip (cart : Cart) (e1 e2 e3 e4 : Access) (w : World) :
  throws e1 = false -> throws e2 = false -> throws e3 = false -> throws e4 = false ->
  (_CACHE_DURATION <= now e2 - now e1)%Z ->
  (_CACHE_DURATION <= now e4 - now e3)%Z ->
  let reloaded := readCart e2 (snd (saveCart (AnArray cart) e1 w)) in
  (forallb jsonSafeItem cart = true -> reloaded = cart)
  /\ readCart e4 (snd (saveCart (AnArray reloaded) e3
                                (snd (getCart e2 (snd (saveCart (AnArray cart) e1 w))))))
     = reloaded.
Proof.
  intros H1 H2 H3 H4 Hlate Hlate'. cbn zeta.
  rewrite (saveCart_then_reload cart e1 e2 w H1 H2 Hlate).
  split; [apply jsonItems_safe|].
  rewrite (saveCart_then_reload _ e3 e4 _ H3 H4 Hlate').
  apply jsonItems_safe, jsonItems_are_safe.
Qed.

Lemma saveCart_reload_round_trip_witness :
  readCart (Sample.at_ 7000)
           (snd (saveCart (AnArray [Sample.kota; Sample.chips]) (Sample.at_ 5000)
                          (Sample.world None "" "")))
  = [Sample.kota; Sample.chips].
Proof.
  apply (saveCart_reload_round_trip [Sample.kota; Sample.chips]
           (Sample.at_ 5000) (Sample.at_ 7000) (Sample.at_ 8000) (Sample.at_ 9000)
           (Sample.world None "" "") eq_refl eq_refl eq_refl eq_refl).
  all: vm_compute; (discriminate || reflexivity).
Defined.

(** ** Printing and parsing whole numbers *)

Lemma of_uint_acc_value (d : Decimal.uint) :
  forall acc : positive, Z.pos (Pos.of_uint_acc d acc) = uintValue (Z.pos acc) d.
Proof.
  induction d; intros acc; cbn [Pos.of_uint_acc uintValue];
    [reflexivity | rewrite IHd; f_equal; lia ..].
Qed.

Lemma of_uint_value (d : Decimal.uint) : Z.of_N (N.of_uint d) = uintValue 0 d.
Proof.
  unfold N.of_uint.
  induction d; cbn [Pos.of_uint uintValue]; [reflexivity | exact IHd | ..];
    cbn [Z.of_N]; rewrite of_uint_acc_value; f_equal.
Qed.

Lemma to_uint_value (n : N) : uintValue 0 (N.to_uint n) = Z.of_N n.
Proof. now rewrite <- of_uint_value, DecimalN.Unsigned.of_to. Qed.

Lemma to_uint_nonnil (n : N) : N.to_uint n <> Decimal.Nil.
Proof.
  destruct n; [discriminate | apply DecimalPos.Unsigned.to_uint_nonnil].
Qed.

Lemma readRadix_digits (d : Decimal.uint) :
  forall acc : Z,
    Num.readRadix 10 (Some acc) (NilEmpty.string_of_uint d) = Some (uintValue acc d).
Proof.
  induction d; intros acc; cbn [NilEmpty.string_of_uint uintValue]; [reflexivity | ..];
    cbn [Num.readRadix]; cbn;
    match goal with
    | |- context [Str.hexValue ?c] =>
      let v := eval vm_compute in (Str.hexValue c) in change (Str.hexValue c) with v
    end;
    cbn; rewrite IHd; do 2 f_equal; lia.
Qed.

Lemma readRadix_digits_start (d : Decimal.uint) :
  d <> Decimal.Nil ->
  Num.readRadix 10 None (NilEmpty.string_of_uint d) = Some (uintValue 0 d).
Proof.
  destruct d; intros Hd; [contradiction | ..];
    cbn [NilEmpty.string_of_uint uintValue Num.readRadix]; cbn;
    match goal with
    | |- context [Str.hexValue ?c] =>
      let v := eval vm_compute in (Str.hexValue c) in change (Str.hexValue c) with v
    end;
    cbn; rewrite readRadix_digits; reflexivity.
Qed.

(** A string of digits has no white space and no sign in front. *)
Lemma digits_start_plain (d : Decimal.uint) :
  d <> Decimal.Nil ->
  Num.readSign (Str.trimStart (NilEmpty.string_of_uint d))
  = (false, NilEmpty.string_of_uint d).
Proof.
  destruct d; intros Hd; [contradiction | ..];
    cbn [NilEmpty.string_of_uint]; unfold Str.trimStart; cbn [Str.trimStartFrom];
    (destruct (NilEmpty.string_of_uint d) as [|b [|c r]]; reflexivity).
Qed.

Ltac app_head :=
  match goal with
  | |- context [Decimal.app (?c ?d) ?d'] =>
    replace (Decimal.app (c d) d') with (c (Decimal.app d d'))
      by (apply DecimalFacts.to_list_inj; cbn [DecimalFacts.to_list];
          rewrite !DecimalFacts.app_spec; reflexivity)
  end.

Lemma uintValue_acc (d : Decimal.uint) :
  forall acc : Z,
    uintValue acc d = (acc * 10 ^ Z.of_nat (Decimal.nb_digits d) + uintValue 0 d)%Z.
Proof.
  induction d; intros acc; cbn [uintValue Decimal.nb_digits];
    [cbn; lia | rewrite (IHd (10 * acc + _)%Z), (IHd (10 * 0 + _)%Z) || rewrite (IHd (10 * acc)%Z), (IHd (10 * 0)%Z);
                rewrite Nat2Z.inj_succ, Z.pow_succ_r by lia; lia ..].
Qed.

Lemma uintValue_nonneg (d : Decimal.uint) :
  forall acc : Z, (0 <= acc)%Z -> (0 <= uintValue acc d)%Z.
Proof.
  induction d; intros acc Hacc; cbn [uintValue]; [lia | apply IHd; lia ..].
Qed.

Lemma string_of_uint_length (d : Decimal.uint) :
  String.length (NilEmpty.string_of_uint d) = Decimal.nb_digits d.
Proof.
  induction d; cbn [NilEmpty.string_of_uint Decimal.nb_digits String.length];
    [reflexivity | now rewrite IHd ..].
Qed.

Lemma uintValue_snoc0 (d : Decimal.uint) :
  forall acc : Z,
    uintValue acc (Decimal.app d (Decimal.D0 Decimal.Nil)) = (10 * uintValue acc d)%Z.
Proof.
  induction d; intros acc;
    [rewrite DecimalFacts.app_nil_l; reflexivity | app_head; cbn [uintValue]; apply IHd ..].
Qed.

Lemma string_of_uint_snoc0 (d : Decimal.uint) :
  NilEmpty.string_of_uint (Decimal.app d (Decimal.D0 Decimal.Nil))
  = NilEmpty.string_of_uint d +:+ "0".
Proof.
  induction d;
    [rewrite DecimalFacts.app_nil_l; reflexivity
    | app_head; cbn [NilEmpty.string_of_uint]; rewrite IHd, append_cons; reflexivity ..].
Qed.

(** The digits of a number are in normal form. *)
Lemma to_uint_unorm (n : N) : Decimal.unorm (N.to_uint n) = N.to_uint n.
Proof.
  rewrite <- (DecimalN.Unsigned.of_to n) at 2. now rewrite DecimalN.Unsigned.to_of.
Qed.

Lemma to_uint_of_value (d : Decimal.uint) (n : N) :
  Decimal.unorm d = d -> uintValue 0 d = Z.of_N n -> N.to_uint n = d.
Proof.
  intros Hnorm Hval. rewrite <- of_uint_value in Hval. apply N2Z.inj in Hval.
  now rewrite <- Hval, DecimalN.Unsigned.to_of.
Qed.

(** The first digit of a positive number is not zero. *)
Lemma to_uint_head (n : N) :
  (0 < n)%N -> Decimal.nzhead (N.to_uint n) = N.to_uint n.
Proof.
  intros Hn. pose proof (to_uint_unorm n) as Hnorm.
  pose proof (to_uint_value n) as Hval.
  destruct (N.to_uint n) eqn:Hd; try reflexivity.
  exfalso. unfold Decimal.unorm in Hnorm.
  destruct (Decimal.nzhead (Decimal.D0 u)) eqn:Hz;
    try (now apply DecimalFacts.nzhead_nonzero in Hz || (rewrite Hnorm in Hz; now apply DecimalFacts.nzhead_nonzero in Hz)).
  injection Hnorm as <-. cbn in Hval. lia.
Qed.

Lemma unorm_snoc0 (d : Decimal.uint) :
  Decimal.nzhead d = d -> d <> Decimal.Nil ->
  Decimal.unorm (Decimal.app d (Decimal.D0 Decimal.Nil))
  = Decimal.app d (Decimal.D0 Decimal.Nil).
Proof.
  destruct d; intros Hh Hn;
    [contradiction
    | exfalso; now apply DecimalFacts.nzhead_nonzero in Hh
    | app_head; reflexivity ..].
Qed.

Lemma ofN_times_ten (m : N) : (0 < m)%N -> Str.ofN (10 * m) = Str.ofN m +:+ "0".
Proof.
  intros Hm. unfold Str.ofN. rewrite <- string_of_uint_snoc0. f_equal.
  apply to_uint_of_value.
  - apply unorm_snoc0; [now apply to_uint_head | apply to_uint_nonnil].
  - rewrite uintValue_snoc0, to_uint_value. lia.
Qed.

Lemma ofN_shift (u : nat) :
  forall m : Z, (0 < m)%Z ->
    Str.ofN (Z.to_N (m * 10 ^ Z.of_nat u)) = Str.ofN (Z.to_N m) +:+ Str.repeat "0" u.
Proof.
  induction u; intros m Hm.
  - cbn [Str.repeat]. rewrite append_empty_r. f_equal. cbn. f_equal. lia.
  - replace (m * 10 ^ Z.of_nat (S u))%Z with ((10 * m) * 10 ^ Z.of_nat u)%Z
      by (rewrite Nat2Z.inj_succ, Z.pow_succ_r by lia; lia).
    rewrite IHu by lia.
    replace (Z.to_N (10 * m)) with (10 * Z.to_N m)%N by lia.
    rewrite ofN_times_ten by lia. rewrite append_assoc. reflexivity.
Qed.

(** A positive number is at least the power of ten of its digit count. *)
Lemma digitCount_lower (n : Z) :
  (0 < n)%Z -> (1 <= Num.digitCount n /\ 10 ^ (Num.digitCount n - 1) <= n)%Z.
Proof.
  intros Hn. unfold Num.digitCount, Str.ofN. rewrite string_of_uint_length.
  pose proof (to_uint_value (Z.to_N n)) as Hval.
  pose proof (to_uint_head (Z.to_N n) ltac:(lia)) as Hhead.
  destruct (N.to_uint (Z.to_N n)) as [|d|d|d|d|d|d|d|d|d|d] eqn:Hd;
    [cbn in Hval; lia
    | now apply DecimalFacts.nzhead_nonzero in Hhead
    | cbn [Decimal.nb_digits uintValue] in *; rewrite uintValue_acc in Hval;
      pose proof (uintValue_nonneg d 0%Z ltac:(lia));
      replace (Z.of_nat (S (Decimal.nb_digits d)) - 1)%Z
        with (Z.of_nat (Decimal.nb_digits d)) by lia;
      split; [lia | nia] ..].
Qed.


Lemma stripZeros_factor (f : nat) :
  forall s : Z, (0 < s)%Z ->
    exists u : nat,
      (0 < Num.stripZeros f s)%Z /\ s = (Num.stripZeros f s * 10 ^ Z.of_nat u)%Z.
Proof.
  induction f; intros s Hs; cbn [Num.stripZeros].
  - exists 0%nat. split; [assumption | cbn; lia].
  - destruct ((s mod 10 =? 0) && (10 <=? s))%Z eqn:Hc.
    + apply andb_true_iff in Hc as [Hm Hl].
      apply Z.eqb_eq in Hm. apply Z.leb_le in Hl.
      destruct (IHf (s / 10)%Z) as (u & Hpos & Heq); [apply Z.div_str_pos; lia|].
      exists (S u). split; [assumption|].
      rewrite Nat2Z.inj_succ, Z.pow_succ_r by lia.
      pose proof (Z.div_mod s 10 ltac:(lia)) as Hdm. rewrite Hm in Hdm. nia.
    + exists 0%nat. split; [assumption | cbn; lia].
Qed.

Lemma stripZeros_shifted (j : nat) :
  forall (f : nat) (n : Z), (0 < n)%Z -> (j <= f)%nat ->
    Num.stripZeros f (n * 10 ^ Z.of_nat j) = Num.stripZeros (f - j) n.
Proof.
  induction j; intros f n Hn Hj.
  - cbn [Z.of_nat]. rewrite Z.pow_0_r, Z.mul_1_r. f_equal. lia.
  - destruct f as [|f]; [lia|]. cbn [Num.stripZeros Nat.sub].
    rewrite Nat2Z.inj_succ, Z.pow_succ_r by lia.
    assert (Hp : (0 < 10 ^ Z.of_nat j)%Z) by (apply Z.pow_pos_nonneg; lia).
    replace (n * (10 * 10 ^ Z.of_nat j))%Z with ((n * 10 ^ Z.of_nat j) * 10)%Z by lia.
    rewrite Z.mod_mul, Z.div_mul by lia.
    replace (10 <=? n * 10 ^ Z.of_nat j * 10)%Z with true
      by (symmetry; apply Z.leb_le; nia).
    cbn [Z.eqb andb]. apply IHj; [assumption | lia].
Qed.

Lemma length_append (s t : string) :
  String.length (s +:+ t) = String.length s + String.length t.
Proof.
  induction s as [|a s IH]; [reflexivity|].
  rewrite append_cons. cbn [String.length]. now rewrite IH.
Qed.

Lemma length_repeat (a : ascii) (n : nat) : String.length (Str.repeat a n) = n.
Proof. induction n; cbn; congruence. Qed.

Lemma positiveToString_whole (n : Z) :
  (0 < n < 10 ^ 17)%Z -> Num.positiveToString n 1 = Str.ofN (Z.to_N n).
Proof.
  intros [Hpos Hlt]. destruct (digitCount_lower n Hpos) as [Hdc Hlow].
  assert (Hdc17 : (Num.digitCount n <= 17)%Z).
  { destruct (Z_le_gt_dec (Num.digitCount n) 17) as [|Hgt]; [assumption|].
    assert (10 ^ 17 <= 10 ^ (Num.digitCount n - 1))%Z by (apply Z.pow_le_mono_r; lia).
    lia. }
  assert (Hexp : Num.decimalExponent n 1 = Num.digitCount n).
  { unfold Num.decimalExponent. change (Num.digitCount 1) with 1%Z.
    replace (0 <=? Num.digitCount n - 1)%Z with true by (symmetry; apply Z.leb_le; lia).
    rewrite Z.mul_1_l.
    replace (10 ^ (Num.digitCount n - 1) <=? n)%Z with true
      by (symmetry; now apply Z.leb_le).
    lia. }
  unfold Num.positiveToString. rewrite Hexp.
  replace (Num.digitCount n <=? 17)%Z with true by (symmetry; now apply Z.leb_le).
  rewrite Z.div_1_r.
  replace (17 - Num.digitCount n)%Z with (Z.of_nat (Z.to_nat (17 - Num.digitCount n)))
    by lia.
  rewrite stripZeros_shifted by lia.
  destruct (stripZeros_factor (17 - Z.to_nat (17 - Num.digitCount n)) n Hpos)
    as (u & Hm & Hn).
  remember (Num.stripZeros (17 - Z.to_nat (17 - Num.digitCount n)) n) as m eqn:Em.
  clear Em.
  assert (Hofn : Str.ofN (Z.to_N n) = Str.ofN (Z.to_N m) +:+ Str.repeat "0" u).
  { rewrite Hn. now apply ofN_shift. }
  assert (Hlen : Num.digitCount n
                 = (Z.of_nat (String.length (Str.ofN (Z.to_N m))) + Z.of_nat u)%Z).
  { unfold Num.digitCount. rewrite Hofn, length_append, length_repeat. lia. }
  cbn zeta.
  replace ((Z.of_nat (String.length (Str.ofN (Z.to_N m))) <=? Num.digitCount n)
           && (Num.digitCount n <=? 21))%Z with true
    by (symmetry; apply andb_true_iff; split; apply Z.leb_le; lia).
  replace (Z.to_nat (Num.digitCount n - Z.of_nat (String.length (Str.ofN (Z.to_N m)))))
    with u by lia.
  now symmetry.
Qed.

(** [String(n)] for a whole number [n] of at most 17 digits is its
    digits. *)
Lemma toString_whole (n : Z) :
  (0 <= n < 10 ^ 17)%Z -> Num.toString (Num.ofZ n) = Str.ofN (Z.to_N n).
Proof.
  intros [H0 Hlt]. unfold Num.toString, Num.ofZ. rewrite Qred_inject_Z.
  destruct (Z.eq_dec n 0%Z) as [->|Hn]; [reflexivity|].
  replace (Qeq_bool (inject_Z n) 0) with false
    by (symmetry; unfold Qeq_bool; cbn; apply Z.eqb_neq; lia).
  replace (Num.isNegative (inject_Z n)) with false
    by (symmetry; unfold Num.isNegative, Qle_bool; cbn; apply negb_false_iff, Z.leb_le; lia).
  cbn [inject_Z Qnum Qden]. rewrite Z.abs_eq by lia. rewrite append_nil.
  apply positiveToString_whole. lia.
Qed.

(** A string of digits does not start with the prefix of a hexadecimal
    literal. *)
Lemma digits_no_hex_prefix (d : Decimal.uint) :
  Str.startsWith "0x" (NilEmpty.string_of_uint d) = false
  /\ Str.startsWith "0X" (NilEmpty.string_of_uint d) = false.
Proof.
  unfold Str.startsWith.
  destruct d as [|d|d|d|d|d|d|d|d|d|d]; cbn; try (split; reflexivity);
    destruct d; cbn; split; reflexivity.
Qed.

(** [parseInt(String(n))] and [parseInt(String(n), 10)] are [n]. *)
Lemma parseInt_ofN (radix10 : bool) (n : N) :
  Num.parseIntString radix10 (Str.ofN n) = Some (Z.of_N n).
Proof.
  unfold Num.parseIntString, Str.ofN.
  rewrite digits_start_plain by apply to_uint_nonnil.
  destruct (digits_no_hex_prefix (N.to_uint n)) as [-> ->].
  rewrite andb_false_r.
  rewrite readRadix_digits_start by apply to_uint_nonnil.
  cbn [option_map]. now rewrite to_uint_value.
Qed.

Lemma parseInt_toString_whole (radix10 : bool) (n : Z) :
  (0 <= n < 10 ^ 17)%Z ->
  Num.parseIntString radix10 (Num.toString (Num.ofZ n)) = Some n.
Proof.
  intros Hn. rewrite toString_whole, parseInt_ofN by assumption. f_equal. lia.
Qed.

(** ** The count elements *)

Lemma refreshCount_reads (total : Z) (el : CountElement) :
  (0 <= total < 10 ^ 17)%Z ->
  default 0%Z (Num.parseIntString false (textContent (refreshCount total el))) = total.
Proof.
  intros Ht. unfold refreshCount.
  destruct (Z.eqb_spec (default 0%Z (Num.parseIntString false (textContent el))) total)
    as [Heq|_]; [exact Heq|].
  cbn [textContent]. now rewrite parseInt_toString_whole.
Qed.

(** After the count update every count element reads as the number of
    items in the cart, for a count up to [2^53], where the numbers of the
    script are exact.  An element that already read so is left as it was,
    its [display] too. *)
Theorem count_elements_read_the_total (e : Access) (w : World) :
  let total := totalItems (readCart e w) in
  let w' := _updateCartCountImmediate e w in
  (total <= 2 ^ 53)%Z ->
  length (cartElements (dom w')) = length (cartElements (dom w))
  /\ Forall (fun el =>
               default 0%Z (Num.parseIntString false (textContent el)) = total)
            (cartElements (dom w'))
  /\ (forall i el,
         cartElements (dom w) !! i = Some el ->
         default 0%Z (Num.parseIntString false (textContent el)) = total ->
         cartElements (dom w') !! i = Some el).
Proof.
  cbn zeta. unfold _updateCartCountImmediate, readCart. intros Hmax.
  pose proof (getCart_frame e w) as (_ & _ & Hd & _).
  destruct (getCart e w) as [r w1]. cbn [fst snd] in *.
  cbn [withDom dom cartElements]. rewrite Hd.
  pose proof (totalItems_nonneg (deref r w1)) as Hpos.
  split; [apply length_map|]. split.
  - apply Forall_map, Forall_forall. intros el _. cbn.
    apply refreshCount_reads. lia.
  - intros i el Hi Hel. rewrite list_lookup_fmap, Hi. cbn [fmap option_fmap option_map].
    unfold refreshCount. now apply Z.eqb_eq in Hel as ->.
Qed.

Lemma count_elements_read_the_total_witness :
  Forall (fun el => default 0%Z (Num.parseIntString false (textContent el)) = 6%Z)
         (cartElements
            (dom (_updateCartCountImmediate
                    (Sample.at_ 5000)
                    (Sample.world
                       (Some (TextArray [Sample.kota; Sample.chips; Sample.wings]))
                       "" "")))).
Proof.
  apply (proj1 (proj2 (count_elements_read_the_total
                         (Sample.at_ 5000)
                         (Sample.world
                            (Some (TextArray [Sample.kota; Sample.chips; Sample.wings]))
                            "" "")
                         ltac:(vm_compute; discriminate)))).
Defined.

(** ** The remove buttons *)









(** ** The product page: extras and drinks *)

Section ProductPageEntries.

Import ProductPage.

Lemma findIndex_spec (name : option string) (entries : list Extra.t) :
  match findIndex name entries with
  | Some i => exists x, entries !! i = Some x /\ Extra.name x = name
                        /\ name ∉ map Extra.name (take i entries)
  | None => name ∉ map Extra.name entries
  end.
Proof.
  induction entries as [|x entries IH]; cbn [findIndex].
  - apply not_elem_of_nil.
  - destruct (bool_decide_reflect (Extra.name x = name)) as [Heq|Hne].
    + exists x. repeat split; [assumption | apply not_elem_of_nil].
    + destruct (findIndex name entries) as [i|]; cbn [option_map].
      * destruct IH as (y & Hy & Hname & Hbefore). exists y.
        repeat split; [assumption.. |]. cbn. now apply not_elem_of_cons.
      * cbn. now apply not_elem_of_cons.
Qed.

Lemma updateEntries_well_formed (name : option string) (price : Num.t) (quantity : Z)
      (entries : list Extra.t) :
  WellFormed entries -> WellFormed (updateEntries name price quantity entries).
Proof.
  intros [Hpos Hdup]. unfold updateEntries.
  pose proof (findIndex_spec name entries) as Hfind.
  destruct (findIndex name entries) as [i|].
  - destruct Hfind as (x & Hx & Hname & _).
    destruct (Z.eqb_spec quantity 0) as [_|_].
    + split; [now apply Forall_delete|].
      apply (sublist_NoDup _ (map Extra.name entries)); [assumption|].
      change (map Extra.name) with (fmap (M:=list) Extra.name).
      rewrite list_fmap_delete. apply sublist_delete.
    + destruct (Z.ltb_spec 0 quantity) as [Hq|_]; [|now split].
      split.
      * apply Forall_alter; [assumption|]. now intros.
      * change (map Extra.name) with (fmap (M:=list) Extra.name).
        rewrite (list_fmap_alter Extra.name _ id);
          [now rewrite list_alter_id | now apply Forall_forall].
  - destruct (Z.eqb_spec quantity 0) as [_|_]; [now split|].
    destruct (Z.ltb_spec 0 quantity) as [Hq|_]; [|now split].
    split.
    + apply Forall_app. split; [assumption | now repeat constructor].
    + rewrite map_app. apply NoDup_app. repeat split; [assumption | | apply NoDup_singleton].
      intros y Hy Hin. apply list_elem_of_singleton in Hin. cbn in Hin. now subst.
Qed.


Lemma updateEntries_cons (name : option string) (price : Num.t) (quantity : Z)
      (x : Extra.t) (entries : list Extra.t) :
  updateEntries name price quantity (x :: entries)
  = if bool_decide (Extra.name x = name) then
      if (quantity =? 0)%Z then entries
      else if (0 <? quantity)%Z
           then Extra.make (Extra.name x) (Extra.price x) quantity :: entries
           else x :: entries
    else x :: updateEntries name price quantity entries.
Proof.
  unfold updateEntries. cbn [findIndex].
  destruct (bool_decide (Extra.name x = name)); [reflexivity|].
  destruct (findIndex name entries); cbn [option_map];
    destruct (quantity =? 0)%Z; try reflexivity;
    destruct (0 <? quantity)%Z; reflexivity.
Qed.

Lemma quantityOf_cons (name : option string) (x : Extra.t) (entries : list Extra.t) :
  quantityOf name (x :: entries)
  = if bool_decide (Extra.name x = name) then Extra.quantity x
    else quantityOf name entries.
Proof. unfold quantityOf. cbn [find]. now destruct (bool_decide (Extra.name x = name)). Qed.

Lemma quantityOf_absent (name : option string) (entries : list Extra.t) :
  name ∉ map Extra.name entries -> quantityOf name entries = 0%Z.
Proof.
  induction entries as [|x entries IH]; [reflexivity|].
  cbn [map]. intros [Hne Hrest]%not_elem_of_cons. rewrite quantityOf_cons.
  destruct (bool_decide_reflect (Extra.name x = name)); [congruence | now apply IH].
Qed.

Lemma updateEntries_quantity_same (name : option string) (price : Num.t)
      (quantity : Z) (entries : list Extra.t) :
  NoDup (map Extra.name entries) ->
  (0 <= quantity)%Z ->
  quantityOf name (updateEntries name price quantity entries) = quantity.
Proof.
  intros Hdup Hq. induction entries as [|x entries IH].
  - unfold updateEntries. cbn [findIndex].
    destruct (Z.eqb_spec quantity 0) as [->|Hne]; [reflexivity|].
    replace (0 <? quantity)%Z with true by (symmetry; apply Z.ltb_lt; lia).
    cbn [app]. rewrite quantityOf_cons. cbn [Extra.name Extra.quantity].
    now rewrite bool_decide_eq_true_2.
  - cbn [map] in Hdup. apply NoDup_cons in Hdup as [Hx Hdup].
    rewrite updateEntries_cons.
    destruct (bool_decide_reflect (Extra.name x = name)) as [Hname|Hname].
    + destruct (Z.eqb_spec quantity 0) as [->|Hne].
      * apply quantityOf_absent. now rewrite <- Hname.
      * replace (0 <? quantity)%Z with true by (symmetry; apply Z.ltb_lt; lia).
        rewrite quantityOf_cons. cbn [Extra.name Extra.quantity].
        now rewrite bool_decide_eq_true_2.
    + rewrite quantityOf_cons, (IH Hdup).
      now rewrite bool_decide_eq_false_2.
Qed.

(** The array of extras, and that of drinks, is a table from names to
    quantities above zero, and [updateExtra] and [updateDrink] set the
    quantity of one name in it: afterwards the name has the quantity given,
    zero standing for no entry, and every other name the quantity it had. *)
Theorem updateEntries_sets_quantity (name other : option string) (price : Num.t)
        (quantity : Z) (entries : list Extra.t) :
  NoDup (map Extra.name entries) ->
  (0 <= quantity)%Z ->
  quantityOf other (updateEntries name price quantity entries)
  = if bool_decide (other = name) then quantity else quantityOf other entries.
Proof.
  intros Hdup Hq. induction entries as [|x entries IH].
  - unfold updateEntries. cbn [findIndex].
    destruct (Z.eqb_spec quantity 0) as [->|Hne].
    + now destruct (bool_decide (other = name)).
    + replace (0 <? quantity)%Z with true by (symmetry; apply Z.ltb_lt; lia).
      cbn [app]. rewrite quantityOf_cons. cbn [Extra.name Extra.quantity].
      destruct (bool_decide_reflect (name = other)), (bool_decide_reflect (other = name));
        congruence.
  - cbn [map] in Hdup. apply NoDup_cons in Hdup as [Hx Hdup].
    rewrite updateEntries_cons.
    destruct (bool_decide_reflect (Extra.name x = name)) as [Hname|Hname].
    + destruct (Z.eqb_spec quantity 0) as [->|Hne].
      * rewrite quantityOf_cons.
        destruct (bool_decide_reflect (other = name)) as [->|Hother].
        -- apply quantityOf_absent. now rewrite <- Hname.
        -- destruct (bool_decide_reflect (Extra.name x = other)); [congruence | reflexivity].
      * replace (0 <? quantity)%Z with true by (symmetry; apply Z.ltb_lt; lia).
        rewrite !quantityOf_cons. cbn [Extra.name Extra.quantity].
        destruct (bool_decide_reflect (Extra.name x = other)),
                 (bool_decide_reflect (other = name)); congruence.
    + rewrite !quantityOf_cons, (IH Hdup).
      destruct (bool_decide_reflect (Extra.name x = other)),
               (bool_decide_reflect (other = name)); congruence.
Qed.

Lemma updateEntries_sets_quantity_witness :
  quantityOf (Some "Cheese")
             (updateEntries (Some "Cheese") (Num.ofZ 5) 3
                            [Extra.make (Some "Egg") (Num.ofZ 4) 1;
                             Extra.make (Some "Cheese") (Num.ofZ 5) 2])
  = 3%Z.
Proof.
  apply (updateEntries_sets_quantity
           (Some "Cheese") (Some "Cheese") (Num.ofZ 5) 3
           [Extra.make (Some "Egg") (Num.ofZ 4) 1;
            Extra.make (Some "Cheese") (Num.ofZ 5) 2]).
  - cbn. repeat constructor; rewrite ?not_elem_of_cons; repeat split;
      (discriminate || apply not_elem_of_nil).
  - lia.
Defined.

(** ** The product page: what the listeners keep *)

Lemma quantityControls_updateTotalDisplay (p : Page) :
  quantityControls (updateTotalDisplay p) = quantityControls p.
Proof. reflexivity. Qed.

Lemma updateTotalDisplay_shows (p : Page) :
  modalTotalDisplay (updateTotalDisplay p)
  = option_map (fun _ => "R" +:+ Num.toFixed2 (total (updateTotalDisplay p)))
               (modalTotalDisplay (updateTotalDisplay p)).
Proof. cbn. now destruct (modalTotalDisplay p). Qed.

Lemma quantityControls_input (p : Page) :
  quantityControls p = true -> exists held, quantityInput p = Some held.
Proof.
  unfold quantityControls. intros [_ H]%andb_true_iff.
  apply bool_decide_eq_true in H. destruct (quantityInput p); [eauto | congruence].
Qed.

Lemma setQuantity_kept (q : Z) (p : Page) :
  (1 <= q <= 10)%Z -> Invariant p ->
  Invariant (updateTotalDisplay (setQuantity q p))
  /\ Shown (updateTotalDisplay (setQuantity q p)).
Proof.
  intros Hq (_ & He & Hd & Het & Hdt). split.
  - refine (conj _ (conj He (conj Hd (conj Het Hdt)))). cbn. lia.
  - split; [|apply updateTotalDisplay_shows].
    intros Hc. cbn in *. unfold quantityControls in Hc. cbn in Hc.
    destruct (quantityInput p); [reflexivity|].
    cbn in Hc. now rewrite andb_false_r in Hc.
Qed.

Lemma updateExtra_kept (name : option string) (price : Num.t) (quantity : Z) (p : Page) :
  Invariant p -> Shown p ->
  Invariant (updateExtra name price quantity p)
  /\ Shown (updateExtra name price quantity p).
Proof.
  intros (Hq & He & Hd & Het & Hdt) [Hin _]. split.
  - refine (conj Hq (conj _ (conj Hd (conj eq_refl Hdt)))).
    now apply updateEntries_well_formed.
  - split; [exact Hin | apply updateTotalDisplay_shows].
Qed.

Lemma updateDrink_kept (name : option string) (price : Num.t) (quantity : Z) (p : Page) :
  Invariant p -> Shown p ->
  Invariant (updateDrink name price quantity p)
  /\ Shown (updateDrink name price quantity p).
Proof.
  intros (Hq & He & Hd & Het & Hdt) [Hin _]. split.
  - refine (conj Hq (conj He (conj _ (conj Het eq_refl)))).
    now apply updateEntries_well_formed.
  - split; [exact Hin | apply updateTotalDisplay_shows].
Qed.

Lemma resetProductForm_kept (p : Page) :
  Invariant (resetProductForm p) /\ Shown (resetProductForm p).
Proof.
  split.
  - refine (conj _ (conj (conj _ _) (conj (conj _ _) (conj eq_refl eq_refl))));
      cbn; (lia || constructor).
  - split; [|apply updateTotalDisplay_shows].
    intros Hc. cbn in *. unfold quantityControls in Hc. cbn in Hc.
    destruct (quantityInput p); [reflexivity|].
    cbn in Hc. now rewrite andb_false_r in Hc.
Qed.

Lemma addToCart_page (sel : Selection) (e : AddEnv) (p : Page) (w : World) :
  fst (addToCart sel e p w) = p \/ fst (addToCart sel e p w) = resetProductForm p.
Proof.
  unfold addToCart. destruct (productContent p) as [data|]; [|now left].
  destruct (productData data) as [[[[productId productName] productImage] basePrice]|];
    [|now left].
  destruct (getCart (addRead e) w) as [r w1].
  destruct (saveCart _ (addWrite e) _) as [[|] w3]; [now right | now left].
Qed.

Lemma handle_kept (ev : Event) (p : Page) (w : World) :
  Invariant p -> Shown p ->
  Invariant (fst (handle ev (p, w))) /\ Shown (fst (handle ev (p, w))).
Proof.
  intros Hinv Hshown. pose proof Hinv as (Hq & _).
  destruct ev as [| |typed|kind button name priceAttr input|kind name priceAttr typed|sel e];
    cbn [handle fst].
  - unfold qtyMinusClick. destruct (quantityControls p); [|now split].
    destruct (Z.ltb_spec 1 (currentQuantity p)); [|now split].
    apply setQuantity_kept; (assumption || lia).
  - unfold qtyPlusClick. destruct (quantityControls p); [|now split].
    destruct (Z.ltb_spec (currentQuantity p) 10); [|now split].
    apply setQuantity_kept; (assumption || lia).
  - unfold quantityInputChanged.
    assert (Hc : quantityControls (typeQuantity typed p) = quantityControls p).
    { unfold quantityControls. cbn. now destruct (quantityInput p). }
    rewrite Hc. destruct (quantityControls p) eqn:Hcontrols.
    + apply setQuantity_kept; [|exact Hinv].
      destruct (Num.parseIntString true typed) as [v|]; [|cbn; lia].
      destruct (Z.ltb_spec v 1); [cbn; lia|]. destruct (Z.ltb_spec 10 v); lia.
    + split; [exact Hinv|]. destruct Hshown as [_ Ht]. split; [|exact Ht].
      rewrite Hc. discriminate.
  - unfold stepClick. destruct input as [held|]; [|now split].
    destruct button.
    + destruct (0 <? quantityOfInput held)%Z; [|now split].
      destruct kind; [now apply updateExtra_kept | now apply updateDrink_kept].
    + destruct (quantityOfInput held <? 10)%Z; [|now split].
      destruct kind; [now apply updateExtra_kept | now apply updateDrink_kept].
  - unfold addonInputChanged. cbn [snd].
    destruct kind; [now apply updateExtra_kept | now apply updateDrink_kept].
  - destruct (addToCart_page sel e p w) as [-> | ->];
      [now split | apply resetProductForm_kept].
Qed.

(** Every listener of the product page keeps the quantity between 1 and
    10, the extras and the drinks with quantities above zero and names that
    differ, the two totals equal to those of the lists, and the quantity
    input and the total display in step with the variables. *)
Theorem product_page_invariant (evs : list Event) (p : Page) (w : World) :
  Invariant p -> Shown p ->
  Invariant (fst (run evs (p, w))) /\ Shown (fst (run evs (p, w))).
Proof.
  unfold run. revert p w. induction evs as [|ev evs IH]; intros p w Hinv Hshown.
  - now split.
  - cbn [fold_left]. destruct (handle_kept ev p w Hinv Hshown) as [Hinv' Hshown'].
    destruct (handle ev (p, w)) as [p' w']. now apply IH.
Qed.

Lemma product_page_invariant_witness :
  let loaded := default start (loadProduct (Some "big-boss") start) in
  let evs := [QtyPlusClicked;
              StepClicked OfExtras PlusButton (Some "Cheese") (Some "5") (Some "0");
              QuantityTyped "42";
              StepClicked OfExtras MinusButton (Some "Cheese") (Some "5") (Some "1");
              AddToCartClicked choice (adding (Sample.at_ 5001))] in
  Invariant (fst (run evs (loaded, Sample.world None "" "")))
  /\ Shown (fst (run evs (loaded, Sample.world None "" ""))).
Proof.
  cbn zeta.
  apply (product_page_invariant _ (default start (loadProduct (Some "big-boss") start))).
  - refine (conj _ (conj (conj _ _) (conj (conj _ _) (conj eq_refl eq_refl))));
      cbn; (lia || constructor).
  - split; [reflexivity | vm_compute; reflexivity].
Defined.

End ProductPageEntries.

(** ** The product page: adding to the cart *)

Section ProductPageCart.

Import ProductPage.

(** [updateCartDisplay] and [updateCartCount] leave the store to the read,
    and the notifier alone. *)
Lemma redraw_frame (redraw : Access) (w : World) :
  let w' := updateCartCount (updateCartDisplay redraw w) in
  store w' = store (snd (getCart redraw w)) /\ notifier w' = notifier w.
Proof.
  cbn zeta. unfold updateCartDisplay.
  pose proof (getCart_frame redraw w) as (Hn & _).
  destruct (getCart redraw w) as [r w1]. cbn [snd] in *.
  unfold updateCartCount.
  destruct (orderList (dom w1)).
  - destruct (match deref r w1 with [] => _ | _ => _ end) as [lis total].
    cbn. destruct (updateTimeout (debounce w1)); now split.
  - destruct (updateTimeout (debounce w1)); now split.
Qed.

(** The array after the push holds what was read and the entry. *)
Lemma pushed_cart (e : Access) (item : Item.t) (w : World) :
  let '(r, w1) := getCart e w in
  pushed r item w1 = readCart e w ++ [item]
  /\ kodijongCart (store (push r item w1)) = kodijongCart (store w)
  /\ notifier (push r item w1) = notifier w
  /\ (r = TheCache -> _cartCache (store (push r item w1)) = Some (readCart e w ++ [item])).
Proof.
  unfold readCart.
  pose proof (getCart_persisted e w) as Hp.
  pose proof (getCart_frame e w) as (Hn & _).
  destruct (getCart e w) as [r w1] eqn:Hg. cbn [snd] in *.
  destruct r; cbn.
  - assert (Hc : exists c, _cartCache (store w1) = Some c).
    { unfold getCart in Hg. destruct (cacheValid (now e) (store w)) eqn:Hv.
      - injection Hg as <-. unfold cacheValid in Hv.
        destruct (_cartCache (store w)); [eauto | discriminate].
      - destruct (throws e); [discriminate|].
        destruct (kodijongCart (store w)) as [[| |c|]|]; try discriminate;
          injection Hg as <-; cbn; eauto. }
    destruct Hc as [c Hc]. rewrite Hc. cbn. now repeat split.
  - now repeat split.
Qed.


(** A read after a write that did not throw. *)
Lemma getCart_after_save (redraw : Access) (cart : Cart) (w : World) :
  kodijongCart (store w) = Some (TextArray (map jsonItem cart)) ->
  _cartCache (store w) = Some cart ->
  let w' := snd (getCart redraw w) in
  kodijongCart (store w') = Some (TextArray (map jsonItem cart))
  /\ (_cartCache (store w') = Some cart
      \/ _cartCache (store w') = Some (map jsonItem cart)).
Proof.
  intros Hp Hc. cbn zeta. unfold getCart.
  destruct (cacheValid (now redraw) (store w)); [now split; [|left]|].
  destruct (throws redraw); [now split; [|left]|].
  rewrite Hp. cbn. split; [assumption | now right].
Qed.

(** What [getCart] leaves in the store depends on the store only. *)
Lemma getCart_store (e : Access) (w1 w2 : World) :
  store w1 = store w2 ->
  store (snd (getCart e w1)) = store (snd (getCart e w2))
  /\ fst (getCart e w1) = fst (getCart e w2).
Proof.
  intros Hs. unfold getCart. rewrite Hs.
  destruct (cacheValid (now e) (store w2)); [now split|].
  destruct (throws e); [now split|].
  destruct (kodijongCart (store w2)) as [[| |c|]|]; cbn; now rewrite ?Hs.
Qed.

(** The world after a run of the listener whose write did not throw. *)
Lemma addToCart_saved (sel : Selection) (e : AddEnv) (p : Page) (w : World)
      (data : Dataset.t) (productId productName productImage : string)
      (basePrice : Num.t) :
  productContent p = Some data ->
  productData data = Some (productId, productName, productImage, basePrice) ->
  throws (addWrite e) = false ->
  let item := cartItem productId productName productImage basePrice sel e p in
  let cart := readCart (addRead e) w ++ [item] in
  exists w4 : World,
    addToCart sel e p w
    = (resetProductForm p, updateCartCount (updateCartDisplay (addRedraw e) w4))
    /\ kodijongCart (store w4) = Some (TextArray (map jsonItem cart))
    /\ _cartCache (store w4) = Some cart
    /\ notifier w4
       = notifier (showNotification (productName +:+ " added to cart!") Success w)
    /\ dom w4 = dom w
    /\ debounce w4 = debounce w.
Proof.
  intros Hdata Hread Hw. cbn zeta. unfold addToCart. rewrite Hdata, Hread.
  pose proof (pushed_cart (addRead e)
                (cartItem productId productName productImage basePrice sel e p) w)
    as Hpush.
  pose proof (getCart_frame (addRead e) w) as (_ & Hdeb & Hdom & _).
  destruct (getCart (addRead e) w) as [r w1]. cbn [snd] in Hdom, Hdeb.
  destruct Hpush as (-> & _ & Hn & _).
  unfold saveCart. rewrite Hw.
  eexists. split; [reflexivity|].
  match goal with
  | |- context [showNotification ?m ?t ?w0] =>
    destruct (showNotification_frame m t w0) as (Hs & Hb & Hd & _)
  end.
  cbn zeta in Hs, Hb, Hd. rewrite Hs, Hb, Hd. cbn.
  repeat split.
  - apply showNotification_notifier. cbn. exact Hn.
  - destruct r; cbn; exact Hdom.
  - destruct r; cbn; exact Hdeb.
Qed.





End ProductPageCart.

(** ** The product page: the product and its price *)

Section ProductPagePrice.

Import ProductPage.

(** Every product of the table, written to the dataset as [loadProduct]
    does, is read back in full by the add-to-cart listener. *)
Lemma products_complete :
  Forall (fun kv : string * Product.t =>
            productData (Dataset.make (Some (fst kv)) (Some (Product.name (snd kv)))
                           (Some (Num.toString (Num.ofZ (Product.price (snd kv)))))
                           (Some (Product.image (snd kv))))
            = Some (fst kv, Product.name (snd kv), Product.image (snd kv),
                    Num.ofZ (Product.price (snd kv))))
         products.
Proof.
  unfold products. repeat (constructor; [vm_compute; reflexivity|]). constructor.
Qed.

Lemma assoc_elem_of (key : string) (table : list (string * Product.t))
      (product : Product.t) :
  assoc key table = Some product -> (key, product) ∈ table.
Proof.
  induction table as [|[k v] table IH]; cbn [assoc]; [discriminate|].
  destruct (String.eqb_spec k key) as [->|_].
  - intros [= ->]. apply list_elem_of_In. now left.
  - intros H. apply list_elem_of_In. right. apply list_elem_of_In. now apply IH.
Qed.

(** [loadProduct] and the add-to-cart listener agree on every product of
    the table: after the product is loaded the page is in its initial
    state, with the price of the product as its base price, and the
    listener reads off the dataset the identifier, name, image and price
    of that product, so that it does not report incomplete data. *)
Theorem loadProduct_agrees_with_addToCart (key : string) (product : Product.t) (p : Page) :
  productContent p <> None ->
  assoc key products = Some product ->
  exists (p' : Page) (data : Dataset.t),
    loadProduct (Some key) p = Some p'
    /\ Invariant p'
    /\ currentBasePrice p' = Num.ofZ (Product.price product)
    /\ productContent p' = Some data
    /\ productData data
       = Some (key, Product.name product, Product.image product,
               Num.ofZ (Product.price product)).
Proof.
  intros Hcontent Hfound. unfold loadProduct, lookupProduct. cbv zeta. cbn [from_option id].
  rewrite Hfound. destruct (productContent p) as [old|]; [|now contradiction Hcontent].
  eexists. eexists. split; [reflexivity|].
  split.
  { refine (conj _ (conj (conj _ _) (conj (conj _ _) (conj eq_refl eq_refl))));
      cbn; (lia || constructor). }
  split; [reflexivity|]. split; [reflexivity|].
  pose proof products_complete as Hall. rewrite Forall_forall in Hall.
  exact (Hall _ (assoc_elem_of _ _ _ Hfound)).
Qed.

Lemma loadProduct_agrees_with_addToCart_witness :
  exists (p' : Page) (data : Dataset.t),
    loadProduct (Some "kwela-kwela") start = Some p'
    /\ Invariant p'
    /\ currentBasePrice p' = Num.ofZ 22
    /\ productContent p' = Some data
    /\ productData data
       = Some ("kwela-kwela", "KWELA KWELA", "ORDERING/ORDERING 2.jpg", Num.ofZ 22).
Proof.
  apply (loadProduct_agrees_with_addToCart
           "kwela-kwela"
           (Product.make "KWELA KWELA"
              "FRESH BREAD, GREENS, POLONY, CHEESE, SECRET SAUCE AND CHIPS.(EXCLUDING THE LAYS)"
              22 "ORDERING/ORDERING 2.jpg")
           start).
  - discriminate.
  - reflexivity.
Defined.

(** The list item of the last entry of a cart. *)
Lemma renderItems_last (items : Cart) (item : Item.t) :
  forall (i : nat) (lis : list Li) (total : Num.t),
  exists (front : list Li) (src alt label options : string) (index : nat),
    fst (renderItems i (items ++ [item]) lis total)
    = front
        ++ [CartItemLi src alt label
              ("R" +:+ Num.toFixed2
                         (Num.mul (parseFloatOr0 (Item.basePrice item))
                                  (Num.ofZ (parseIntOr 1 (Item.quantity item)))))
              options index].
Proof.
  induction items as [|x items IH]; intros i lis total.
  - cbn [app renderItems fst]. eauto 10.
  - cbn [app renderItems]. apply IH.
Qed.

Lemma updateCartDisplay_items (e : Access) (w : World) :
  orderList (dom w) <> None ->
  readCart e w <> [] ->
  orderList (dom (updateCartDisplay e w))
  = Some (fst (renderItems 0 (readCart e w) [] (Num.ofZ 0))).
Proof.
  unfold updateCartDisplay, readCart. intros Hlist Hne.
  pose proof (getCart_frame e w) as (_ & _ & Hd & _).
  destruct (getCart e w) as [r w1]. cbn [snd] in Hd. rewrite Hd.
  destruct (orderList (dom w)) as [old|]; [clear Hlist | now contradiction Hlist].
  destruct (deref r w1) as [|item rest] eqn:Hcart; [now contradiction Hne|].
  destruct (renderItems 0 (item :: rest) [] (Num.ofZ 0)) as [lis total].
  reflexivity.
Qed.

(** What a read that does not throw returns after a write. *)
Lemma readCart_after_save (redraw : Access) (cart : Cart) (w : World) :
  kodijongCart (store w) = Some (TextArray (map jsonItem cart)) ->
  _cartCache (store w) = Some cart ->
  throws redraw = false ->
  readCart redraw w = cart \/ readCart redraw w = map jsonItem cart.
Proof.
  intros Hp Hc Ht. unfold readCart, getCart.
  destruct (cacheValid (now redraw) (store w)).
  - left. cbn. now rewrite Hc.
  - rewrite Ht, Hp. now right.
Qed.

(** The price of the line that the cart shows for the entry just added is
    the total that the product page showed for it: base price, extras and
    drinks, times the quantity.  This needs the base price of the dataset
    to be the one the page holds, as after [loadProduct], a price that is a
    finite number, and reads that do not throw. *)
Theorem cart_line_shows_the_page_total
        (sel : Selection) (e : AddEnv) (p : Page) (w : World)
        (data : Dataset.t) (productId productName productImage : string) (b : Q) :
  productContent p = Some data ->
  productData data
  = Some (productId, productName, productImage, currentBasePrice p) ->
  (1 <= currentQuantity p <= 10)%Z ->
  Num.add (Num.add (currentBasePrice p) (currentExtrasTotal p)) (currentDrinksTotal p)
  = Num.Fin b ->
  throws (addWrite e) = false ->
  throws (addRedraw e) = false ->
  orderList (dom w) <> None ->
  exists (lis : list Li) (src alt label options : string) (index : nat),
    orderList (dom (snd (addToCart sel e p w))) = Some lis
    /\ last lis
       = Some (CartItemLi src alt label ("R" +:+ Num.toFixed2 (total p)) options index).
Proof.
  intros Hdata Hread Hq Hfin Hw Hr Hlist.
  destruct (addToCart_saved sel e p w data productId productName productImage _
                            Hdata Hread Hw) as (w4 & -> & Hp & Hc & _ & Hdom & _).
  cbn [snd].
  set (item := cartItem productId productName productImage (currentBasePrice p) sel e p)
    in *.
  assert (Hcount : forall x, orderList (dom (updateCartCount x)) = orderList (dom x)).
  { intros x. unfold updateCartCount. now destruct (updateTimeout (debounce x)). }
  rewrite Hcount.
  assert (Hshape : exists front item',
             readCart (addRedraw e) w4 = front ++ [item']
             /\ Item.basePrice item' = JNum (Num.Fin b)
             /\ Item.quantity item' = JNum (Num.ofZ (currentQuantity p))).
  { destruct (readCart_after_save (addRedraw e) _ w4 Hp Hc Hr) as [-> | ->].
    - exists (readCart (addRead e) w), item. repeat split. cbn. now rewrite Hfin.
    - rewrite map_app. exists (map jsonItem (readCart (addRead e) w)), (jsonItem item).
      repeat split. cbn. now rewrite Hfin. }
  destruct Hshape as (front & item' & Hcart & Hbase & Hquantity).
  rewrite updateCartDisplay_items;
    [| now rewrite Hdom | rewrite Hcart; now destruct front].
  rewrite Hcart.
  destruct (renderItems_last front item' 0 [] (Num.ofZ 0))
    as (lis & src & alt & label & options & index & ->).
  exists (lis ++ [CartItemLi src alt label
                    ("R" +:+ Num.toFixed2
                               (Num.mul (parseFloatOr0 (Item.basePrice item'))
                                        (Num.ofZ (parseIntOr 1 (Item.quantity item')))))
                    options index]), src, alt, label, options, index.
  split; [reflexivity|]. rewrite last_snoc. do 3 f_equal.
  rewrite Hbase, Hquantity. rewrite parseIntOr_whole by lia.
  destruct (parseFloatOr0_number b) as (b' & -> & Hb').
  unfold total. rewrite Hfin. cbn [Num.mul Num.ofZ].
  apply toFixed2_Qeq. now rewrite Hb'.
Qed.

Lemma cart_line_shows_the_page_total_witness :
  let p := updateExtra (Some "Cheese") (Num.ofZ 5) 2
                       (default start (loadProduct (Some "big-boss") start)) in
  total p = Num.Fin (95 # 1)
  /\ exists (lis : list Li) (src alt label options : string) (index : nat),
      orderList (dom (snd (addToCart choice (adding (Sample.at_ 5001)) p
                                     (Sample.world (Some (TextArray [Sample.chips]))
                                                   "" ""))))
      = Some lis
      /\ last lis
         = Some (CartItemLi src alt label ("R" +:+ Num.toFixed2 (total p)) options index).
Proof.
  cbn zeta. split; [reflexivity|].
  apply (cart_line_shows_the_page_total
           choice (adding (Sample.at_ 5001))
           (updateExtra (Some "Cheese") (Num.ofZ 5) 2
                        (default start (loadProduct (Some "big-boss") start)))
           (Sample.world (Some (TextArray [Sample.chips])) "" "")
           (Dataset.make (Some "big-boss") (Some "BIG BOSS") (Some "85")
                         (Some "ORDERING/ORDERING 19.jpg"))
           "big-boss" "BIG BOSS" "ORDERING/ORDERING 19.jpg" (95 # 1)).
  - reflexivity.
  - vm_compute. reflexivity.
  - cbn. lia.
  - reflexivity.
  - reflexivity.
  - reflexivity.
  - discriminate.
Defined.

End ProductPagePrice.

(** ** The menu page: the scroll position *)

Section IndexPageScroll.

Import IndexPage.

Lemma ofN_not_empty (n : N) : Str.isEmpty (Str.ofN n) = false.
Proof.
  unfold Str.ofN. pose proof (to_uint_nonnil n) as Hn.
  destruct (N.to_uint n); [contradiction | reflexivity ..].
Qed.

(** A position saved is restored when the page is loaded again less than
    five minutes later, as the whole number of pixels below the offset
    saved; from five minutes on, the load removes the two keys and scrolls
    nowhere.  The offset and the time are taken up to [2^53], where the
    numbers of the script are exact. *)
Theorem scroll_position_round_trip
        (pageYOffset : Q) (saved loaded : Z) (s : ScrollStore) (w : World) :
  (0 <= Qfloor pageYOffset <= 2 ^ 53)%Z ->
  (0 <= saved <= 2 ^ 53)%Z ->
  let s1 := fst (save pageYOffset saved NoFault s w) in
  let w1 := snd (save pageYOffset saved NoFault s w) in
  w1 = w
  /\ ((loaded - saved < 300000)%Z ->
      restore loaded false s1 w1 = (ScrollTo (Some (Qfloor pageYOffset)), s1, w))
  /\ ((300000 <= loaded - saved)%Z ->
      restore loaded false s1 w1
      = (NotRestored,
         {| kodijongScrollPosition := None; kodijongScrollTimestamp := None |}, w)).
Proof.
  intros Hy Ht. cbn zeta. cbn [save fst snd]. split; [reflexivity|].
  unfold restore. cbn [kodijongScrollPosition kodijongScrollTimestamp].
  rewrite !toString_whole by lia. rewrite !ofN_not_empty. cbn [negb andb].
  rewrite !parseInt_ofN. rewrite !Z2N.id by lia.
  split; intros Hage.
  - now replace (loaded - saved <? 300000)%Z with true by (symmetry; apply Z.ltb_lt; lia).
  - now replace (loaded - saved <? 300000)%Z with false by (symmetry; apply Z.ltb_ge; lia).
Qed.

Lemma scroll_position_round_trip_witness :
  restore 1700000299999 false
          (fst (save (4321 # 10) 1700000000000 NoFault
                     {| kodijongScrollPosition := None; kodijongScrollTimestamp := None |}
                     (Sample.world None "" "")))
          (Sample.world None "" "")
  = (ScrollTo (Some (Qfloor (4321 # 10))),
     fst (save (4321 # 10) 1700000000000 NoFault
               {| kodijongScrollPosition := None; kodijongScrollTimestamp := None |}
               (Sample.world None "" "")),
     Sample.world None "" "").
Proof.
  apply (proj1 (proj2 (scroll_position_round_trip
                         (4321 # 10) 1700000000000 1700000299999
                         {| kodijongScrollPosition := None;
                            kodijongScrollTimestamp := None |}
                         (Sample.world None "" "")
                         ltac:(vm_compute; split; discriminate)
                         ltac:(lia)))).
  lia.
Defined.

(** ** The menu page: the order button *)

(** The store after [sendWhatsAppOrder] returned [true] with a storage
    write that did not throw, and the parts of the page it leaves. *)
Lemma sendWhatsAppOrder_true_store (e : SendEnv) (w : World) :
  fst (sendWhatsAppOrder e w) = true ->
  throws (cartWrite e) = false ->
  let w' := snd (sendWhatsAppOrder e w) in
  kodijongCart (store w') = Some (TextArray [])
  /\ _cartCache (store w') = Some []
  /\ orderList (dom w') = orderList (dom w)
  /\ totalPriceElement (dom w') = totalPriceElement (dom w)
  /\ orderListListeners (dom w') = orderListListeners (dom w).
Proof.
  unfold sendWhatsAppOrder.
  pose proof (getCart_frame (cartRead e) w) as (_ & _ & Hd & _).
  destruct (getCart (cartRead e) w) as [r w1] eqn:Hg. cbn [snd] in *.
  destruct (deref r w1) as [|item rest]; [discriminate|].
  destruct (Str.isEmpty _ || Str.isEmpty _); [discriminate|].
  destruct (negb (Regex.test phoneRegex _)); [discriminate|].
  destruct (popup e); [|discriminate|discriminate].
  set (url := whatsappUrl _). clearbody url.
  intros _ Hw.
  pose proof (getCart_after_clearing (cartWrite e) (countRead e) (windowOpened url w1) Hw)
    as Hclear.
  unfold _updateCartCountImmediate.
  pose proof (getCart_frame (countRead e)
                (snd (saveCart (AnArray []) (cartWrite e) (windowOpened url w1))))
    as (_ & _ & Hd3 & _).
  destruct (saveCart (AnArray []) (cartWrite e) (windowOpened url w1)) as [ok w3] eqn:Hsave.
  assert (Hdom3 : dom w3 = dom w1).
  { unfold saveCart in Hsave. rewrite Hw in Hsave. now injection Hsave as _ <-. }
  cbn [snd] in *.
  destruct (getCart (countRead e) w3) as [r4 w4]. cbn [snd] in *.
  match goal with
  | |- context [showNotification ?m ?t ?w0] =>
    destruct (showNotification_frame m t w0) as (Hs' & _ & Hd' & _)
  end.
  cbn zeta in *. rewrite Hs', Hd'. cbn. rewrite Hd3, Hdom3, Hd.
  destruct Hclear as [Hp Hc]. now repeat split.
Qed.

(** A click on the order button that sends the order, with a storage
    write that does not throw: afterwards the persisted cart is empty, the
    order list of the page is the one placeholder item and the total
    reads zero. *)
Theorem whatsappClick_empties_the_list
        (e : SendEnv) (redraw : Access) (pageYOffset : Q) (now : Z) (fault : SaveFault)
        (s : ScrollStore) (w : World) :
  fst (sendWhatsAppOrder e w) = true ->
  throws (cartWrite e) = false ->
  orderList (dom w) <> None ->
  let w' := snd (whatsappClick e redraw pageYOffset now fault s w) in
  kodijongCart (store w') = Some (TextArray [])
  /\ orderList (dom w') = Some [EmptyCartLi]
  /\ totalPriceElement (dom w')
     = option_map (fun _ => "R0.00") (totalPriceElement (dom w)).
Proof.
  intros Hsent Hw Hlist. cbn zeta. unfold whatsappClick.
  pose proof (sendWhatsAppOrder_true_store e w Hsent Hw) as (Hp & Hc & Hl & Ht & _).
  destruct (sendWhatsAppOrder e w) as [result w1]. cbn [fst snd] in *. subst result.
  assert (Hsave : forall x, store (snd (save pageYOffset now fault s x)) = store x
                            /\ dom (snd (save pageYOffset now fault s x)) = dom x).
  { intros x. unfold save. destruct fault; now split. }
  destruct (Hsave (updateCartDisplay redraw w1)) as [-> ->].
  unfold updateCartDisplay.
  pose proof (getCart_frame redraw w1) as (_ & _ & Hd & _).
  pose proof (getCart_after_save redraw [] w1 Hp Hc) as [Hp2 Hc2].
  destruct (getCart redraw w1) as [r w2]. cbn [snd] in *.
  assert (Hempty : deref r w2 = []).
  { destruct r; [|reflexivity]. cbn. now destruct Hc2 as [-> | ->]. }
  rewrite Hempty, Hd, Hl.
  destruct (orderList (dom w)) as [old|]; [|now contradiction Hlist].
  cbn. rewrite Hd, Ht. split; [assumption|]. split; [reflexivity|].
  now destruct (totalPriceElement (dom w)).
Qed.

Lemma whatsappClick_empties_the_list_witness :
  orderList
    (dom (snd (whatsappClick
                 (Sample.sending WindowOpened (Sample.at_ 5001)) (Sample.at_ 5003)
                 (4321 # 10) 1700000000000 NoFault
                 {| kodijongScrollPosition := None; kodijongScrollTimestamp := None |}
                 (Sample.world (Some (TextArray [Sample.kota; Sample.chips]))
                               "Thabo" "+27 82 123 4567"))))
  = Some [EmptyCartLi].
Proof.
  apply (whatsappClick_empties_the_list
           (Sample.sending WindowOpened (Sample.at_ 5001)) (Sample.at_ 5003)
           (4321 # 10) 1700000000000 NoFault
           {| kodijongScrollPosition := None; kodijongScrollTimestamp := None |}
           (Sample.world (Some (TextArray [Sample.kota; Sample.chips]))
                         "Thabo" "+27 82 123 4567")).
  - vm_compute. reflexivity.
  - reflexivity.
  - discriminate.
Defined.

End IndexPageScroll.

(** ** The options the product page writes *)

Section ProductPageOptions.

Import ProductPage.

Lemma splitFrom_whole (sep : string) (s : string) :
  forall cur : string,
    includes sep s = false -> Str.splitFrom sep cur 0 s = [cur +:+ s].
Proof.
  induction s as [|a r IH]; intros cur Hno.
  - cbn. now rewrite append_empty_r.
  - cbn [includes] in Hno. apply orb_false_iff in Hno as [Hhead Hrest].
    cbn [Str.splitFrom]. rewrite Hhead, (IH _ Hrest), append_assoc.
    reflexivity.
Qed.

Lemma split_after_greens (g rest : string) :
  g = "with greens" \/ g = "no greens" ->
  Str.split " | " (("Greens: " +:+ g) +:+ " | " +:+ rest)
  = ("Greens: " +:+ g) :: Str.split " | " rest.
Proof.
  intros [-> | ->]; unfold Str.split; unfold_append; cbn; destruct rest; reflexivity.
Qed.


Lemma collectOptions_written (sel : Selection) :
  collectOptions sel
  = match greensWritten sel with
    | Some g => ["Greens: " +:+ g]
    | None => []
    end
      ++ match saucesWritten sel with
         | Some s => ["Sauces: " +:+ s]
         | None => []
         end.
Proof.
  unfold collectOptions, greensWritten, saucesWritten. f_equal.
  - now destruct (greens sel).
  - destruct (sauce sel) as [s|]; [|reflexivity].
    destruct (String.eqb s "Custom"); [now destruct (customSauces sel)|].
    destruct (String.eqb s "All"); [reflexivity|].
    now destruct (String.eqb s "No Sauce").
Qed.

Lemma greensWritten_values (sel : Selection) (g : string) :
  greensWritten sel = Some g -> g = "with greens" \/ g = "no greens".
Proof.
  unfold greensWritten. destruct (greens sel) as [v|]; [|discriminate].
  intros [= <-]. destruct (String.eqb v "Yes"); [now left | now right].
Qed.

Lemma decodeOption_greens (g : string) :
  g = "with greens" \/ g = "no greens" -> decodeOption ("Greens: " +:+ g) = [Greens g].
Proof. intros [-> | ->]; reflexivity. Qed.

Lemma decodeOption_sauces (s : string) :
  decodeOption ("Sauces: " +:+ s) = [Sauces (Str.trim s)].
Proof.
  unfold decodeOption. unfold_append. cbn. destruct s; reflexivity.
Qed.

(** The options the add-to-cart listener writes are read back by the cart
    display and by the order message as the choices made: the Greens piece
    with the value written, one of [with greens] and [no greens], which the
    two then show alike, and the Sauces piece with the value written,
    trimmed.  The text of the sauces must not hold the separator, a bar
    between two spaces. *)
Theorem added_options_decode
        (productId productName productImage : string) (basePrice : Num.t)
        (sel : Selection) (e : AddEnv) (p : Page) :
  (forall s, saucesWritten sel = Some s -> includes " | " ("Sauces: " +:+ s) = false) ->
  let item := cartItem productId productName productImage basePrice sel e p in
  segments (decode item)
  = match greensWritten sel with
    | Some g => [Greens g]
    | None => []
    end
      ++ match saucesWritten sel with
         | Some s => [Sauces (Str.trim s)]
         | None => []
         end
  /\ (forall g, greensWritten sel = Some g ->
                displayValue (Greens g) = g /\ textValue (Greens g) = g).
Proof.
  intros Hbar. cbn zeta. split.
  - unfold decode, cartItem. cbn [segments Item.options]. rewrite collectOptions_written.
    pose proof (greensWritten_values sel) as Hg.
    destruct (greensWritten sel) as [g|], (saucesWritten sel) as [s|]; cbn [app Str.join].
    + specialize (Hg g eq_refl). specialize (Hbar s eq_refl).
      replace (Str.isEmpty (("Greens: " +:+ g) +:+ " | " +:+ "Sauces: " +:+ s)) with false
        by (now destruct Hg as [-> | ->]).
      rewrite split_after_greens by assumption.
      unfold Str.split. rewrite splitFrom_whole by assumption. rewrite append_nil.
      cbn [flat_map]. rewrite decodeOption_greens by assumption.
      now rewrite decodeOption_sauces.
    + specialize (Hg g eq_refl).
      destruct Hg as [-> | ->]; reflexivity.
    + specialize (Hbar s eq_refl).
      replace (Str.isEmpty ("Sauces: " +:+ s)) with false by reflexivity.
      unfold Str.split. rewrite splitFrom_whole by assumption. rewrite append_nil.
      cbn [flat_map]. now rewrite decodeOption_sauces.
    + reflexivity.
  - intros g Hg. destruct (greensWritten_values sel g Hg) as [-> | ->]; now split.
Qed.

Lemma added_options_decode_witness :
  segments (decode (cartItem "big-boss" "BIG BOSS" "ORDERING/ORDERING 19.jpg"
                             (Num.ofZ 85) choice (adding (Sample.at_ 5001)) start))
  = [Greens "with greens"; Sauces (Str.trim "Chilli, Mayo")].
Proof.
  apply (added_options_decode "big-boss" "BIG BOSS" "ORDERING/ORDERING 19.jpg"
                              (Num.ofZ 85) choice (adding (Sample.at_ 5001)) start).
  intros s [= <-]. reflexivity.
Defined.

End ProductPageOptions.

(** ** Entries without options *)

Lemma append_eq_empty (s t : string) : s +:+ t = "" -> s = "" /\ t = "".
Proof.
  destruct s as [|a s]; [now rewrite append_nil | rewrite append_cons; discriminate].
Qed.

Lemma join_eq_empty (l : list string) :
  Forall (fun x => x <> "") l -> Str.join "" l = "" -> l = [].
Proof.
  destruct 1 as [|x l Hx _]; [reflexivity|].
  rewrite join_cons. intros [Hempty _]%append_eq_empty. contradiction.
Qed.

Lemma formatOptionsForDisplay_decode (item : Item.t) :
  formatOptionsForDisplay item = renderHtml (decode item).
Proof.
  unfold formatOptionsForDisplay, renderHtml, decode. cbn [segments extrasListed drinksListed].
  rewrite !addonFragments_decode. f_equal. f_equal.
  unfold optionFragments. destruct (Item.options item) as [| | | |s]; try reflexivity.
  destruct (Str.isEmpty s); [reflexivity | apply displayOptions_decode].
Qed.

Lemma formatOptionsText_decode (item : Item.t) :
  formatOptionsText item = renderText (decode item).
Proof.
  unfold formatOptionsText, renderText, decode. cbn [segments extrasListed drinksListed].
  rewrite !textAddonLine_decode. f_equal.
  destruct (Item.options item) as [| | | |s]; try reflexivity.
  destruct (Str.isEmpty s); [reflexivity | apply textOptions_decode].
Qed.

Lemma renderHtml_empty (d : Decoded) : renderHtml d = "" <-> NothingDecoded d.
Proof.
  unfold renderHtml, NothingDecoded. split.
  - intros H. apply join_eq_empty in H.
    + apply app_eq_nil in H as [Hs H]. apply app_eq_nil in H as [He Hd].
      repeat split.
      * now destruct (segments d).
      * now destruct (extrasListed d).
      * now destruct (drinksListed d).
    + rewrite !Forall_app. repeat split.
      * apply Forall_forall. intros x [seg [-> _]]%list_elem_of_fmap. now destruct seg.
      * destruct (extrasListed d); constructor; [discriminate | constructor].
      * destruct (drinksListed d); constructor; [discriminate | constructor].
  - intros (-> & -> & ->). reflexivity.
Qed.

Lemma renderText_empty (d : Decoded) : renderText d = "" <-> NothingDecoded d.
Proof.
  unfold renderText, NothingDecoded. split.
  - intros [Hs [He Hd]%append_eq_empty]%append_eq_empty.
    repeat split.
    + destruct (segments d) as [|seg segs]; [reflexivity|].
      cbn [map] in Hs. rewrite join_cons in Hs. now destruct seg.
    + now destruct (extrasListed d).
    + now destruct (drinksListed d).
  - intros (-> & -> & ->). reflexivity.
Qed.

(** An entry gets an options block in the cart display exactly when it
    gets option lines in the order message: each of the two is empty if and
    only if the options string has no Greens and no Sauces piece and no
    extra and no drink has a quantity above zero. *)
Theorem options_shown_iff_decoded (item : Item.t) :
  (formatOptionsForDisplay item = "" <-> NothingDecoded (decode item))
  /\ (formatOptionsText item = "" <-> NothingDecoded (decode item))
  /\ (formatOptionsForDisplay item = "" <-> formatOptionsText item = "").
Proof.
  rewrite formatOptionsForDisplay_decode, formatOptionsText_decode.
  pose proof (renderHtml_empty (decode item)) as Hh.
  pose proof (renderText_empty (decode item)) as Ht.
  split; [exact Hh | split; [exact Ht | now rewrite Hh, Ht]].
Qed.

(** ** The count on a page just loaded *)

Section PageLoad.

Import IndexPage.

(** On the menu page the two listeners of [DOMContentLoaded] call
    [updateCartCount] twice before its timer fires, so the one timer they
    set refreshes the count: every count element then reads as the number
    of items in the cart, for a count up to [2^53]. *)
Theorem page_load_refreshes_the_count (redraw e : Access) (w : World) :
  DebounceIdle w ->
  let w1 := cartLoaded redraw w in
  let w2 := cartCountFlush e w1 in
  let total := totalItems (readCart e w1) in
  (total <= 2 ^ 53)%Z ->
  timers w1 = timers w ++ [(50%Z, CartCountFlush)]
  /\ Forall (fun el =>
               default 0%Z (Num.parseIntString false (textContent el)) = total)
            (cartElements (dom w2))
  /\ DebounceIdle w2.
Proof.
  intros [Ht Hp]. cbn zeta. unfold cartLoaded.
  set (w0 := updateCartCount w).
  assert (H0 : debounce w0 = {| updateTimeout := true; pendingUpdate := false |}
               /\ timers w0 = timers w ++ [(50%Z, CartCountFlush)]).
  { unfold w0, updateCartCount. rewrite Ht. cbn. now rewrite Hp. }
  destruct H0 as [Hd0 Ht0].
  assert (H1 : debounce (updateCartDisplay redraw w0) = debounce w0
               /\ timers (updateCartDisplay redraw w0) = timers w0).
  { unfold updateCartDisplay.
    pose proof (getCart_frame redraw w0) as (_ & Hb & _ & _ & Htm).
    destruct (getCart redraw w0) as [r w'']. cbn [snd] in *.
    destruct (orderList (dom w'')); [|now split].
    destruct (match deref r w'' with [] => _ | _ => _ end) as [lis total].
    now split. }
  destruct H1 as [Hd1 Ht1].
  set (w1 := updateCartDisplay redraw w0) in *.
  rewrite updateCartCount_again by (rewrite Hd1, Hd0; reflexivity).
  intros Hmax. split; [cbn; congruence|].
  unfold cartCountFlush. cbn [withDebounce debounce pendingUpdate].
  set (w3 := withDebounce _ (withDebounce _ (withDebounce _ w1))).
  assert (Hread : readCart e w3 = readCart e (withDebounce
                    (fun _ => {| updateTimeout := true; pendingUpdate := true |}) w1)).
  { unfold readCart.
    destruct (getCart_store e w3 (withDebounce
                (fun _ => {| updateTimeout := true; pendingUpdate := true |}) w1)
                eq_refl) as [Hs Hf].
    destruct (getCart e w3) as [r3 w3'], (getCart e (withDebounce _ w1)) as [r1 w1'].
    cbn [fst snd] in *. subst r3. destruct r1; cbn; [now rewrite Hs | reflexivity]. }
  rewrite <- Hread in *.
  split.
  - unfold _updateCartCountImmediate, readCart in *.
    pose proof (getCart_frame e w3) as (_ & _ & Hdom & _).
    destruct (getCart e w3) as [r w4]. cbn [snd] in *.
    cbn [withDom dom cartElements].
    apply Forall_map, Forall_forall. intros el _. cbn.
    apply refreshCount_reads. pose proof (totalItems_nonneg (deref r w4)). lia.
  - unfold _updateCartCountImmediate.
    pose proof (getCart_frame e w3) as (_ & Hb & _).
    destruct (getCart e w3) as [r w4]. cbn [snd] in *.
    unfold DebounceIdle. cbn. rewrite Hb. now split.
Qed.

Lemma page_load_refreshes_the_count_witness :
  Forall (fun el => default 0%Z (Num.parseIntString false (textContent el)) = 6%Z)
         (cartElements
            (dom (cartCountFlush
                    (Sample.at_ 5050)
                    (cartLoaded
                       (Sample.at_ 5000)
                       (Sample.world
                          (Some (TextArray [Sample.kota; Sample.chips; Sample.wings]))
                          "" ""))))).
Proof.
  apply (proj1 (proj2 (page_load_refreshes_the_count
                         (Sample.at_ 5000) (Sample.at_ 5050)
                         (Sample.world
                            (Some (TextArray [Sample.kota; Sample.chips; Sample.wings]))
                            "" "")
                         ltac:(split; reflexivity)
                         ltac:(vm_compute; discriminate)))).
Defined.

End PageLoad.

(** ** The total of the order message *)

Lemma orderSummary_renderItems (cart : Cart) :
  forall (i j : nat) (message : string) (lis : list Li) (total : Num.t),
    snd (orderSummary i cart message total) = snd (renderItems j cart lis total).
Proof.
  induction cart as [|item cart IH]; intros i j message lis total; [reflexivity|].
  cbn [orderSummary renderItems]. apply IH.
Qed.

(** The order message states the total that the cart display shows for
    the same cart, whatever its entries hold: the two loops add up the same
    numbers. *)
Theorem message_total_is_display_total
        (e : Access) (w : World) (orderNumber : Z) (name displayPhone : string)
        (orderTime instructions : string) :
  orderList (dom w) <> None ->
  totalPriceElement (dom w) <> None ->
  readCart e w <> [] ->
  exists (total : Num.t) (lines : string),
    totalPriceElement (dom (updateCartDisplay e w)) = Some ("R" +:+ Num.toFixed2 total)
    /\ buildMessage orderNumber name displayPhone (readCart e w) orderTime instructions
       = lines +:+ totalAmountLine total +:+ messageFooter orderTime instructions.
Proof.
  intros Hlist Htotal Hcart.
  rewrite (updateCartDisplay_total e w Hlist Htotal).
  destruct (readCart e w) as [|item rest] eqn:Hread; [now contradiction Hcart|].
  unfold buildMessage.
  pose proof (orderSummary_renderItems (item :: rest) 0 0
                (messageHeader orderNumber name displayPhone) [] (Num.ofZ 0)) as Hsame.
  destruct (orderSummary 0 (item :: rest) _ (Num.ofZ 0)) as [message cartTotal].
  cbn [snd] in Hsame. subst cartTotal. eauto.
Qed.

Lemma message_total_is_display_total_witness :
  exists (total : Num.t) (lines : string),
    totalPriceElement
      (dom (updateCartDisplay
              (Sample.at_ 5000)
              (Sample.world (Some (TextArray [Sample.kota; Sample.chips])) "" "")))
    = Some ("R" +:+ Num.toFixed2 total)
    /\ buildMessage 7456 "Thabo" "0821234567"
                    (readCart (Sample.at_ 5000)
                              (Sample.world (Some (TextArray [Sample.kota; Sample.chips]))
                                            "" ""))
                    "02 Nov 2026, 12:00" ""
       = lines +:+ totalAmountLine total +:+ messageFooter "02 Nov 2026, 12:00" "".
Proof.
  apply (message_total_is_display_total
           (Sample.at_ 5000)
           (Sample.world (Some (TextArray [Sample.kota; Sample.chips])) "" "")
           7456 "Thabo" "0821234567" "02 Nov 2026, 12:00" "").
  - discriminate.
  - discriminate.
  - vm_compute. discriminate.
Defined.

(** ** The product page: the controls of an extra or a drink *)

Section ProductPageControls.

Import ProductPage.

Lemma updateOf_entries (kind : Kind) (name : option string) (price : Num.t)
      (quantity : Z) (p : Page) :
  entriesOf kind (updateOf kind name price quantity p)
  = updateEntries name price quantity (entriesOf kind p).
Proof. now destruct kind. Qed.

Lemma Invariant_entries (kind : Kind) (p : Page) :
  Invariant p -> NoDup (map Extra.name (entriesOf kind p)).
Proof. intros (_ & [_ He] & [_ Hd] & _). now destruct kind. Qed.

(** The controls of an extra or a drink set the quantity that the page
    holds under its name.  Typing into the input sets it to the number
    typed, brought into the range from 0 to 10, and leaves that number in
    the input.  A click on the plus button, while the input holds less than
    10, sets it to one more, and a click on the minus button, while the
    input holds more than 0, to one less; otherwise a click changes
    nothing. *)
Theorem addon_controls_set_the_quantity
        (kind : Kind) (name priceAttr : option string) (held : string) (p : Page) :
  Invariant p ->
  let n := quantityOfInput held in
  (let clamped := Z.min 10 (Z.max 0 n) in
   let '(value, p') := addonInputChanged kind name priceAttr held p in
   value = Num.toString (Num.ofZ clamped)
   /\ quantityOf name (entriesOf kind p') = clamped)
  /\ (let '(value, p') := stepClick kind PlusButton name priceAttr (Some held) p in
      if (n <? 10)%Z
      then value = Some (Num.toString (Num.ofZ (n + 1)))
           /\ (0 <= n -> quantityOf name (entriesOf kind p') = n + 1)%Z
      else value = Some held /\ p' = p)
  /\ (let '(value, p') := stepClick kind MinusButton name priceAttr (Some held) p in
      if (0 <? n)%Z
      then value = Some (Num.toString (Num.ofZ (n - 1)))
           /\ quantityOf name (entriesOf kind p') = (n - 1)%Z
      else value = Some held /\ p' = p).
Proof.
  intros Hinv. pose proof (Invariant_entries kind p Hinv) as Hdup. cbn zeta.
  split; [|split].
  - unfold addonInputChanged.
    set (n := quantityOfInput held).
    assert (Hclamp : (if (10 <? (if (n <? 0)%Z then 0%Z else n))%Z then 10%Z
                      else (if (n <? 0)%Z then 0%Z else n)) = Z.min 10 (Z.max 0 n)).
    { destruct (Z.ltb_spec n 0); [cbn; lia|]. destruct (Z.ltb_spec 10 n); lia. }
    rewrite Hclamp. split; [reflexivity|].
    now rewrite updateOf_entries, updateEntries_quantity_same by (assumption || lia).
  - unfold stepClick. destruct (Z.ltb_spec (quantityOfInput held) 10); [|now split].
    split; [reflexivity|]. intros Hn.
    now rewrite updateOf_entries, updateEntries_quantity_same by (assumption || lia).
  - unfold stepClick. destruct (Z.ltb_spec 0 (quantityOfInput held)); [|now split].
    split; [reflexivity|].
    now rewrite updateOf_entries, updateEntries_quantity_same by (assumption || lia).
Qed.

Lemma addon_controls_set_the_quantity_witness :
  quantityOf (Some "Cheese")
             (extras (snd (addonInputChanged OfExtras (Some "Cheese") (Some "5") "42"
                                             start)))
  = 10%Z.
Proof.
  refine (proj2 (proj1 (addon_controls_set_the_quantity
                          OfExtras (Some "Cheese") (Some "5") "42" start _))).
  refine (conj _ (conj (conj _ _) (conj (conj _ _) (conj eq_refl eq_refl))));
    cbn; (lia || constructor).
Defined.

End ProductPageControls.

(** ** The count after an entry is added *)

Section ProductPageCount.

Import ProductPage.

(** The add-to-cart listener calls [updateCartCount] once.  With no timer
    pending at the click, the timer it sets fires without an update
    pending: the cart has gained an entry, and the count elements of the
    page are as they were before the click. *)
Theorem addToCart_leaves_the_count
        (sel : Selection) (e : AddEnv) (flush : Access) (p : Page) (w : World)
        (data : Dataset.t) (productId productName productImage : string)
        (basePrice : Num.t) :
  productContent p = Some data ->
  productData data = Some (productId, productName, productImage, basePrice) ->
  throws (addWrite e) = false ->
  DebounceIdle w ->
  let w' := snd (addToCart sel e p w) in
  let item := cartItem productId productName productImage basePrice sel e p in
  kodijongCart (store w')
  = Some (TextArray (map jsonItem (readCart (addRead e) w ++ [item])))
  /\ last (timers w') = Some (50%Z, CartCountFlush)
  /\ cartElements (dom (cartCountFlush flush w')) = cartElements (dom w)
  /\ store (cartCountFlush flush w') = store w'
  /\ DebounceIdle (cartCountFlush flush w').
Proof.
  intros Hdata Hread Hw [Ht Hp]. cbn zeta.
  destruct (addToCart_saved sel e p w data productId productName productImage basePrice
                            Hdata Hread Hw) as (w4 & -> & Hpers & Hc & _ & Hdom & Hdeb).
  cbn [snd].
  destruct (redraw_frame (addRedraw e) w4) as [Hs _].
  destruct (getCart_after_save (addRedraw e) _ w4 Hpers Hc) as [Hp' _].
  cbn zeta in Hs. split; [now rewrite Hs|].
  assert (H1 : debounce (updateCartDisplay (addRedraw e) w4) = debounce w4
               /\ cartElements (dom (updateCartDisplay (addRedraw e) w4))
                  = cartElements (dom w4)).
  { unfold updateCartDisplay.
    pose proof (getCart_frame (addRedraw e) w4) as (_ & Hb & Hd & _).
    destruct (getCart (addRedraw e) w4) as [r w5]. cbn [snd] in *.
    destruct (orderList (dom w5)); [|now rewrite Hb, Hd].
    destruct (match deref r w5 with [] => _ | _ => _ end) as [lis total].
    cbn. now rewrite Hb, Hd. }
  destruct H1 as [Hd1 He1].
  set (w5 := updateCartDisplay (addRedraw e) w4) in *.
  unfold updateCartCount. rewrite Hd1, Hdeb, Ht.
  unfold cartCountFlush. cbn. rewrite Hd1, Hdeb, Hp. cbn.
  rewrite He1, Hdom. repeat split; [apply last_snoc|].
  cbn. now rewrite Hd1, Hdeb.
Qed.

Lemma addToCart_leaves_the_count_witness :
  cartElements
    (dom (cartCountFlush
            (Sample.at_ 5060)
            (snd (addToCart choice (adding (Sample.at_ 5001))
                            (default start (loadProduct (Some "big-boss") start))
                            (Sample.world (Some (TextArray [Sample.chips])) "" "")))))
  = cartElements (dom (Sample.world (Some (TextArray [Sample.chips])) "" "")).
Proof.
  apply (addToCart_leaves_the_count
           choice (adding (Sample.at_ 5001)) (Sample.at_ 5060)
           (default start (loadProduct (Some "big-boss") start))
           (Sample.world (Some (TextArray [Sample.chips])) "" "")
           (Dataset.make (Some "big-boss") (Some "BIG BOSS") (Some "85")
                         (Some "ORDERING/ORDERING 19.jpg"))
           "big-boss" "BIG BOSS" "ORDERING/ORDERING 19.jpg" (Num.ofZ 85)).
  - reflexivity.
  - vm_compute. reflexivity.
  - reflexivity.
  - split; reflexivity.
Defined.

End ProductPageCount.
